(** * Strategy execution engine of the Binance futures bot

    A shallow embedding of [src/advanced/twap.py] (class [TWAPStrategy]) and
    [src/advanced/grid_strategy.py] (class [GridStrategy]), and the properties
    of the strategy state machines proved about it.

    Layout: Python's numbers, exceptions, the TWAP engine, the grid engine,
    then the theorems. *)

From Stdlib Require Import ZArith QArith Qcanon Lqa Lia.
From Stdlib Require Import Floats.PrimFloat Floats.FloatOps Floats.SpecFloat.
From stdpp Require Import gmap strings list numbers pretty sorting.
Set Warnings "-inexact-float".

(** ** Numbers

    Quantities and prices are Python [float]s, counts are Python [int]s.
    The engine is written once over the operations it uses on floats; it is
    instantiated with IEEE 754 binary64 (what CPython computes with) and with
    exact rationals (the arithmetic the accounting identities are meant in). *)

Class Arith (F : Type) := {
  fzero : F;                  (* 0.0, and the int 0 where it meets a float *)
  fadd : F -> F -> F;
  fsub : F -> F -> F;
  fmul : F -> F -> F;
  fdiv : F -> F -> F;         (* x / y for y != 0 *)
  feqb : F -> F -> bool;      (* x == y *)
  fltb : F -> F -> bool;      (* x < y *)
  fleb : F -> F -> bool;      (* x <= y *)
  fabs : F -> F;              (* abs(x) *)
  of_int : Z -> F;            (* an int operand converted to float *)
  round2 : F -> F;            (* round(x, 2) *)
  milli : F;                  (* the literal 0.001 *)
  of_int_overflows : Z -> bool;     (* the conversion raises OverflowError *)
  int_truediv : Z -> Z -> option F; (* a / b on two ints, b != 0; [None] is
                                       OverflowError *)
  fsum : list F -> F;               (* the builtin sum(xs) *)
  sleep_overflows : F -> bool       (* time.sleep(x) cannot convert x *)
}.

(** [a / b] rounded to the nearest integer, ties to the even one ([b > 0]). *)
Definition div_half_even (a b : Z) : Z :=
  let q := (a / b)%Z in
  match (2 * (a mod b) ?= b)%Z with
  | Lt => q
  | Gt => (q + 1)%Z
  | Eq => if Z.even q then q else (q + 1)%Z
  end.

(** Exact rationals. Nothing overflows but the clock of [time.sleep], which
    counts nanoseconds in 64 bits. *)
Definition Qc_round2 (x : Qc) : Qc :=
  Q2Qc (div_half_even (100 * Qnum x) (Z.pos (Qden x)) # 100).

Definition Qc_abs (x : Qc) : Qc := if bool_decide (x < 0)%Qc then (- x)%Qc else x.

Definition Qc_sleep_overflows (x : Qc) : bool :=
  negb (bool_decide (Qc_of_Z (- 2 ^ 63) <= x * Qc_of_Z (10 ^ 9))%Qc
        && bool_decide (x * Qc_of_Z (10 ^ 9) < Qc_of_Z (2 ^ 63))%Qc).

#[export] Instance Qc_arith : Arith Qc := {|
  fzero := 0%Qc;
  fadd := Qcplus;
  fsub := Qcminus;
  fmul := Qcmult;
  fdiv := Qcdiv;
  feqb := fun x y => bool_decide (x = y);
  fltb := fun x y => bool_decide (x < y)%Qc;
  fleb := fun x y => bool_decide (x <= y)%Qc;
  fabs := Qc_abs;
  of_int := Qc_of_Z;
  round2 := Qc_round2;
  milli := Q2Qc (1 # 1000);
  of_int_overflows := fun _ => false;
  int_truediv := fun a b => Some (Qc_of_Z a / Qc_of_Z b)%Qc;
  fsum := fun xs => fold_left Qcplus xs 0%Qc;
  sleep_overflows := Qc_sleep_overflows
|}.

(** Binary64. [float(n)] is the double nearest to [n]; CPython raises
    OverflowError when that is beyond the largest double. *)
Definition float_of_Z (z : Z) : float :=
  SF2Prim (binary_normalize prec emax z 0 false).

Definition float_of_Z_overflows (z : Z) : bool := is_infinity (float_of_Z z).

(** [a / b] on two ints: the quotient of the integers rounded once to the
    nearest double; [None] when that is beyond the largest double. *)
Definition float_truediv (a b : Z) : option float :=
  let q :=
    match a, b with
    | Z0, _ => S754_zero (b <? 0)%Z
    | _, Z0 => S754_nan
    | _, _ =>
        SFdiv prec emax (S754_finite (a <? 0)%Z (Z.to_pos (Z.abs a)) 0)
                        (S754_finite (b <? 0)%Z (Z.to_pos (Z.abs b)) 0)
    end in
  if is_infinity (SF2Prim q) then None else Some (SF2Prim q).

(** [round(x, 2)] on a double: the exact value of [x] is rounded to the
    nearest multiple of 1/100 (ties to even), and the result is the double
    nearest to that decimal. NaN, infinities and zeros are returned as is. *)
Definition float_round2 (x : float) : float :=
  match Prim2SF x with
  | S754_finite s m e =>
      let n := match e with
               | Zneg k => div_half_even (100 * Z.pos m) (2 ^ Z.pos k)
               | _ => (100 * Z.pos m * 2 ^ e)%Z
               end in
      match n with
      | Zpos p =>
          SF2Prim (SFdiv prec emax (S754_finite s p 0) (S754_finite false 100 0))
      | _ => SF2Prim (S754_zero s)
      end
  | _ => x
  end.

(** [sum(xs)] over floats. From CPython 3.12 on the sum is compensated
    (Neumaier): the running total [total] and the lost low-order part [c],
    added back at the end when it is finite and not zero. The start value is
    the int 0, to which the first item is added. *)
Fixpoint float_sum_from (total c : float) (xs : list float) : float :=
  match xs with
  | [] => if is_finite c && negb (c =? 0)%float then (total + c)%float else total
  | x :: xs =>
      let t := (total + x)%float in
      let c := if (abs x <=? abs total)%float
               then (c + ((total - t) + x))%float
               else (c + ((x - t) + total))%float in
      float_sum_from t c xs
  end.

Definition float_sum (xs : list float) : float :=
  match xs with
  | [] => 0%float
  | x :: xs => float_sum_from (0 + x)%float 0%float xs
  end.

(** Up to CPython 3.11: left to right from 0. *)
Definition float_sum_plain (xs : list float) : float :=
  fold_left PrimFloat.add xs 0%float.

(** [time.sleep(x)] converts [x] to nanoseconds in a signed 64-bit integer
    (CPython 3.11 and later: [-2**63 <= x * 1e9 < 2**63]). *)
Definition float_sleep_overflows (x : float) : bool :=
  negb ((-9223372036854775808 <=? x * 1000000000)%float
        && (x * 1000000000 <? 9223372036854775808)%float).

#[export] Instance float_arith : Arith float := {|
  fzero := 0%float;
  fadd := PrimFloat.add;
  fsub := PrimFloat.sub;
  fmul := PrimFloat.mul;
  fdiv := PrimFloat.div;
  feqb := PrimFloat.eqb;
  fltb := PrimFloat.ltb;
  fleb := PrimFloat.leb;
  fabs := PrimFloat.abs;
  of_int := float_of_Z;
  round2 := float_round2;
  milli := 0.001%float;
  of_int_overflows := float_of_Z_overflows;
  int_truediv := float_truediv;
  fsum := float_sum;
  sleep_overflows := float_sleep_overflows
|}.

(** The same doubles under an interpreter older than CPython 3.12. *)
Definition float_arith_plain_sum : Arith float := {|
  fzero := 0%float;
  fadd := PrimFloat.add;
  fsub := PrimFloat.sub;
  fmul := PrimFloat.mul;
  fdiv := PrimFloat.div;
  feqb := PrimFloat.eqb;
  fltb := PrimFloat.ltb;
  fleb := PrimFloat.leb;
  fabs := PrimFloat.abs;
  of_int := float_of_Z;
  round2 := float_round2;
  milli := 0.001%float;
  of_int_overflows := float_of_Z_overflows;
  int_truediv := float_truediv;
  fsum := float_sum_plain;
  sleep_overflows := float_sleep_overflows
|}.

(** ** Exceptions and results *)

Inductive exn :=
| ValueError (msg : string)
| ZeroDivisionError
| OverflowError (msg : string).

(** [str(e)]. *)
Definition exn_message (e : exn) : string :=
  match e with
  | ValueError msg => msg
  | ZeroDivisionError => "division by zero"
  | OverflowError msg => msg
  end.

Inductive result (A : Type) :=
| Ok (a : A)
| Raise (e : exn).
Arguments Ok {A} a.
Arguments Raise {A} e.

#[export] Instance result_ret : MRet result := fun A a => Ok a.

#[export] Instance result_bind : MBind result := fun A B k r =>
  match r with
  | Ok a => k a
  | Raise e => Raise e
  end.

Definition check (b : bool) (e : exn) : result unit :=
  if b then Ok tt else Raise e.

Section Python.
Context {F : Type} `{Arith F}.

(** [x / y] on two floats: division by zero raises. *)
Definition py_div (x y : F) : result F :=
  if feqb y fzero then Raise ZeroDivisionError else Ok (fdiv x y).

(** [x / n] for a float [x] and an int [n]: [n] is converted first. *)
Definition py_div_int (x : F) (n : Z) : result F :=
  if of_int_overflows n
  then Raise (OverflowError "int too large to convert to float")
  else py_div x (of_int n).

(** [a / b] on two ints. *)
Definition py_int_div (a b : Z) : result F :=
  if (b =? 0)%Z then Raise ZeroDivisionError
  else match int_truediv a b with
       | Some q => Ok q
       | None => Raise (OverflowError "integer division result too large for a float")
       end.

(** [min(a, b)]: the first of the smallest. *)
Definition py_min (a b : F) : F := if fltb b a then b else a.

(** A running total kept with [+=]: left to right from 0. *)
Definition py_sum (xs : list F) : F := fold_left fadd xs fzero.

(** [time.sleep(x)], as far as it can raise. *)
Definition py_sleep (x : F) : result unit :=
  if negb (feqb x x) then Raise (ValueError "Invalid value NaN (not a number)")
  else if sleep_overflows x
  then Raise (OverflowError "timestamp too large to convert to C _PyTime_t")
  else if fltb x fzero then Raise (ValueError "sleep length must be non-negative")
  else Ok tt.
End Python.
Arguments py_sum {F _} xs : simpl never.
Arguments py_min {F _} a b : simpl never.

(** A value used as a condition: [None] and 0 are false. *)
Definition truthy (order_id : option Z) : bool :=
  match order_id with
  | Some n => negb (n =? 0)%Z
  | None => false
  end.

(** The exchange client's answers, as the engine consumes them. *)
Inductive ticker_reply (F : Type) :=
| Ticker (price : F)
| TickerError (msg : string).
Arguments Ticker {F} price.
Arguments TickerError {F} msg.

Inductive order_reply :=
| OrderPlaced (orderId : Z)
| OrderError (msg : string).

Record client (F : Type) := {
  futures_symbol_ticker : ticker_reply F;
  futures_create_order : order_reply
}.
Arguments futures_symbol_ticker {F} c.
Arguments futures_create_order {F} c.

(** ** The TWAP engine ([class TWAPStrategy])

    [self.active_strategies] is a dictionary from strategy id to the
    strategy's record (itself a dictionary, here a record with the keys as
    fields; [end_time] and [error] are the keys added later). The clock
    ([time.time()], [datetime.now()]) is an input [now]. *)

Module TWAP.

Section Model.
Context {F : Type} `{Arith F}.

Record executed_order := {
  slice_num : Z;
  order_id : Z;
  quantity : F;
  price : F;
  timestamp : Z
}.

Record strategy := {
  id : string;
  symbol : string;
  side : string;
  total_quantity : F;
  remaining_quantity : F;
  duration_minutes : Z;
  num_slices : Z;
  slice_quantity : F;
  slice_interval : F;
  start_time : Z;
  status : string;
  executed_orders : list executed_order;
  total_executed : F;
  average_price : F;
  end_time : option Z;
  error : option string
}.

(** The keys the engine assigns after creation. *)
Definition set_status (v : string) (s : strategy) : strategy :=
  {| id := id s; symbol := symbol s; side := side s;
     total_quantity := total_quantity s;
     remaining_quantity := remaining_quantity s;
     duration_minutes := duration_minutes s; num_slices := num_slices s;
     slice_quantity := slice_quantity s; slice_interval := slice_interval s;
     start_time := start_time s; status := v;
     executed_orders := executed_orders s;
     total_executed := total_executed s; average_price := average_price s;
     end_time := end_time s; error := error s |}.

Definition set_end_time (v : Z) (s : strategy) : strategy :=
  {| id := id s; symbol := symbol s; side := side s;
     total_quantity := total_quantity s;
     remaining_quantity := remaining_quantity s;
     duration_minutes := duration_minutes s; num_slices := num_slices s;
     slice_quantity := slice_quantity s; slice_interval := slice_interval s;
     start_time := start_time s; status := status s;
     executed_orders := executed_orders s;
     total_executed := total_executed s; average_price := average_price s;
     end_time := Some v; error := error s |}.

Definition set_error (v : string) (s : strategy) : strategy :=
  {| id := id s; symbol := symbol s; side := side s;
     total_quantity := total_quantity s;
     remaining_quantity := remaining_quantity s;
     duration_minutes := duration_minutes s; num_slices := num_slices s;
     slice_quantity := slice_quantity s; slice_interval := slice_interval s;
     start_time := start_time s; status := status s;
     executed_orders := executed_orders s;
     total_executed := total_executed s; average_price := average_price s;
     end_time := end_time s; error := Some v |}.

Definition set_executed_orders (v : list executed_order) (s : strategy) : strategy :=
  {| id := id s; symbol := symbol s; side := side s;
     total_quantity := total_quantity s;
     remaining_quantity := remaining_quantity s;
     duration_minutes := duration_minutes s; num_slices := num_slices s;
     slice_quantity := slice_quantity s; slice_interval := slice_interval s;
     start_time := start_time s; status := status s;
     executed_orders := v;
     total_executed := total_executed s; average_price := average_price s;
     end_time := end_time s; error := error s |}.

Definition set_remaining_quantity (v : F) (s : strategy) : strategy :=
  {| id := id s; symbol := symbol s; side := side s;
     total_quantity := total_quantity s;
     remaining_quantity := v;
     duration_minutes := duration_minutes s; num_slices := num_slices s;
     slice_quantity := slice_quantity s; slice_interval := slice_interval s;
     start_time := start_time s; status := status s;
     executed_orders := executed_orders s;
     total_executed := total_executed s; average_price := average_price s;
     end_time := end_time s; error := error s |}.

Definition set_total_executed (v : F) (s : strategy) : strategy :=
  {| id := id s; symbol := symbol s; side := side s;
     total_quantity := total_quantity s;
     remaining_quantity := remaining_quantity s;
     duration_minutes := duration_minutes s; num_slices := num_slices s;
     slice_quantity := slice_quantity s; slice_interval := slice_interval s;
     start_time := start_time s; status := status s;
     executed_orders := executed_orders s;
     total_executed := v; average_price := average_price s;
     end_time := end_time s; error := error s |}.

Definition set_average_price (v : F) (s : strategy) : strategy :=
  {| id := id s; symbol := symbol s; side := side s;
     total_quantity := total_quantity s;
     remaining_quantity := remaining_quantity s;
     duration_minutes := duration_minutes s; num_slices := num_slices s;
     slice_quantity := slice_quantity s; slice_interval := slice_interval s;
     start_time := start_time s; status := status s;
     executed_orders := executed_orders s;
     total_executed := total_executed s; average_price := v;
     end_time := end_time s; error := error s |}.

(** What [execute_twap_order] returns. *)
Record started := {
  started_strategy_id : string;
  started_status : string;
  started_total_quantity : F;
  started_num_slices : Z;
  started_slice_quantity : F;
  started_slice_interval : F;
  started_start_time : Z
}.

(** What [stop_twap_strategy] returns. *)
Record stopped := {
  stopped_strategy_id : string;
  stopped_status : string;
  stopped_total_executed : F;
  stopped_remaining_quantity : F;
  stopped_average_price : F
}.

(** What [get_strategy_status] returns. *)
Record snapshot := {
  snap_strategy_id : string;
  snap_status : string;
  snap_symbol : string;
  snap_side : string;
  snap_total_quantity : F;
  snap_total_executed : F;
  snap_remaining_quantity : F;
  snap_average_price : F;
  snap_num_slices : Z;
  snap_executed_slices : nat;
  snap_start_time : Z;
  snap_end_time : option Z;
  snap_error : option string
}.

(** f"TWAP_{symbol}_{side}_{int(time.time())}" *)
Definition strategy_id_of (symbol side : string) (now : Z) : string :=
  "TWAP_" +:+ symbol +:+ "_" +:+ side +:+ "_" +:+ pretty now.

(** [execute_twap_order], up to the start of the thread: the new
    dictionary and the returned summary, or the exception raised.
    [position_side] is accepted and not stored, as in the source. *)
Definition execute_twap_order (self : gmap string strategy)
    (symbol side : string) (total_quantity : F)
    (duration_minutes num_slices : Z) (position_side : string) (now : Z)
    : result (gmap string strategy * started) :=
  let strategy_id := strategy_id_of symbol side now in
  _ ← check (String.eqb side "BUY" || String.eqb side "SELL")
            (ValueError "Invalid side");
  _ ← check (negb (fleb total_quantity fzero))
            (ValueError "Invalid total quantity");
  _ ← check (negb (duration_minutes <=? 0)%Z) (ValueError "Invalid duration");
  _ ← check (negb (num_slices <=? 0)%Z)
            (ValueError "Invalid number of slices");
  slice_quantity ← py_div_int total_quantity num_slices;
  slice_interval ← py_int_div (duration_minutes * 60) num_slices;
  let strategy :=
    {| id := strategy_id; symbol := symbol; side := side;
       total_quantity := total_quantity;
       remaining_quantity := total_quantity;
       duration_minutes := duration_minutes; num_slices := num_slices;
       slice_quantity := slice_quantity; slice_interval := slice_interval;
       start_time := now; status := "RUNNING";
       executed_orders := [];
       total_executed := fzero; average_price := fzero;
       end_time := None; error := None |} in
  Ok (<[strategy_id := strategy]> self,
      {| started_strategy_id := strategy_id;
         started_status := "STARTED";
         started_total_quantity := total_quantity;
         started_num_slices := num_slices;
         started_slice_quantity := slice_quantity;
         started_slice_interval := slice_interval;
         started_start_time := now |}).

(** The [except] branch of [_execute_slice]. *)
Definition fail (msg : string) (s : strategy) : strategy :=
  set_error msg (set_status "ERROR" s).

(** sum(order['quantity'] * order['price'] for order in executed_orders) *)
Definition total_value (orders : list executed_order) : F :=
  fsum (map (fun o => fmul (quantity o) (price o)) orders).

(** Lines 182-195 of [_execute_slice], one statement at a time. *)
Definition append_order (o : executed_order) (s : strategy) : strategy :=
  set_executed_orders (executed_orders s ++ [o]) s.

Definition take_remaining (q : F) (s : strategy) : strategy :=
  set_remaining_quantity (fsub (remaining_quantity s) q) s.

Definition add_executed (q : F) (s : strategy) : strategy :=
  set_total_executed (fadd (total_executed s) q) s.

Definition recompute_average (s : strategy) : strategy :=
  set_average_price
    (if fltb fzero (total_executed s)
     then fdiv (total_value (executed_orders s)) (total_executed s)
     else fzero) s.

Definition record_order (o : executed_order) (s : strategy) : strategy :=
  recompute_average
    (add_executed (quantity o) (take_remaining (quantity o) (append_order o s))).

(** [_execute_slice] on the strategy's record. *)
Definition execute_slice_on (s : strategy) (slice_num : Z) (c : client F)
    (now : Z) : strategy :=
  if fleb (remaining_quantity s) fzero then s
  else
    match futures_symbol_ticker c with
    | TickerError msg => fail msg s
    | Ticker current_price =>
        let slice_quantity := py_min (slice_quantity s) (remaining_quantity s) in
        match futures_create_order c with
        | OrderError msg => fail msg s
        | OrderPlaced orderId =>
            record_order {| slice_num := slice_num; order_id := orderId;
                            quantity := slice_quantity;
                            price := current_price;
                            timestamp := now |} s
        end
    end.

(** [_execute_slice]: the record is looked up by id and updated in place.
    (An id missing from the dictionary cannot occur: nothing deletes.) *)
Definition _execute_slice (self : gmap string strategy) (strategy_id : string)
    (slice_num : Z) (c : client F) (now : Z) : gmap string strategy :=
  match self !! strategy_id with
  | Some s => <[strategy_id := execute_slice_on s slice_num c now]> self
  | None => self
  end.

(** [stop_twap_strategy]. *)
Definition stop_twap_strategy (self : gmap string strategy)
    (strategy_id : string) (now : Z)
    : result (gmap string strategy * stopped) :=
  match self !! strategy_id with
  | None => Raise (ValueError "Strategy not found")
  | Some s =>
      let s := set_end_time now (set_status "STOPPED" s) in
      Ok (<[strategy_id := s]> self,
          {| stopped_strategy_id := strategy_id;
             stopped_status := "STOPPED";
             stopped_total_executed := total_executed s;
             stopped_remaining_quantity := remaining_quantity s;
             stopped_average_price := average_price s |})
  end.

Definition snapshot_of (strategy_id : string) (s : strategy) : snapshot :=
  {| snap_strategy_id := strategy_id;
     snap_status := status s;
     snap_symbol := symbol s;
     snap_side := side s;
     snap_total_quantity := total_quantity s;
     snap_total_executed := total_executed s;
     snap_remaining_quantity := remaining_quantity s;
     snap_average_price := average_price s;
     snap_num_slices := num_slices s;
     snap_executed_slices := length (executed_orders s);
     snap_start_time := start_time s;
     snap_end_time := end_time s;
     snap_error := error s |}.

(** [get_strategy_status]. *)
Definition get_strategy_status (self : gmap string strategy)
    (strategy_id : string) : result snapshot :=
  match self !! strategy_id with
  | None => Raise (ValueError "Strategy not found")
  | Some s => Ok (snapshot_of strategy_id s)
  end.

(** [get_all_strategies]: one [get_strategy_status] per id, in the order
    [keys] in which the dictionary yields its ids. *)
Definition get_all_strategies (self : gmap string strategy)
    (keys : list string) : result (list snapshot) :=
  mapM (get_strategy_status self) keys.

(** *** The threads running [_execute_twap_slices]

    Where a thread stands: at the head of the [for] loop about to test the
    status for slice index [slice_num] (0-based), past the test and the
    [time.sleep] before executing that slice, or past the loop. Other
    threads run between two steps. *)
Inductive pc :=
| AtLoop (slice_num : Z)
| Sleeping (slice_num : Z)
| Finished.

(** A thread holds the record it read from the dictionary when it started
    (line 122) in its variable [strategy]. When a later
    [execute_twap_order] stores a new record under the same id (same symbol,
    side and second), the thread of the earlier call keeps running with the
    record it holds, which the dictionary no longer has. *)
Record stale_thread := {
  stale_id : string;
  stale_record : strategy;
  stale_pc : pc
}.

Record engine := {
  active_strategies : gmap string strategy;
  threads : gmap string pc;        (* the thread of the latest start of an id *)
  stale : list stale_thread        (* the threads of the starts it replaced *)
}.

Definition empty_engine : engine :=
  {| active_strategies := ∅; threads := ∅; stale := [] |}.

(** Lines 124-131 and 136-145 on the record [s] the thread holds: the
    test of the loop, the sleep before every slice but the first, and what
    follows the loop. [time.sleep] raising ends the thread in the [except]
    branch of line 142. *)
Definition at_loop (s : strategy) (slice_num : Z) (now : Z) : strategy * pc :=
  if (slice_num <? num_slices s)%Z then
    if String.eqb (status s) "RUNNING" then
      if (0 <? slice_num)%Z then
        match py_sleep (slice_interval s) with
        | Ok _ => (s, Sleeping slice_num)
        | Raise e => (set_error (exn_message e) (set_status "ERROR" s), Finished)
        end
      else (s, Sleeping slice_num)
    else
      (* break; the test after the loop fails on the same status *)
      (s, Finished)
  else
    (if String.eqb (status s) "RUNNING"
     then set_end_time now (set_status "COMPLETED" s) else s,
     Finished).

(** One step of the thread of the latest start of [strategy_id]; [None]
    when it has none left. The record it holds is the dictionary's. *)
Definition thread_step (e : engine) (strategy_id : string) (c : client F)
    (now : Z) : option engine :=
  match threads e !! strategy_id, active_strategies e !! strategy_id with
  | Some (AtLoop slice_num), Some s =>
      let '(s', p') := at_loop s slice_num now in
      Some {| active_strategies := <[strategy_id := s']> (active_strategies e);
              threads := <[strategy_id := p']> (threads e);
              stale := stale e |}
  | Some (Sleeping slice_num), Some _ =>
      Some {| active_strategies :=
                _execute_slice (active_strategies e) strategy_id
                               (slice_num + 1) c now;
              threads := <[strategy_id := AtLoop (slice_num + 1)]> (threads e);
              stale := stale e |}
  | _, _ => None
  end.

(** One step of the [j]-th replaced thread: the loop tests the record
    the thread holds, while [_execute_slice] looks the id up again and so
    acts on the record the dictionary has now. *)
Definition stale_step (e : engine) (j : nat) (c : client F) (now : Z)
    : option engine :=
  match stale e !! j with
  | Some t =>
      match stale_pc t with
      | AtLoop slice_num =>
          let '(s', p') := at_loop (stale_record t) slice_num now in
          Some {| active_strategies := active_strategies e;
                  threads := threads e;
                  stale := <[j := {| stale_id := stale_id t; stale_record := s';
                                     stale_pc := p' |}]> (stale e) |}
      | Sleeping slice_num =>
          Some {| active_strategies :=
                    _execute_slice (active_strategies e) (stale_id t)
                                   (slice_num + 1) c now;
                  threads := threads e;
                  stale := <[j := {| stale_id := stale_id t;
                                     stale_record := stale_record t;
                                     stale_pc := AtLoop (slice_num + 1) |}]>
                             (stale e) |}
      | Finished => None
      end
  | None => None
  end.

(** The thread an [execute_twap_order] under [strategy_id] takes the
    dictionary's record away from, with that record. *)
Definition replaced_thread (e : engine) (strategy_id : string)
    : list stale_thread :=
  match active_strategies e !! strategy_id with
  | Some s => [{| stale_id := strategy_id; stale_record := s;
                  stale_pc := default Finished (threads e !! strategy_id) |}]
  | None => []
  end.

(** What happens to an engine: a client starts a strategy, a strategy's
    thread takes a step, a client stops a strategy, a replaced thread takes
    a step. *)
Inductive event :=
| Start (symbol side : string) (total_quantity : F)
        (duration_minutes num_slices : Z) (position_side : string) (now : Z)
| Step (strategy_id : string) (c : client F) (now : Z)
| Stop (strategy_id : string) (now : Z)
| StaleStep (j : nat) (c : client F) (now : Z).

(** A call that raises leaves the engine as it was. A start stores its
    record under its id whether or not the id is taken (line 88) and starts
    a thread (lines 91-96), which reads the record at once. *)
Definition step (e : engine) (ev : event) : option engine :=
  match ev with
  | Start symbol side total_quantity duration_minutes num_slices position_side now =>
      match execute_twap_order (active_strategies e) symbol side total_quantity
              duration_minutes num_slices position_side now with
      | Raise _ => Some e
      | Ok (self, r) =>
          Some {| active_strategies := self;
                  threads := <[started_strategy_id r := AtLoop 0]> (threads e);
                  stale := stale e ++ replaced_thread e (started_strategy_id r) |}
      end
  | Step strategy_id c now => thread_step e strategy_id c now
  | Stop strategy_id now =>
      match stop_twap_strategy (active_strategies e) strategy_id now with
      | Raise _ => Some e
      | Ok (self, _) =>
          Some {| active_strategies := self; threads := threads e;
                  stale := stale e |}
      end
  | StaleStep j c now => stale_step e j c now
  end.

Fixpoint run (e : engine) (evs : list event) : option engine :=
  match evs with
  | [] => Some e
  | ev :: evs =>
      match step e ev with
      | Some e' => run e' evs
      | None => None
      end
  end.

Definition reachable (e : engine) : Prop :=
  exists evs, run empty_engine evs = Some e.

(** The id has been started once: no thread of an earlier start under it
    is around. *)
Definition started_once (e : engine) (strategy_id : string) : Prop :=
  Forall (fun t => stale_id t <> strategy_id) (stale e).

(** Where a record lives: in the dictionary under its id, or with the
    replaced thread that holds it. *)
Inductive place :=
| Registered (strategy_id : string)
| Replaced (j : nat).

Definition strategy_at (e : engine) (pl : place) : option strategy :=
  match pl with
  | Registered strategy_id => active_strategies e !! strategy_id
  | Replaced j => stale_record <$> stale e !! j
  end.

(** *** [_execute_slice]'s update, statement by statement

    The four assignments of lines 182-195 as separate steps of the thread,
    with [get_strategy_status] able to run between any two of them. *)
Definition update_prefix (n : nat) (o : executed_order) (s : strategy) : strategy :=
  match n with
  | O => s
  | 1%nat => append_order o s
  | 2%nat => take_remaining (quantity o) (append_order o s)
  | 3%nat => add_executed (quantity o) (take_remaining (quantity o) (append_order o s))
  | _ => record_order o s
  end.
End Model.

Arguments total_value {F _} orders : simpl never.
Arguments executed_order F : clear implicits.
Arguments strategy F : clear implicits.
Arguments started F : clear implicits.
Arguments stopped F : clear implicits.
Arguments snapshot F : clear implicits.
Arguments stale_thread F : clear implicits.
Arguments engine F : clear implicits.
Arguments event F : clear implicits.

End TWAP.

(** ** The grid engine ([class GridStrategy])

    [self.active_grids] maps a grid id to the grid's record; a grid's
    [grid_levels] is the list of its level dictionaries ([executed_time] and
    [error] are the keys added later). Calls made to the exchange on the
    engine's behalf are logged. *)

Module Grid.

Section Model.
Context {F : Type} `{Arith F}.

Record grid_level := {
  level : Z;
  level_price : F;
  level_quantity : F;
  level_status : string;
  level_order_id : option Z;
  level_executed_time : option Z;
  level_error : option string
}.

Record grid := {
  id : string;
  symbol : string;
  grid_type : string;
  upper_price : F;
  lower_price : F;
  grid_count : Z;
  price_step : F;
  order_quantity : F;
  grid_levels : list grid_level;
  position_side : string;
  status : string;
  created_time : Z;
  total_orders : Z;
  executed_orders : Z;
  total_profit : F;
  stopped_time : option Z;
  error : option string
}.

Definition set_grid_levels (v : list grid_level) (g : grid) : grid :=
  {| id := id g; symbol := symbol g; grid_type := grid_type g;
     upper_price := upper_price g; lower_price := lower_price g;
     grid_count := grid_count g; price_step := price_step g;
     order_quantity := order_quantity g; grid_levels := v;
     position_side := position_side g; status := status g;
     created_time := created_time g; total_orders := total_orders g;
     executed_orders := executed_orders g; total_profit := total_profit g;
     stopped_time := stopped_time g; error := error g |}.

Definition set_status (v : string) (g : grid) : grid :=
  {| id := id g; symbol := symbol g; grid_type := grid_type g;
     upper_price := upper_price g; lower_price := lower_price g;
     grid_count := grid_count g; price_step := price_step g;
     order_quantity := order_quantity g; grid_levels := grid_levels g;
     position_side := position_side g; status := v;
     created_time := created_time g; total_orders := total_orders g;
     executed_orders := executed_orders g; total_profit := total_profit g;
     stopped_time := stopped_time g; error := error g |}.

Definition set_stopped_time (v : Z) (g : grid) : grid :=
  {| id := id g; symbol := symbol g; grid_type := grid_type g;
     upper_price := upper_price g; lower_price := lower_price g;
     grid_count := grid_count g; price_step := price_step g;
     order_quantity := order_quantity g; grid_levels := grid_levels g;
     position_side := position_side g; status := status g;
     created_time := created_time g; total_orders := total_orders g;
     executed_orders := executed_orders g; total_profit := total_profit g;
     stopped_time := Some v; error := error g |}.

(** grid['total_orders'] += 1; grid['executed_orders'] += 1 *)
Definition count_order (g : grid) : grid :=
  {| id := id g; symbol := symbol g; grid_type := grid_type g;
     upper_price := upper_price g; lower_price := lower_price g;
     grid_count := grid_count g; price_step := price_step g;
     order_quantity := order_quantity g; grid_levels := grid_levels g;
     position_side := position_side g; status := status g;
     created_time := created_time g; total_orders := total_orders g + 1;
     executed_orders := executed_orders g + 1; total_profit := total_profit g;
     stopped_time := stopped_time g; error := error g |}.

(** The three assignments to a level after its order was placed. *)
Definition executed (orderId now : Z) (l : grid_level) : grid_level :=
  {| level := level l; level_price := level_price l;
     level_quantity := level_quantity l; level_status := "EXECUTED";
     level_order_id := Some orderId; level_executed_time := Some now;
     level_error := level_error l |}.

(** The [except] branch of [_execute_grid_order]. *)
Definition failed (msg : string) (l : grid_level) : grid_level :=
  {| level := level l; level_price := level_price l;
     level_quantity := level_quantity l; level_status := "ERROR";
     level_order_id := level_order_id l;
     level_executed_time := level_executed_time l;
     level_error := Some msg |}.

Definition cancelled (l : grid_level) : grid_level :=
  {| level := level l; level_price := level_price l;
     level_quantity := level_quantity l; level_status := "CANCELLED";
     level_order_id := level_order_id l;
     level_executed_time := level_executed_time l;
     level_error := level_error l |}.

(** Calls to the exchange. *)
Inductive call :=
| futures_symbol_ticker_call (symbol : string)
| futures_create_order_call (symbol side : string) (quantity price : F)
                            (positionSide : string)
| futures_cancel_order_call (symbol : string) (orderId : Z).

(** What [create_grid_strategy] returns (the formatted [price_range]
    string is left out). *)
Record created := {
  created_grid_id : string;
  created_status : string;
  created_symbol : string;
  created_grid_type : string;
  created_grid_count : Z;
  created_price_step : F;
  created_order_quantity : F;
  created_created_time : Z
}.

(** What [stop_grid_strategy] returns. *)
Record stopped := {
  stopped_grid_id : string;
  stopped_status : string;
  stopped_total_orders : Z;
  stopped_executed_orders : Z;
  stopped_stopped_time : Z
}.

(** f"GRID_{symbol}_{grid_type}_{int(time.time())}" *)
Definition grid_id_of (symbol grid_type : string) (now : Z) : string :=
  "GRID_" +:+ symbol +:+ "_" +:+ grid_type +:+ "_" +:+ pretty now.

(** The body of the loop [for i in range(grid_count)]. *)
Definition new_level (lower_price price_step order_quantity : F) (i : Z)
    : grid_level :=
  let price := fadd lower_price (fmul (of_int i) price_step) in
  {| level := i + 1; level_price := round2 price;
     level_quantity := order_quantity; level_status := "PENDING";
     level_order_id := None; level_executed_time := None;
     level_error := None |}.

(** [create_grid_strategy], up to the start of the monitor thread. *)
Definition create_grid_strategy (self : gmap string grid)
    (symbol grid_type : string) (upper_price lower_price : F)
    (grid_count : Z) (order_quantity : F) (position_side : string) (now : Z)
    : result (gmap string grid * created) :=
  let grid_id := grid_id_of symbol grid_type now in
  _ ← check (String.eqb grid_type "BUY" || String.eqb grid_type "SELL"
             || String.eqb grid_type "BOTH")
            (ValueError "Invalid grid type");
  _ ← check (negb (fleb upper_price lower_price))
            (ValueError "Upper price must be greater than lower price");
  _ ← check (negb (grid_count <=? 0)%Z) (ValueError "Invalid grid count");
  _ ← check (negb (fleb order_quantity fzero))
            (ValueError "Invalid order quantity");
  price_step ← py_div_int (fsub upper_price lower_price) (grid_count - 1);
  let grid_levels :=
    map (new_level lower_price price_step order_quantity)
        (seqZ 0 grid_count) in
  let grid_strategy :=
    {| id := grid_id; symbol := symbol; grid_type := grid_type;
       upper_price := upper_price; lower_price := lower_price;
       grid_count := grid_count; price_step := price_step;
       order_quantity := order_quantity; grid_levels := grid_levels;
       position_side := position_side; status := "ACTIVE";
       created_time := now; total_orders := 0; executed_orders := 0;
       total_profit := fzero; stopped_time := None; error := None |} in
  Ok (<[grid_id := grid_strategy]> self,
      {| created_grid_id := grid_id; created_status := "CREATED";
         created_symbol := symbol; created_grid_type := grid_type;
         created_grid_count := grid_count; created_price_step := price_step;
         created_order_quantity := order_quantity;
         created_created_time := now |}).

(** [_should_trigger_order]. *)
Definition _should_trigger_order (current_price level_price : F)
    (grid_type : string) : bool :=
  if String.eqb grid_type "BUY" then fleb current_price level_price
  else if String.eqb grid_type "SELL" then fleb level_price current_price
  else fltb (fabs (fsub current_price level_price)) (fmul level_price milli).

(** The order side chosen by [_execute_grid_order]. *)
Definition order_side (grid_type : string) : string :=
  if String.eqb grid_type "BUY" then "BUY"
  else if String.eqb grid_type "SELL" then "SELL"
  else "BUY".

(** [_execute_grid_order] on the grid's record; the level dictionary
    passed in is the one at index [i] of [grid_levels]. *)
Definition execute_grid_order_on (g : grid) (i : nat) (l : grid_level)
    (reply : order_reply) (now : Z) : grid * list call :=
  let request :=
    futures_create_order_call (symbol g) (order_side (grid_type g))
      (level_quantity l) (level_price l) (position_side g) in
  match reply with
  | OrderPlaced orderId =>
      (count_order
         (set_grid_levels (<[i := executed orderId now l]> (grid_levels g)) g),
       [request])
  | OrderError msg =>
      (set_grid_levels (<[i := failed msg l]> (grid_levels g)) g, [request])
  end.

(** One turn of [for level in grid['grid_levels']] in the monitor. *)
Definition check_level (g : grid) (i : nat) (l : grid_level)
    (current_price : F) (reply : order_reply) (now : Z) : grid * list call :=
  if String.eqb (level_status l) "PENDING"
     && _should_trigger_order current_price (level_price l) (grid_type g)
  then execute_grid_order_on g i l reply now
  else (g, []).

(** The loop of [stop_grid_strategy] over the levels: a level that is
    PENDING with an order id is cancelled at the exchange; [cancel_ok]
    tells whether that call returns or raises. *)
Definition cancel_level (symbol : string) (cancel_ok : Z -> bool)
    (l : grid_level) : grid_level * list call :=
  if String.eqb (level_status l) "PENDING" && truthy (level_order_id l) then
    match level_order_id l with
    | Some orderId =>
        (if cancel_ok orderId then cancelled l else l,
         [futures_cancel_order_call symbol orderId])
    | None => (l, [])
    end
  else (l, []).

Fixpoint cancel_levels (symbol : string) (cancel_ok : Z -> bool)
    (ls : list grid_level) : list grid_level * list call :=
  match ls with
  | [] => ([], [])
  | l :: ls =>
      let '(l', c1) := cancel_level symbol cancel_ok l in
      let '(ls', c2) := cancel_levels symbol cancel_ok ls in
      (l' :: ls', c1 ++ c2)
  end.

(** [stop_grid_strategy]: the new dictionary, the returned summary and
    the calls made. *)
Definition stop_grid_strategy (self : gmap string grid) (grid_id : string)
    (cancel_ok : Z -> bool) (now : Z)
    : result (gmap string grid * stopped * list call) :=
  match self !! grid_id with
  | None => Raise (ValueError "Grid strategy not found")
  | Some g =>
      let g := set_stopped_time now (set_status "STOPPED" g) in
      let '(ls, calls) := cancel_levels (symbol g) cancel_ok (grid_levels g) in
      let g := set_grid_levels ls g in
      Ok (<[grid_id := g]> self,
          {| stopped_grid_id := grid_id; stopped_status := "STOPPED";
             stopped_total_orders := total_orders g;
             stopped_executed_orders := executed_orders g;
             stopped_stopped_time := now |},
          calls)
  end.

(** What [get_grid_status] returns (the formatted [price_range] string is
    left out). *)
Record report := {
  report_grid_id : string;
  report_status : string;
  report_symbol : string;
  report_grid_type : string;
  report_grid_count : Z;
  report_price_step : F;
  report_order_quantity : F;
  report_total_orders : Z;
  report_executed_orders : Z;
  report_pending_levels : nat;
  report_executed_levels : nat;
  report_error_levels : nat;
  report_created_time : Z;
  report_stopped_time : option Z;
  report_error : option string
}.

(** len([l for l in grid['grid_levels'] if l['status'] == status]) *)
Definition count_levels (status : string) (ls : list grid_level) : nat :=
  length (filter (fun l => level_status l = status) ls).

(** [get_grid_status]. *)
Definition get_grid_status (self : gmap string grid) (grid_id : string)
    : result report :=
  match self !! grid_id with
  | None => Raise (ValueError "Grid strategy not found")
  | Some g =>
      let pending_levels := count_levels "PENDING" (grid_levels g) in
      let executed_levels := count_levels "EXECUTED" (grid_levels g) in
      let error_levels := count_levels "ERROR" (grid_levels g) in
      Ok {| report_grid_id := grid_id;
            report_status := status g;
            report_symbol := symbol g;
            report_grid_type := grid_type g;
            report_grid_count := grid_count g;
            report_price_step := price_step g;
            report_order_quantity := order_quantity g;
            report_total_orders := total_orders g;
            report_executed_orders := executed_orders g;
            report_pending_levels := pending_levels;
            report_executed_levels := executed_levels;
            report_error_levels := error_levels;
            report_created_time := created_time g;
            report_stopped_time := stopped_time g;
            report_error := error g |}
  end.

(** [get_all_grids]: one [get_grid_status] per id, in the order [keys] in
    which the dictionary yields its ids. *)
Definition get_all_grids (self : gmap string grid) (keys : list string)
    : result (list report) :=
  mapM (get_grid_status self) keys.

(** *** The threads running [_monitor_grid_strategy]

    A monitor stands at the [while] test, or inside the [for] loop about to
    look at level index [i] with the price it polled, or it has left the
    loop. Other threads run between two steps. *)
Inductive pc :=
| AtWhile
| AtLevel (current_price : F) (i : nat)
| Exited.

(** A monitor holds the record it read from the dictionary when it started
    (line 135) in its variable [grid]. When a later [create_grid_strategy]
    stores a new record under the same id (same symbol, type and second), the
    monitor of the earlier call keeps running with the record it holds, which
    the dictionary no longer has. *)
Record stale_monitor := {
  stale_id : string;
  stale_record : grid;
  stale_pc : pc
}.

Definition set_stale_record (g : grid) (t : stale_monitor) : stale_monitor :=
  {| stale_id := stale_id t; stale_record := g; stale_pc := stale_pc t |}.

(** *** A call of [stop_grid_strategy], statement by statement

    The call holds the record it read at line 248: the dictionary's, or the
    one of the [j]-th replaced monitor once a create has replaced it. It
    stands before line 249, before line 250, in the loop before reading the
    status of level [i] (line 254, left operand), before reading its order
    id (right operand), before the cancellation (line 256), before line 260,
    or it has returned. *)
Inductive grid_ref :=
| Current
| Held (j : nat).

Inductive stop_pc :=
| StopStatus
| StopTime
| StopLevel (i : nat)
| StopOrder (i : nat)
| StopCancel (i : nat)
| StopMark (i : nat)
| StopReturned.

Record stopper := {
  stop_id : string;
  stop_grid : grid_ref;
  stop_at : stop_pc
}.

Record engine := {
  active_grids : gmap string grid;
  threads : gmap string pc;        (* the monitor of the latest create of an id *)
  calls : list call;
  stale : list stale_monitor;      (* the monitors of the creates it replaced *)
  stoppers : list stopper          (* the stops under way *)
}.

Definition empty_engine : engine :=
  {| active_grids := ∅; threads := ∅; calls := []; stale := []; stoppers := [] |}.

(** One step of the monitor of the latest create of [grid_id]; [None]
    when it has none left. The record it holds is the dictionary's. A failed
    price poll sleeps and goes back to the [while] test. *)
Definition thread_step (e : engine) (grid_id : string) (c : client F)
    (now : Z) : option engine :=
  match threads e !! grid_id, active_grids e !! grid_id with
  | Some AtWhile, Some g =>
      if String.eqb (status g) "ACTIVE" then
        let next :=
          match futures_symbol_ticker c with
          | Ticker current_price => AtLevel current_price 0
          | TickerError _ => AtWhile
          end in
        Some {| active_grids := active_grids e;
                threads := <[grid_id := next]> (threads e);
                calls := calls e ++ [futures_symbol_ticker_call (symbol g)];
                stale := stale e; stoppers := stoppers e |}
      else
        Some {| active_grids := active_grids e;
                threads := <[grid_id := Exited]> (threads e);
                calls := calls e;
                stale := stale e; stoppers := stoppers e |}
  | Some (AtLevel current_price i), Some g =>
      match grid_levels g !! i with
      | Some l =>
          let '(g', cs) :=
            check_level g i l current_price (futures_create_order c) now in
          Some {| active_grids := <[grid_id := g']> (active_grids e);
                  threads := <[grid_id := AtLevel current_price (S i)]> (threads e);
                  calls := calls e ++ cs;
                  stale := stale e; stoppers := stoppers e |}
      | None =>
          Some {| active_grids := active_grids e;
                  threads := <[grid_id := AtWhile]> (threads e);
                  calls := calls e;
                  stale := stale e; stoppers := stoppers e |}
      end
  | _, _ => None
  end.

(** [_execute_grid_order] called by a replaced monitor: the level is one
    of the record [held] by the monitor; the symbol, the side, the position
    side and the counters are those of the record [current] that line 194
    finds in the dictionary. *)
Definition execute_grid_order_for (held current : grid) (i : nat)
    (l : grid_level) (reply : order_reply) (now : Z) : grid * grid * list call :=
  let request :=
    futures_create_order_call (symbol current) (order_side (grid_type current))
      (level_quantity l) (level_price l) (position_side current) in
  match reply with
  | OrderPlaced orderId =>
      (set_grid_levels (<[i := executed orderId now l]> (grid_levels held)) held,
       count_order current, [request])
  | OrderError msg =>
      (set_grid_levels (<[i := failed msg l]> (grid_levels held)) held,
       current, [request])
  end.

(** One step of the [j]-th replaced monitor. *)
Definition stale_step (e : engine) (j : nat) (c : client F) (now : Z)
    : option engine :=
  match stale e !! j with
  | Some t =>
      let g := stale_record t in
      match stale_pc t with
      | AtWhile =>
          if String.eqb (status g) "ACTIVE" then
            let next :=
              match futures_symbol_ticker c with
              | Ticker current_price => AtLevel current_price 0
              | TickerError _ => AtWhile
              end in
            Some {| active_grids := active_grids e; threads := threads e;
                    calls := calls e ++ [futures_symbol_ticker_call (symbol g)];
                    stale := <[j := {| stale_id := stale_id t; stale_record := g;
                                       stale_pc := next |}]> (stale e);
                    stoppers := stoppers e |}
          else
            Some {| active_grids := active_grids e; threads := threads e;
                    calls := calls e;
                    stale := <[j := {| stale_id := stale_id t; stale_record := g;
                                       stale_pc := Exited |}]> (stale e);
                    stoppers := stoppers e |}
      | AtLevel current_price i =>
          match grid_levels g !! i with
          | Some l =>
              if String.eqb (level_status l) "PENDING"
                 && _should_trigger_order current_price (level_price l)
                      (grid_type g)
              then
                match active_grids e !! stale_id t with
                | Some current =>
                    let '(g', current', cs) :=
                      execute_grid_order_for g current i l
                        (futures_create_order c) now in
                    Some {| active_grids :=
                              <[stale_id t := current']> (active_grids e);
                            threads := threads e;
                            calls := calls e ++ cs;
                            stale := <[j := {| stale_id := stale_id t;
                                               stale_record := g';
                                               stale_pc := AtLevel current_price (S i) |}]>
                                       (stale e);
                            stoppers := stoppers e |}
                | None =>
                    (* the KeyError of line 194 lands in the [except] branch;
                       nothing deletes an id, so this does not occur *)
                    Some {| active_grids := active_grids e; threads := threads e;
                            calls := calls e;
                            stale := <[j := {| stale_id := stale_id t;
                                               stale_record :=
                                                 set_grid_levels
                                                   (<[i := failed (stale_id t) l]>
                                                      (grid_levels g)) g;
                                               stale_pc := AtLevel current_price (S i) |}]>
                                       (stale e);
                            stoppers := stoppers e |}
                end
              else
                Some {| active_grids := active_grids e; threads := threads e;
                        calls := calls e;
                        stale := <[j := {| stale_id := stale_id t; stale_record := g;
                                           stale_pc := AtLevel current_price (S i) |}]>
                                   (stale e);
                        stoppers := stoppers e |}
          | None =>
              Some {| active_grids := active_grids e; threads := threads e;
                      calls := calls e;
                      stale := <[j := {| stale_id := stale_id t; stale_record := g;
                                         stale_pc := AtWhile |}]> (stale e);
                      stoppers := stoppers e |}
          end
      | Exited => None
      end
  | None => None
  end.

(** The record a stop under way holds, and its update in place. *)
Definition grid_of (e : engine) (grid_id : string) (r : grid_ref) : option grid :=
  match r with
  | Current => active_grids e !! grid_id
  | Held j => stale_record <$> stale e !! j
  end.

Definition put_grid (e : engine) (grid_id : string) (r : grid_ref) (g : grid)
    (k : nat) (next : stop_pc) (cs : list call) : engine :=
  {| active_grids := match r with
                     | Current => <[grid_id := g]> (active_grids e)
                     | Held _ => active_grids e
                     end;
     threads := threads e;
     calls := calls e ++ cs;
     stale := match r with
              | Current => stale e
              | Held j => alter (set_stale_record g) j (stale e)
              end;
     stoppers := <[k := {| stop_id := grid_id; stop_grid := r; stop_at := next |}]>
                   (stoppers e) |}.

(** One statement of the [k]-th stop under way. [cancel_ok] tells whether
    [futures_cancel_order] returns or raises. *)
Definition stop_step (e : engine) (k : nat) (cancel_ok : Z -> bool) (now : Z)
    : option engine :=
  match stoppers e !! k with
  | Some st =>
      match grid_of e (stop_id st) (stop_grid st) with
      | Some g =>
          let put := put_grid e (stop_id st) (stop_grid st) in
          match stop_at st with
          | StopStatus => Some (put (set_status "STOPPED" g) k StopTime [])
          | StopTime => Some (put (set_stopped_time now g) k (StopLevel 0) [])
          | StopLevel i =>
              match grid_levels g !! i with
              | Some l =>
                  Some (put g k
                          (if String.eqb (level_status l) "PENDING"
                           then StopOrder i else StopLevel (S i)) [])
              | None => Some (put g k StopReturned [])
              end
          | StopOrder i =>
              match grid_levels g !! i with
              | Some l =>
                  Some (put g k
                          (if truthy (level_order_id l)
                           then StopCancel i else StopLevel (S i)) [])
              | None => Some (put g k (StopLevel (S i)) [])
              end
          | StopCancel i =>
              match grid_levels g !! i with
              | Some l =>
                  match level_order_id l with
                  | Some orderId =>
                      Some (put g k
                              (if cancel_ok orderId
                               then StopMark i else StopLevel (S i))
                              [futures_cancel_order_call (symbol g) orderId])
                  | None => Some (put g k (StopLevel (S i)) [])
                  end
              | None => Some (put g k (StopLevel (S i)) [])
              end
          | StopMark i =>
              match grid_levels g !! i with
              | Some l =>
                  Some (put (set_grid_levels (<[i := cancelled l]> (grid_levels g)) g)
                            k (StopLevel (S i)) [])
              | None => Some (put g k (StopLevel (S i)) [])
              end
          | StopReturned => None
          end
      | None => None
      end
  | None => None
  end.

(** The monitor a [create_grid_strategy] under [grid_id] takes the
    dictionary's record away from, with that record; the stops under way on
    that record keep holding it. *)
Definition replaced_monitor (e : engine) (grid_id : string)
    : list stale_monitor :=
  match active_grids e !! grid_id with
  | Some g => [{| stale_id := grid_id; stale_record := g;
                  stale_pc := default Exited (threads e !! grid_id) |}]
  | None => []
  end.

Definition hold (grid_id : string) (j : nat) (st : stopper) : stopper :=
  match stop_grid st with
  | Current =>
      if String.eqb (stop_id st) grid_id
      then {| stop_id := stop_id st; stop_grid := Held j; stop_at := stop_at st |}
      else st
  | Held _ => st
  end.

(** What happens to an engine: a client creates a grid, a monitor takes a
    step, a client stops a grid in one go, a replaced monitor takes a step, a
    client enters [stop_grid_strategy], a stop under way runs one
    statement. *)
Inductive event :=
| Create (symbol grid_type : string) (upper_price lower_price : F)
         (grid_count : Z) (order_quantity : F) (position_side : string)
         (now : Z)
| Step (grid_id : string) (c : client F) (now : Z)
| Stop (grid_id : string) (cancel_ok : Z -> bool) (now : Z)
| StaleStep (j : nat) (c : client F) (now : Z)
| StopCall (grid_id : string)
| StopStep (k : nat) (cancel_ok : Z -> bool) (now : Z).

(** A call that raises leaves the engine as it was. A create stores its
    record under its id whether or not the id is taken (line 99) and starts
    a monitor (lines 102-107), which reads the record at once. *)
Definition step (e : engine) (ev : event) : option engine :=
  match ev with
  | Create symbol grid_type upper_price lower_price grid_count order_quantity
           position_side now =>
      match create_grid_strategy (active_grids e) symbol grid_type upper_price
              lower_price grid_count order_quantity position_side now with
      | Raise _ => Some e
      | Ok (self, r) =>
          Some {| active_grids := self;
                  threads := <[created_grid_id r := AtWhile]> (threads e);
                  calls := calls e;
                  stale := stale e ++ replaced_monitor e (created_grid_id r);
                  stoppers := map (hold (created_grid_id r) (length (stale e)))
                                  (stoppers e) |}
      end
  | Step grid_id c now => thread_step e grid_id c now
  | Stop grid_id cancel_ok now =>
      match stop_grid_strategy (active_grids e) grid_id cancel_ok now with
      | Raise _ => Some e
      | Ok (self, _, cs) =>
          Some {| active_grids := self; threads := threads e;
                  calls := calls e ++ cs;
                  stale := stale e; stoppers := stoppers e |}
      end
  | StaleStep j c now => stale_step e j c now
  | StopCall grid_id =>
      match active_grids e !! grid_id with
      | Some _ =>
          Some {| active_grids := active_grids e; threads := threads e;
                  calls := calls e; stale := stale e;
                  stoppers := stoppers e ++
                              [{| stop_id := grid_id; stop_grid := Current;
                                  stop_at := StopStatus |}] |}
      | None => Some e
      end
  | StopStep k cancel_ok now => stop_step e k cancel_ok now
  end.

Fixpoint run (e : engine) (evs : list event) : option engine :=
  match evs with
  | [] => Some e
  | ev :: evs =>
      match step e ev with
      | Some e' => run e' evs
      | None => None
      end
  end.

Definition reachable (e : engine) : Prop :=
  exists evs, run empty_engine evs = Some e.

(** The id has been created once: no monitor of an earlier create under it
    is around. *)
Definition created_once (e : engine) (grid_id : string) : Prop :=
  Forall (fun t => stale_id t <> grid_id) (stale e).

(** Where a record lives: in the dictionary under its id, or with the
    replaced monitor that holds it. *)
Inductive place :=
| Registered (grid_id : string)
| Replaced (j : nat).

Definition grid_at (e : engine) (pl : place) : option grid :=
  match pl with
  | Registered grid_id => active_grids e !! grid_id
  | Replaced j => stale_record <$> stale e !! j
  end.

(** The events that run a whole call or a whole turn of a loop at once,
    with no other thread in between. *)
Definition undivided (ev : event) : bool :=
  match ev with
  | StopCall _ | StopStep _ _ _ => false
  | _ => true
  end.

Definition is_cancel (c : call) : bool :=
  match c with
  | futures_cancel_order_call _ _ => true
  | _ => false
  end.
End Model.

Arguments grid_level F : clear implicits.
Arguments grid F : clear implicits.
Arguments call F : clear implicits.
Arguments created F : clear implicits.
Arguments report F : clear implicits.
Arguments pc F : clear implicits.
Arguments stale_monitor F : clear implicits.
Arguments engine F : clear implicits.
Arguments event F : clear implicits.

End Grid.

(** ** What a step can do to one record

    The engines are dictionaries of records, each with the threads that
    hold it; the relations below say what one step of an engine does to one
    record, and to a record and the thread of its start. *)

Section Transitions.
Context {F : Type} `{Arith F}.

(** A record as [execute_twap_order] builds it. *)
Definition twap_created (s : TWAP.strategy F) : Prop :=
  (0 < TWAP.num_slices s)%Z /\
  fleb (TWAP.total_quantity s) fzero = false /\
  py_div_int (TWAP.total_quantity s) (TWAP.num_slices s)
    = Ok (TWAP.slice_quantity s) /\
  TWAP.remaining_quantity s = TWAP.total_quantity s /\
  TWAP.status s = "RUNNING" /\
  TWAP.executed_orders s = [] /\
  TWAP.total_executed s = fzero /\
  TWAP.average_price s = fzero.

(** What a statement of the engine does to a record: a call of
    [_execute_slice], a stop, or the loop head of a thread that holds it. *)
Inductive twap_op : TWAP.strategy F -> TWAP.strategy F -> Prop :=
| twap_op_slice s slice_num c now :
    twap_op s (TWAP.execute_slice_on s slice_num c now)
| twap_op_stop s now :
    twap_op s (TWAP.set_end_time now (TWAP.set_status "STOPPED" s))
| twap_op_loop s slice_num now :
    twap_op s (TWAP.at_loop s slice_num now).1.

(** What a step does to a record and the thread of its start, while no
    other thread acts on the record. *)
Inductive twap_transition
  : TWAP.strategy F -> TWAP.pc -> TWAP.strategy F -> TWAP.pc -> Prop :=
| twap_enter s k :
    (k < TWAP.num_slices s)%Z -> TWAP.status s = "RUNNING" ->
    ((0 < k)%Z -> py_sleep (TWAP.slice_interval s) = Ok tt) ->
    twap_transition s (TWAP.AtLoop k) s (TWAP.Sleeping k)
| twap_oversleep s k e :
    (k < TWAP.num_slices s)%Z -> TWAP.status s = "RUNNING" ->
    (0 < k)%Z -> py_sleep (TWAP.slice_interval s) = Raise e ->
    twap_transition s (TWAP.AtLoop k)
      (TWAP.set_error (exn_message e) (TWAP.set_status "ERROR" s)) TWAP.Finished
| twap_break s k :
    (k < TWAP.num_slices s)%Z -> TWAP.status s <> "RUNNING" ->
    twap_transition s (TWAP.AtLoop k) s TWAP.Finished
| twap_complete s k now :
    (TWAP.num_slices s <= k)%Z -> TWAP.status s = "RUNNING" ->
    twap_transition s (TWAP.AtLoop k)
      (TWAP.set_end_time now (TWAP.set_status "COMPLETED" s)) TWAP.Finished
| twap_leave s k :
    (TWAP.num_slices s <= k)%Z -> TWAP.status s <> "RUNNING" ->
    twap_transition s (TWAP.AtLoop k) s TWAP.Finished
| twap_slice s k c now :
    twap_transition s (TWAP.Sleeping k)
      (TWAP.execute_slice_on s (k + 1) c now) (TWAP.AtLoop (k + 1))
| twap_stop s p now :
    twap_transition s p
      (TWAP.set_end_time now (TWAP.set_status "STOPPED" s)) p.

(** [J] holds of every record of the dictionary. *)
Definition twap_records (J : TWAP.strategy F -> Prop) (e : TWAP.engine F) : Prop :=
  forall sid s, TWAP.active_strategies e !! sid = Some s -> J s.

(** Every strategy of the engine has the thread of its start, and [I]
    holds of the two as long as the id was started once. *)
Definition twap_alone (I : TWAP.strategy F -> TWAP.pc -> Prop)
    (e : TWAP.engine F) : Prop :=
  forall sid s, TWAP.active_strategies e !! sid = Some s ->
    exists p, TWAP.threads e !! sid = Some p /\
              (TWAP.started_once e sid -> I s p).

(** The fills recorded so far bound the thread's progress. *)
Definition twap_progress (s : TWAP.strategy F) (p : TWAP.pc) : Prop :=
  match p with
  | TWAP.AtLoop k =>
      (Z.of_nat (length (TWAP.executed_orders s)) <= k <= TWAP.num_slices s)%Z
  | TWAP.Sleeping k =>
      (Z.of_nat (length (TWAP.executed_orders s)) <= k < TWAP.num_slices s)%Z
  | TWAP.Finished =>
      (Z.of_nat (length (TWAP.executed_orders s)) <= TWAP.num_slices s)%Z
  end.

(** While a strategy is RUNNING every slice the thread has been through
    was filled, unless nothing remained; a strategy is COMPLETED only once
    its thread has been through all of them. *)
Definition twap_through (s : TWAP.strategy F) (k : Z) : Prop :=
  Z.of_nat (length (TWAP.executed_orders s)) = k \/
  fleb (TWAP.remaining_quantity s) fzero = true.

Definition twap_course (s : TWAP.strategy F) (p : TWAP.pc) : Prop :=
  match p with
  | TWAP.AtLoop k =>
      (0 <= k <= TWAP.num_slices s)%Z /\ TWAP.status s <> "COMPLETED" /\
      (TWAP.status s = "RUNNING" -> twap_through s k)
  | TWAP.Sleeping k =>
      (0 <= k < TWAP.num_slices s)%Z /\ TWAP.status s <> "COMPLETED" /\
      (TWAP.status s = "RUNNING" -> twap_through s k)
  | TWAP.Finished =>
      TWAP.status s <> "RUNNING" /\
      (TWAP.status s = "COMPLETED" -> twap_through s (TWAP.num_slices s))
  end.

(** The quantities [qs] of the fills follow the rule of line 167: each is
    the smaller of the slice quantity and of what remained before it, [r]
    being what remained before the first. *)
Fixpoint fills_follow (slice_quantity r : F) (qs : list F) : Prop :=
  match qs with
  | [] => True
  | q :: qs => q = py_min slice_quantity r /\ fills_follow slice_quantity (fsub r q) qs
  end.

(** The ledger of a record: what remains is the total less the fills,
    taken off one by one; what was executed is the fills added up one by
    one; and the fills follow the rule. *)
Definition twap_ledger (s : TWAP.strategy F) : Prop :=
  let qs := map TWAP.quantity (TWAP.executed_orders s) in
  TWAP.remaining_quantity s = fold_left fsub qs (TWAP.total_quantity s) /\
  TWAP.total_executed s = py_sum qs /\
  fills_follow (TWAP.slice_quantity s) (TWAP.total_quantity s) qs.

(** The average price agrees with the fills. *)
Definition twap_derived (s : TWAP.strategy F) : Prop :=
  TWAP.total_executed s = py_sum (map TWAP.quantity (TWAP.executed_orders s)) /\
  TWAP.average_price s =
    match TWAP.executed_orders s with
    | [] => fzero
    | _ => if fltb fzero (TWAP.total_executed s)
           then fdiv (fsum (map (fun o => fmul (TWAP.quantity o) (TWAP.price o))
                                (TWAP.executed_orders s)))
                     (TWAP.total_executed s)
           else fzero
    end.

(** The keys of a strategy's record that no statement assigns after
    [execute_twap_order] built it. *)
Definition twap_parameters (s : TWAP.strategy F) :=
  (TWAP.id s, TWAP.symbol s, TWAP.side s, TWAP.total_quantity s,
   TWAP.duration_minutes s, TWAP.num_slices s, TWAP.slice_quantity s,
   TWAP.slice_interval s, TWAP.start_time s).

(** The slice numbers of the fills, against the thread's position. *)
Definition twap_slices_ordered (s : TWAP.strategy F) (p : TWAP.pc) : Prop :=
  let nums := map TWAP.slice_num (TWAP.executed_orders s) in
  let bound := match p with
               | TWAP.AtLoop k => k
               | TWAP.Sleeping k => k
               | TWAP.Finished => TWAP.num_slices s
               end in
  StronglySorted Z.lt nums /\
  Forall (fun n => 1 <= n <= bound)%Z nums /\
  match p with
  | TWAP.AtLoop k => (0 <= k <= TWAP.num_slices s)%Z
  | TWAP.Sleeping k => (0 <= k < TWAP.num_slices s)%Z
  | TWAP.Finished => True
  end.

(** The id an event of the TWAP engine acts on. *)
Definition twap_event_id (e : TWAP.engine F) (ev : TWAP.event F) : option string :=
  match ev with
  | TWAP.Start symbol side _ _ _ _ now => Some (TWAP.strategy_id_of symbol side now)
  | TWAP.Step strategy_id _ _ => Some strategy_id
  | TWAP.Stop strategy_id _ => Some strategy_id
  | TWAP.StaleStep j _ _ => TWAP.stale_id <$> TWAP.stale e !! j
  end.

(** A record as [create_grid_strategy] builds it. *)
Definition grid_created (g : Grid.grid F) : Prop :=
  (0 < Grid.grid_count g)%Z /\
  fleb (Grid.upper_price g) (Grid.lower_price g) = false /\
  py_div_int (fsub (Grid.upper_price g) (Grid.lower_price g))
             (Grid.grid_count g - 1) = Ok (Grid.price_step g) /\
  Grid.grid_levels g =
    map (Grid.new_level (Grid.lower_price g) (Grid.price_step g)
                        (Grid.order_quantity g))
        (seqZ 0 (Grid.grid_count g)) /\
  Grid.status g = "ACTIVE" /\
  Grid.total_orders g = 0%Z /\
  Grid.executed_orders g = 0%Z.

(** What a statement of the engine does to a level: the three
    assignments after its order was placed, the [except] branch of
    [_execute_grid_order], or line 260 of the stop. A cancellation that is
    part of an undivided stop finds its level PENDING; one of a stop run
    statement by statement marks the level whatever it has become since the
    stop read its status. *)
Inductive level_op (undivided : bool)
  : Grid.grid_level F -> Grid.grid_level F -> Prop :=
| level_op_executed l orderId now :
    Grid.level_status l = "PENDING" ->
    level_op undivided l (Grid.executed orderId now l)
| level_op_failed l msg :
    Grid.level_status l = "PENDING" ->
    level_op undivided l (Grid.failed msg l)
| level_op_cancelled l :
    (undivided = true -> Grid.level_status l = "PENDING") ->
    level_op undivided l (Grid.cancelled l).

(** What a statement of the engine does to a grid's record. *)
Inductive grid_op (undivided : bool) : Grid.grid F -> Grid.grid F -> Prop :=
| grid_op_status g :
    grid_op undivided g (Grid.set_status "STOPPED" g)
| grid_op_time g now :
    grid_op undivided g (Grid.set_stopped_time now g)
| grid_op_levels g ls :
    Forall2 (fun l l' => l' = l \/ level_op undivided l l') (Grid.grid_levels g) ls ->
    grid_op undivided g (Grid.set_grid_levels ls g)
| grid_op_count g :
    grid_op undivided g (Grid.count_order g).

(** Several statements in a row. *)
Definition grid_ops (undivided : bool) : Grid.grid F -> Grid.grid F -> Prop :=
  rtc (grid_op undivided).

(** A monitor that a step leaves with its id, and its record with
    nothing but the engine's statements run on it. *)
Definition monitor_related (u : bool) (t t' : Grid.stale_monitor F) : Prop :=
  Grid.stale_id t' = Grid.stale_id t /\
  grid_ops u (Grid.stale_record t) (Grid.stale_record t').

(** [J] holds of every record, in the dictionary or held by a replaced
    monitor. *)
Definition grid_everywhere (J : Grid.grid F -> Prop) (e : Grid.engine F) : Prop :=
  forall pl g, Grid.grid_at e pl = Some g -> J g.

(** The keys of a grid's record that no statement assigns after
    [create_grid_strategy] built it. *)
Definition grid_parameters (g : Grid.grid F) :=
  (Grid.id g, Grid.symbol g, Grid.grid_type g, Grid.upper_price g,
   Grid.lower_price g, Grid.grid_count g, Grid.price_step g,
   Grid.order_quantity g, Grid.position_side g, Grid.created_time g).

(** A level that is PENDING has no order id. *)
Definition level_unordered (l : Grid.grid_level F) : Prop :=
  Grid.level_status l = "PENDING" -> Grid.level_order_id l = None.

(** How a grid level may differ from an earlier state of itself: its
    number, price and quantity stay, and it never goes back to PENDING. *)
Definition level_evolves (l l' : Grid.grid_level F) : Prop :=
  Grid.level l' = Grid.level l /\
  Grid.level_price l' = Grid.level_price l /\
  Grid.level_quantity l' = Grid.level_quantity l /\
  (Grid.level_status l <> "PENDING" -> Grid.level_status l' <> "PENDING") /\
  (Grid.level_status l ∈ ["PENDING"; "EXECUTED"; "CANCELLED"; "ERROR"] ->
   Grid.level_status l' ∈ ["PENDING"; "EXECUTED"; "CANCELLED"; "ERROR"]).

(** The same, when every call ran undivided: a level that has left
    PENDING is left alone. *)
Definition level_settles (l l' : Grid.grid_level F) : Prop :=
  level_evolves l l' /\ (Grid.level_status l <> "PENDING" -> l' = l).

(** The keys of a level the claim lists as fixed after creation, with the
    error detail among them. *)
Definition same_but_status_order_time (l l' : Grid.grid_level F) : Prop :=
  Grid.level l' = Grid.level l /\
  Grid.level_price l' = Grid.level_price l /\
  Grid.level_quantity l' = Grid.level_quantity l /\
  Grid.level_error l' = Grid.level_error l.

(** The id an event of the grid engine acts on. *)
Definition grid_event_id (e : Grid.engine F) (ev : Grid.event F) : option string :=
  match ev with
  | Grid.Create symbol grid_type _ _ _ _ _ now =>
      Some (Grid.grid_id_of symbol grid_type now)
  | Grid.Step grid_id _ _ => Some grid_id
  | Grid.Stop grid_id _ _ => Some grid_id
  | Grid.StaleStep j _ _ => Grid.stale_id <$> Grid.stale e !! j
  | Grid.StopCall grid_id => Some grid_id
  | Grid.StopStep k _ _ => Grid.stop_id <$> Grid.stoppers e !! k
  end.
End Transitions.

(** In exact arithmetic: the accounting of a record, whoever fills it. *)
Definition twap_balanced (s : TWAP.strategy Qc) : Prop :=
  (0 < TWAP.slice_quantity s)%Qc /\
  (TWAP.remaining_quantity s + TWAP.total_executed s = TWAP.total_quantity s)%Qc /\
  (0 <= TWAP.total_executed s)%Qc /\
  (TWAP.executed_orders s <> [] -> (0 < TWAP.total_executed s)%Qc).

(** In exact arithmetic: what the position of the thread of its start says
    about a strategy while it is RUNNING or COMPLETED. *)
Definition twap_exact (s : TWAP.strategy Qc) (p : TWAP.pc) : Prop :=
  (0 < TWAP.num_slices s)%Z /\
  (0 < TWAP.total_quantity s)%Qc /\
  TWAP.slice_quantity s = (TWAP.total_quantity s / Qc_of_Z (TWAP.num_slices s))%Qc /\
  (TWAP.remaining_quantity s + TWAP.total_executed s = TWAP.total_quantity s)%Qc /\
  (TWAP.status s = "RUNNING" ->
   match p with
   | TWAP.AtLoop k =>
       (0 <= k <= TWAP.num_slices s)%Z /\
       Z.of_nat (length (TWAP.executed_orders s)) = k /\
       TWAP.total_executed s = (Qc_of_Z k * TWAP.slice_quantity s)%Qc /\
       Forall (fun o => TWAP.quantity o = TWAP.slice_quantity s)
              (TWAP.executed_orders s)
   | TWAP.Sleeping k =>
       (0 <= k < TWAP.num_slices s)%Z /\
       Z.of_nat (length (TWAP.executed_orders s)) = k /\
       TWAP.total_executed s = (Qc_of_Z k * TWAP.slice_quantity s)%Qc /\
       Forall (fun o => TWAP.quantity o = TWAP.slice_quantity s)
              (TWAP.executed_orders s)
   | TWAP.Finished => False
   end) /\
  (TWAP.status s = "COMPLETED" ->
   p = TWAP.Finished /\
   Z.of_nat (length (TWAP.executed_orders s)) = TWAP.num_slices s /\
   TWAP.total_executed s = TWAP.total_quantity s /\
   Forall (fun o => TWAP.quantity o = TWAP.slice_quantity s)
          (TWAP.executed_orders s)).

(** ** Concrete runs

    The test of the repository starts a TWAP of 0.01 BTC and a BUY grid from
    45000 to 55000; the runs below use such inputs against an exchange that
    fills every order. *)

Definition filling {F : Type} (price : F) (orderId : Z) : client F :=
  {| futures_symbol_ticker := Ticker price;
     futures_create_order := OrderPlaced orderId |}.

Definition rejecting {F : Type} (price : F) (msg : string) : client F :=
  {| futures_symbol_ticker := Ticker price;
     futures_create_order := OrderError msg |}.

(** A TWAP of [total_quantity] in [num_slices] slices over one minute,
    started at time 1700000000, followed by [n] steps of its thread. *)
Definition twap_id : string := "TWAP_BTCUSDT_BUY_1700000000".

Definition twap_events {F : Type} (total_quantity price : F) (num_slices : Z)
    (n : nat) : list (TWAP.event F) :=
  TWAP.Start "BTCUSDT" "BUY" total_quantity 1 num_slices "BOTH" 1700000000
  :: repeat (TWAP.Step twap_id (filling price 1) 1700000060) n.

Definition twap_after {F : Type} `{Arith F} (evs : list (TWAP.event F))
    : TWAP.engine F :=
  default TWAP.empty_engine (TWAP.run TWAP.empty_engine evs).

(** The value of a finite double as a rational. *)
Definition float_value (x : float) : option Q :=
  match Prim2SF x with
  | S754_zero _ => Some 0%Q
  | S754_finite s m e =>
      let v := match e with
               | Zneg k => (Z.pos m # 2 ^ k)%Q
               | _ => inject_Z (Z.pos m * 2 ^ e)
               end in
      Some (if s then (- v)%Q else v)
  | _ => None
  end.

(** The grid of the repository's test, created at time 1700000000, followed
    by the given events. *)
Definition grid_id : string := "GRID_BTCUSDT_BUY_1700000000".

Definition grid_events {F : Type} (upper_price lower_price : F) (grid_count : Z)
    (order_quantity : F) (evs : list (Grid.event F)) : list (Grid.event F) :=
  Grid.Create "BTCUSDT" "BUY" upper_price lower_price grid_count order_quantity
              "BOTH" 1700000000 :: evs.

Definition grid_after {F : Type} `{Arith F} (evs : list (Grid.event F))
    : Grid.engine F :=
  default Grid.empty_engine (Grid.run Grid.empty_engine evs).

(** Steps of the thread of [strategy_id] against an exchange that fills
    every order: the price polled, the order id returned and the time of each
    step. *)
Definition twap_steps {F : Type} (strategy_id : string) (xs : list (F * Z * Z))
    : list (TWAP.event F) :=
  map (fun x => TWAP.Step strategy_id (filling x.1.1 x.1.2) x.2) xs.

(** Steps of the monitor of [grid_id] against an exchange that quotes
    [price] and places every order: the order id returned and the time of
    each step. *)
Definition grid_steps {F : Type} (grid_id : string) (price : F)
    (xs : list (Z * Z)) : list (Grid.event F) :=
  map (fun x => Grid.Step grid_id (filling price x.1) x.2) xs.

(** What a turn of the monitor's loop over the levels leaves of a level
    when the exchange places the order. *)
Definition level_after {F : Type} `{Arith F} (grid_type : string)
    (current_price : F) (x : Z * Z) (l : Grid.grid_level F) : Grid.grid_level F :=
  if String.eqb (Grid.level_status l) "PENDING"
     && Grid._should_trigger_order current_price (Grid.level_price l) grid_type
  then Grid.executed x.1 x.2 l
  else l.

(** The runs the further properties are exercised on: the TWAP of the
    test in doubles one step into its first slice, the same stopped there,
    and the grid of the test after a poll at 44000. *)
Definition twap_asleep : TWAP.engine float :=
  twap_after (twap_events 0.01%float 50000%float 2 1).

Definition twap_stopped_asleep : TWAP.engine float :=
  twap_after (twap_events 0.01%float 50000%float 2 1
              ++ [TWAP.Stop twap_id 1700000100]).

Definition grid_created_run : Grid.engine float :=
  grid_after (grid_events 55000%float 45000%float 5 0.001%float []).

Definition grid_polled_run : Grid.engine float :=
  grid_after (grid_events 55000%float 45000%float 5 0.001%float
                [Grid.Step grid_id (filling 44000%float 7) 1700000005]).

(** A stop run statement by statement around an order of the monitor. The
    grid of the test is created and its monitor polls 44000; a stop is
    called, sets the status and the time and reads the status of the first
    level, PENDING; the monitor places the order of that level and marks it
    EXECUTED with order id 7. Then the stop goes on: it reads the order id,
    cancels the order and marks the level CANCELLED. *)
Definition grid_race_start : list (Grid.event float) :=
  grid_events 55000%float 45000%float 5 0.001%float
    [Grid.Step grid_id (filling 44000%float 7) 1700000005;
     Grid.StopCall grid_id;
     Grid.StopStep 0 (fun _ => true) 1700000006;
     Grid.StopStep 0 (fun _ => true) 1700000006;
     Grid.StopStep 0 (fun _ => true) 1700000006;
     Grid.Step grid_id (filling 44000%float 7) 1700000007].

Definition grid_race_end : list (Grid.event float) :=
  [Grid.StopStep 0 (fun _ => true) 1700000008;
   Grid.StopStep 0 (fun _ => true) 1700000008;
   Grid.StopStep 0 (fun _ => true) 1700000008].

(** * Properties *)

(** ** The TWAP engine: what a step does *)

Section TwapSteps.
Context {F : Type} `{Arith F}.

Lemma execute_twap_order_created (self self' : gmap string (TWAP.strategy F))
    symbol side total_quantity duration_minutes num_slices position_side now r :
  TWAP.execute_twap_order self symbol side total_quantity duration_minutes
    num_slices position_side now = Ok (self', r) ->
  exists s, self' = <[TWAP.started_strategy_id r := s]> self /\ twap_created s /\
            TWAP.started_strategy_id r = TWAP.strategy_id_of symbol side now /\
            TWAP.id s = TWAP.started_strategy_id r /\
            TWAP.end_time s = None /\ TWAP.error s = None.
Proof.
  unfold TWAP.execute_twap_order, check, mbind, result_bind.
  destruct (String.eqb side "BUY" || String.eqb side "SELL"); [|discriminate].
  destruct (fleb total_quantity fzero) eqn:Hq; [discriminate|]. simpl.
  destruct (duration_minutes <=? 0)%Z; [discriminate|]. simpl.
  destruct (num_slices <=? 0)%Z eqn:Hn; [discriminate|]. simpl.
  destruct (py_div_int total_quantity num_slices) as [sq|] eqn:Hsq;
    [|discriminate].
  destruct (py_int_div (duration_minutes * 60) num_slices); [|discriminate].
  intros [= <- <-]. eexists. split; [reflexivity|].
  unfold twap_created; simpl. apply Z.leb_gt in Hn. auto 15.
Qed.

Lemma at_loop_transition (s : TWAP.strategy F) k now :
  twap_transition s (TWAP.AtLoop k)
    (TWAP.at_loop s k now).1 (TWAP.at_loop s k now).2.
Proof.
  unfold TWAP.at_loop.
  destruct (k <? TWAP.num_slices s)%Z eqn:Hk.
  - apply Z.ltb_lt in Hk.
    destruct (String.eqb_spec (TWAP.status s) "RUNNING") as [Hr|Hr].
    + destruct (0 <? k)%Z eqn:H0.
      * apply Z.ltb_lt in H0.
        destruct (py_sleep (TWAP.slice_interval s)) as [[]|ex] eqn:Hsl; simpl.
        -- by apply twap_enter.
        -- by eapply twap_oversleep.
      * apply Z.ltb_ge in H0. simpl. apply twap_enter; [done..|lia].
    + simpl. by apply twap_break.
  - apply Z.ltb_ge in Hk.
    destruct (String.eqb_spec (TWAP.status s) "RUNNING") as [Hr|Hr]; simpl.
    + by apply twap_complete.
    + by apply twap_leave.
Qed.

Lemma twap_transition_op (s s' : TWAP.strategy F) p p' :
  twap_transition s p s' p' -> s' = s \/ twap_op s s'.
Proof.
  destruct 1; auto using twap_op.
  - right.
    replace (TWAP.set_error (exn_message e) (TWAP.set_status "ERROR" s))
      with (TWAP.at_loop s k 0).1; [constructor|].
    unfold TWAP.at_loop.
    rewrite (proj2 (Z.ltb_lt _ _)), (proj2 (String.eqb_eq _ _)),
      (proj2 (Z.ltb_lt _ _)) by done.
    by rewrite H3.
  - right.
    replace (TWAP.set_end_time now (TWAP.set_status "COMPLETED" s))
      with (TWAP.at_loop s k now).1; [constructor|].
    unfold TWAP.at_loop.
    rewrite (proj2 (Z.ltb_ge _ _)), (proj2 (String.eqb_eq _ _)) by done.
    done.
Qed.

Lemma twap_stale_step_ids (e e' : TWAP.engine F) j c now :
  TWAP.stale_step e j c now = Some e' ->
  exists t t',
    TWAP.stale e !! j = Some t /\
    TWAP.stale e' = <[j := t']> (TWAP.stale e) /\
    TWAP.stale_id t' = TWAP.stale_id t /\
    TWAP.threads e' = TWAP.threads e /\
    (TWAP.stale_record t' = TWAP.stale_record t \/
     twap_op (TWAP.stale_record t) (TWAP.stale_record t')) /\
    (TWAP.active_strategies e' = TWAP.active_strategies e \/
     exists k, TWAP.active_strategies e'
               = TWAP._execute_slice (TWAP.active_strategies e) (TWAP.stale_id t)
                                     k c now).
Proof.
  unfold TWAP.stale_step. destruct (TWAP.stale e !! j) as [t|] eqn:Ht; [|done].
  destruct (TWAP.stale_pc t) as [k|k|]; [| |done].
  - destruct (TWAP.at_loop (TWAP.stale_record t) k now) as [s' p'] eqn:Hl.
    intros [= <-]. eexists t, _. simpl. split_and!; try done; [|by left].
    right. replace s' with (TWAP.at_loop (TWAP.stale_record t) k now).1
      by (by rewrite Hl).
    constructor.
  - intros [= <-]. eexists t, _. simpl. split_and!; try done; [by left|].
    right. by eexists.
Qed.

Lemma started_once_insert (l : list (TWAP.stale_thread F)) j t t' sid :
  l !! j = Some t -> TWAP.stale_id t' = TWAP.stale_id t ->
  Forall (fun t => TWAP.stale_id t <> sid) (<[j := t']> l) ->
  Forall (fun t => TWAP.stale_id t <> sid) l.
Proof.
  intros Hj Hid Hall. apply Forall_lookup. intros i x Hi.
  destruct (decide (i = j)) as [->|Hne].
  - assert (x = t) as -> by congruence. rewrite <- Hid.
    eapply (proj1 (Forall_lookup _ _) Hall j).
    apply list_lookup_insert_eq. by eapply lookup_lt_Some.
  - eapply (proj1 (Forall_lookup _ _) Hall i).
    by rewrite list_lookup_insert_ne.
Qed.

(** Whoever was started once stays so backwards along a step. *)
Lemma started_once_step (e e' : TWAP.engine F) ev sid :
  TWAP.step e ev = Some e' ->
  TWAP.started_once e' sid -> TWAP.started_once e sid.
Proof.
  unfold TWAP.started_once.
  destruct ev as [sym sd tq dur n ps now|sid0 c now|sid0 now|j c now]; simpl.
  - destruct (TWAP.execute_twap_order _ _ _ _ _ _ _ _) as [[self r]|];
      intros [= <-]; [|done].
    simpl. rewrite Forall_app. tauto.
  - unfold TWAP.thread_step.
    destruct (TWAP.threads e !! sid0) as [[k|k|]|]; try done;
      destruct (TWAP.active_strategies e !! sid0); try done.
    + destruct (TWAP.at_loop _ _ _). by intros [= <-].
    + by intros [= <-].
  - destruct (TWAP.stop_twap_strategy _ _ _) as [[self r]|]; by intros [= <-].
  - intros Hst. apply twap_stale_step_ids in Hst
      as (t & t' & Ht & -> & Hid & _). by eapply started_once_insert.
Qed.

Lemma execute_slice_lookup (self : gmap string (TWAP.strategy F)) sid0 sid k c now :
  TWAP._execute_slice self sid0 k c now !! sid
  = if decide (sid0 = sid)
    then (fun s => TWAP.execute_slice_on s k c now) <$> self !! sid
    else self !! sid.
Proof.
  unfold TWAP._execute_slice. destruct (decide (sid0 = sid)) as [->|Hne].
  - destruct (self !! sid) as [s|] eqn:Hs; simpl.
    + by rewrite lookup_insert_eq.
    + by rewrite Hs.
  - destruct (self !! sid0); [by rewrite lookup_insert_ne|done].
Qed.

(** Where the records of the dictionary come from. *)
Lemma twap_step_origin (e e' : TWAP.engine F) ev sid s' :
  TWAP.step e ev = Some e' ->
  TWAP.active_strategies e' !! sid = Some s' ->
  twap_created s' \/
  exists s, TWAP.active_strategies e !! sid = Some s /\ (s' = s \/ twap_op s s').
Proof.
  destruct ev as [sym sd tq dur n ps now|sid0 c now|sid0 now|j c now]; simpl.
  - destruct (TWAP.execute_twap_order _ _ _ _ _ _ _ _) as [[self r]|] eqn:Hex;
      intros [= <-]; [|eauto].
    destruct (execute_twap_order_created _ _ _ _ _ _ _ _ _ _ Hex)
      as (s0 & -> & Hc & _). simpl.
    destruct (decide (TWAP.started_strategy_id r = sid)) as [<-|Hne].
    + rewrite lookup_insert_eq. intros [= <-]. by left.
    + rewrite lookup_insert_ne by done. eauto.
  - unfold TWAP.thread_step.
    destruct (TWAP.threads e !! sid0) as [[k|k|]|]; try done;
      destruct (TWAP.active_strategies e !! sid0) as [s0|] eqn:Hs0; try done.
    + destruct (TWAP.at_loop s0 k now) as [s1 p1] eqn:Hl. intros [= <-]. simpl.
      destruct (decide (sid0 = sid)) as [->|Hne].
      * rewrite lookup_insert_eq. intros [= <-]. right. exists s0.
        split; [done|]. right.
        replace s1 with (TWAP.at_loop s0 k now).1 by (by rewrite Hl). constructor.
      * rewrite lookup_insert_ne by done. eauto.
    + intros [= <-]. simpl. rewrite execute_slice_lookup.
      destruct (decide (sid0 = sid)) as [->|Hne]; [|eauto].
      rewrite Hs0. simpl. intros [= <-]. right. exists s0. split; [done|].
      right. constructor.
  - unfold TWAP.stop_twap_strategy.
    destruct (TWAP.active_strategies e !! sid0) as [s0|] eqn:Hs0;
      intros [= <-]; [|eauto].
    simpl. destruct (decide (sid0 = sid)) as [->|Hne].
    + rewrite lookup_insert_eq. intros [= <-]. right. exists s0.
      split; [done|]. right. constructor.
    + rewrite lookup_insert_ne by done. eauto.
  - intros Hst. apply twap_stale_step_ids in Hst
      as (t & t' & Ht & _ & _ & _ & _ & [->|[k ->]]); [eauto|].
    rewrite execute_slice_lookup.
    destruct (decide (TWAP.stale_id t = sid)) as [Heq|Hne]; [|eauto].
    destruct (TWAP.active_strategies e !! sid) as [s0|]; [|done].
    simpl. intros [= <-]. right. exists s0. split; [done|]. right. constructor.
Qed.

(** The thread of the latest start of an id is there as long as the
    record is. *)
Lemma twap_step_thread (e e' : TWAP.engine F) ev :
  (forall sid, is_Some (TWAP.active_strategies e !! sid) ->
               is_Some (TWAP.threads e !! sid)) ->
  TWAP.step e ev = Some e' ->
  forall sid, is_Some (TWAP.active_strategies e' !! sid) ->
              is_Some (TWAP.threads e' !! sid).
Proof.
  intros Hall Hstep sid [s' Hs'].
  destruct (decide (is_Some (TWAP.threads e' !! sid))) as [|Hno]; [done|].
  exfalso. apply Hno. clear Hno.
  destruct ev as [sym sd tq dur n ps now|sid0 c now|sid0 now|j c now];
    simpl in Hstep.
  - destruct (TWAP.execute_twap_order _ _ _ _ _ _ _ _) as [[self r]|] eqn:Hex;
      injection Hstep as <-; [|by eauto].
    destruct (execute_twap_order_created _ _ _ _ _ _ _ _ _ _ Hex)
      as (s0 & -> & _). simpl in *.
    destruct (decide (TWAP.started_strategy_id r = sid)) as [<-|Hne].
    + rewrite lookup_insert_eq. by eexists.
    + rewrite lookup_insert_ne in Hs' by done. rewrite lookup_insert_ne by done. eauto.
  - unfold TWAP.thread_step in Hstep.
    destruct (TWAP.threads e !! sid0) as [[k|k|]|] eqn:Hp0; try done;
      destruct (TWAP.active_strategies e !! sid0) as [s0|] eqn:Hs0; try done.
    + destruct (TWAP.at_loop s0 k now) as [s1 p1]. injection Hstep as <-.
      simpl in *. destruct (decide (sid0 = sid)) as [->|Hne].
      * rewrite lookup_insert_eq. by eexists.
      * rewrite lookup_insert_ne in Hs' by done. rewrite lookup_insert_ne by done. eauto.
    + injection Hstep as <-. simpl in *. rewrite execute_slice_lookup in Hs'.
      destruct (decide (sid0 = sid)) as [->|Hne].
      * rewrite lookup_insert_eq. by eexists.
      * rewrite lookup_insert_ne by done. eauto.
  - unfold TWAP.stop_twap_strategy in Hstep.
    destruct (TWAP.active_strategies e !! sid0) as [s0|] eqn:Hs0;
      injection Hstep as <-; [|by eauto].
    simpl in *. destruct (decide (sid0 = sid)) as [->|Hne].
    + apply Hall. by eexists.
    + rewrite lookup_insert_ne in Hs' by done. eauto.
  - apply twap_stale_step_ids in Hstep
      as (t & t' & Ht & _ & _ & -> & _ & [Heq|[k Heq]]); rewrite Heq in Hs'.
    + eauto.
    + rewrite execute_slice_lookup in Hs'. apply Hall.
      destruct (decide (TWAP.stale_id t = sid)) as [Heq'|Hne]; [|by eauto].
      destruct (TWAP.active_strategies e !! sid); [by eexists|done].
Qed.
End TwapSteps.

(** Invariants of the records of the dictionary, whoever acts on them. *)
Section TwapRecords.
Context {F : Type} `{Arith F}.
Variable J : TWAP.strategy F -> Prop.
Hypothesis J_created : forall s, twap_created s -> J s.
Hypothesis J_op : forall s s', J s -> twap_op s s' -> J s'.

Lemma twap_records_step (e e' : TWAP.engine F) ev :
  twap_records J e -> TWAP.step e ev = Some e' -> twap_records J e'.
Proof.
  intros Hall Hstep sid s' Hs'.
  destruct (twap_step_origin e e' ev sid s' Hstep Hs')
    as [Hc|(s & Hs & [->|Hop])]; eauto.
Qed.

Lemma twap_records_run (evs : list (TWAP.event F)) (e e' : TWAP.engine F) :
  twap_records J e -> TWAP.run e evs = Some e' -> twap_records J e'.
Proof.
  revert e. induction evs as [|ev evs IH]; simpl; intros e Hall Hrun.
  - by injection Hrun as <-.
  - destruct (TWAP.step e ev) as [e1|] eqn:Hstep; [|discriminate].
    eapply IH; [|done]. by eapply twap_records_step.
Qed.

Lemma twap_records_reachable (e : TWAP.engine F) :
  TWAP.reachable e -> twap_records J e.
Proof.
  intros [evs Hrun]. eapply twap_records_run; [|done].
  intros sid s Hs. simpl in Hs. by rewrite lookup_empty in Hs.
Qed.
End TwapRecords.

(** Invariants of a record and the thread of its start, for the ids
    started once. *)
Section TwapAlone.
Context {F : Type} `{Arith F}.
Variable I : TWAP.strategy F -> TWAP.pc -> Prop.
Hypothesis I_created : forall s, twap_created s -> I s (TWAP.AtLoop 0).
Hypothesis I_transition :
  forall s p s' p', I s p -> twap_transition s p s' p' -> I s' p'.

Lemma twap_alone_step (e e' : TWAP.engine F) ev :
  twap_alone I e -> TWAP.step e ev = Some e' -> twap_alone I e'.
Proof.
  intros Hall Hstep sid s' Hs'.
  pose proof (started_once_step e e' ev sid Hstep) as Hback.
  destruct ev as [sym sd tq dur n ps now|sid0 c now|sid0 now|j c now];
    simpl in Hstep.
  - destruct (TWAP.execute_twap_order _ _ _ _ _ _ _ _) as [[self r]|] eqn:Hex;
      injection Hstep as <-; [|by apply Hall].
    destruct (execute_twap_order_created _ _ _ _ _ _ _ _ _ _ Hex)
      as (s0 & -> & Hc & _). simpl in *.
    destruct (decide (TWAP.started_strategy_id r = sid)) as [<-|Hne].
    + rewrite lookup_insert_eq in Hs'. rewrite lookup_insert_eq. injection Hs' as <-.
      eexists. split; [done|]. intros _. by apply I_created.
    + rewrite lookup_insert_ne in Hs' by done. rewrite lookup_insert_ne by done.
      destruct (Hall _ _ Hs') as (p & Hp & HI). eauto.
  - unfold TWAP.thread_step in Hstep.
    destruct (TWAP.threads e !! sid0) as [[k|k|]|] eqn:Hp0; try done;
      destruct (TWAP.active_strategies e !! sid0) as [s0|] eqn:Hs0; try done.
    + pose proof (at_loop_transition s0 k now) as Htr.
      destruct (TWAP.at_loop s0 k now) as [s1 p1]. injection Hstep as <-.
      simpl in *. destruct (decide (sid0 = sid)) as [->|Hne].
      * rewrite lookup_insert_eq in Hs'. rewrite lookup_insert_eq. injection Hs' as <-.
        eexists. split; [done|]. intros Ho.
        destruct (Hall _ _ Hs0) as (p & Hp & HI).
        assert (p = TWAP.AtLoop k) as -> by congruence. eauto.
      * rewrite lookup_insert_ne in Hs' by done. rewrite lookup_insert_ne by done.
        destruct (Hall _ _ Hs') as (p & Hp & HI). eauto.
    + injection Hstep as <-. simpl in *. rewrite execute_slice_lookup in Hs'.
      destruct (decide (sid0 = sid)) as [->|Hne].
      * rewrite Hs0 in Hs'. simpl in Hs'. injection Hs' as <-.
        rewrite lookup_insert_eq. eexists. split; [done|]. intros Ho.
        destruct (Hall _ _ Hs0) as (p & Hp & HI).
        assert (p = TWAP.Sleeping k) as -> by congruence.
        eapply I_transition; [by apply HI, Hback|]. constructor.
      * rewrite lookup_insert_ne by done.
        destruct (Hall _ _ Hs') as (p & Hp & HI). eauto.
  - unfold TWAP.stop_twap_strategy in Hstep.
    destruct (TWAP.active_strategies e !! sid0) as [s0|] eqn:Hs0;
      injection Hstep as <-; [|by apply Hall].
    simpl in *. destruct (decide (sid0 = sid)) as [->|Hne].
    + rewrite lookup_insert_eq in Hs'. injection Hs' as <-.
      destruct (Hall _ _ Hs0) as (p & Hp & HI). exists p. split; [done|].
      intros Ho. eapply I_transition; [by apply HI|]. constructor.
    + rewrite lookup_insert_ne in Hs' by done. by apply Hall.
  - pose proof Hstep as Hst. apply twap_stale_step_ids in Hst
      as (t & t' & Ht & Hstale & Hid & -> & _ & [Heq|[k Heq]]); rewrite Heq in Hs'.
    + destruct (Hall _ _ Hs') as (p & Hp & HI). eauto.
    + rewrite execute_slice_lookup in Hs'.
      destruct (decide (TWAP.stale_id t = sid)) as [Heq'|Hne].
      * destruct (TWAP.active_strategies e !! sid) as [s0|] eqn:Hs0; [|done].
        destruct (Hall _ _ Hs0) as (p & Hp & HI). exists p. split; [done|].
        intros Ho. exfalso. unfold TWAP.started_once in Ho.
        rewrite Hstale in Ho.
        apply (proj1 (Forall_lookup _ _) Ho j t'); [|congruence].
        apply list_lookup_insert_eq. by eapply lookup_lt_Some.
      * destruct (Hall _ _ Hs') as (p & Hp & HI). eauto.
Qed.

Lemma twap_alone_run (evs : list (TWAP.event F)) (e e' : TWAP.engine F) :
  twap_alone I e -> TWAP.run e evs = Some e' -> twap_alone I e'.
Proof.
  revert e. induction evs as [|ev evs IH]; simpl; intros e Hall Hrun.
  - by injection Hrun as <-.
  - destruct (TWAP.step e ev) as [e1|] eqn:Hstep; [|discriminate].
    eapply IH; [|done]. by eapply twap_alone_step.
Qed.

Lemma twap_alone_reachable (e : TWAP.engine F) :
  TWAP.reachable e -> twap_alone I e.
Proof.
  intros [evs Hrun]. eapply twap_alone_run; [|done].
  intros sid s Hs. simpl in Hs. by rewrite lookup_empty in Hs.
Qed.
End TwapAlone.

(** ** The TWAP engine: following a record along a run *)

Section TwapTracks.
Context {F : Type} `{Arith F}.

Lemma twap_step_tracks (e e' : TWAP.engine F) ev pl s :
  TWAP.step e ev = Some e' ->
  TWAP.strategy_at e pl = Some s ->
  exists pl' s',
    TWAP.strategy_at e' pl' = Some s' /\
    (s' = s \/ twap_op s s') /\
    (forall sid, pl = TWAP.Registered sid -> TWAP.started_once e' sid ->
                 pl' = TWAP.Registered sid).
Proof.
  intros Hstep Hs. destruct pl as [sid|j]; simpl in Hs.
  - destruct ev as [sym sd tq dur n ps now|sid0 c now|sid0 now|j c now];
      simpl in Hstep.
    + destruct (TWAP.execute_twap_order _ _ _ _ _ _ _ _) as [[self r]|] eqn:Hex;
        injection Hstep as <-; [|exists (TWAP.Registered sid), s; by auto].
      destruct (execute_twap_order_created _ _ _ _ _ _ _ _ _ _ Hex)
        as (s0 & -> & _).
      destruct (decide (TWAP.started_strategy_id r = sid)) as [Heq|Hne].
      * exists (TWAP.Replaced (length (TWAP.stale e))), s. simpl.
        unfold TWAP.replaced_thread. rewrite Heq, Hs.
        rewrite lookup_app_r, Nat.sub_diag by lia. simpl.
        split; [done|]. split; [by left|].
        intros sid' [= <-] Ho. exfalso. unfold TWAP.started_once in Ho.
        simpl in Ho. rewrite Forall_app, Forall_singleton in Ho.
        by destruct Ho as [_ Ho].
      * exists (TWAP.Registered sid), s. simpl.
        rewrite lookup_insert_ne by done. auto.
    + unfold TWAP.thread_step in Hstep.
      destruct (TWAP.threads e !! sid0) as [[k|k|]|]; try done;
        destruct (TWAP.active_strategies e !! sid0) as [s0|] eqn:Hs0; try done.
      * destruct (TWAP.at_loop s0 k now) as [s1 p1] eqn:Hl.
        injection Hstep as <-. destruct (decide (sid0 = sid)) as [->|Hne].
        -- exists (TWAP.Registered sid), s1. simpl. rewrite lookup_insert_eq.
           assert (s0 = s) as -> by congruence. split; [done|]. split; [|auto].
           right. replace s1 with (TWAP.at_loop s k now).1 by (by rewrite Hl).
           constructor.
        -- exists (TWAP.Registered sid), s. simpl.
           rewrite lookup_insert_ne by done. auto.
      * injection Hstep as <-.
        exists (TWAP.Registered sid). simpl. rewrite execute_slice_lookup, Hs.
        destruct (decide (sid0 = sid)) as [->|Hne]; eexists; simpl;
          (split; [done|]); (split; [|by auto]);
          [right; constructor|by left].
    + unfold TWAP.stop_twap_strategy in Hstep.
      destruct (TWAP.active_strategies e !! sid0) as [s0|] eqn:Hs0;
        injection Hstep as <-; [|exists (TWAP.Registered sid), s; by auto].
      destruct (decide (sid0 = sid)) as [->|Hne].
      * exists (TWAP.Registered sid). eexists. simpl. rewrite lookup_insert_eq.
        assert (s0 = s) as -> by congruence. split; [done|]. split; [|auto].
        right. constructor.
      * exists (TWAP.Registered sid), s. simpl.
        rewrite lookup_insert_ne by done. auto.
    + apply twap_stale_step_ids in Hstep
        as (t & t' & Ht & _ & _ & _ & _ & [Heq|[k Heq]]).
      * exists (TWAP.Registered sid), s. simpl. rewrite Heq. auto.
      * exists (TWAP.Registered sid). simpl. rewrite Heq, execute_slice_lookup, Hs.
        destruct (decide (TWAP.stale_id t = sid)); eexists; simpl;
          (split; [done|]); (split; [|by auto]);
          [right; constructor|by left].
  - destruct (TWAP.stale e !! j) as [t0|] eqn:Ht0; [|done].
    simpl in Hs. injection Hs as <-.
    destruct ev as [sym sd tq dur n ps now|sid0 c now|sid0 now|j0 c now];
      simpl in Hstep.
    + destruct (TWAP.execute_twap_order _ _ _ _ _ _ _ _) as [[self r]|] eqn:Hex;
        injection Hstep as <-;
        exists (TWAP.Replaced j), (TWAP.stale_record t0); simpl.
      * rewrite lookup_app_l by (by eapply lookup_lt_Some). rewrite Ht0.
        split; [done|]. split; [by left|done].
      * rewrite Ht0. split; [done|]. split; [by left|done].
    + unfold TWAP.thread_step in Hstep.
      destruct (TWAP.threads e !! sid0) as [[k|k|]|]; try done;
        destruct (TWAP.active_strategies e !! sid0) as [s0|] eqn:Hs0; try done.
      * destruct (TWAP.at_loop s0 k now) as [s1 p1]. injection Hstep as <-.
        exists (TWAP.Replaced j), (TWAP.stale_record t0); simpl. rewrite Ht0.
        split; [done|]. split; [by left|done].
      * injection Hstep as <-.
        exists (TWAP.Replaced j), (TWAP.stale_record t0); simpl. rewrite Ht0.
        split; [done|]. split; [by left|done].
    + destruct (TWAP.stop_twap_strategy _ _ _) as [[self r]|];
        injection Hstep as <-;
        exists (TWAP.Replaced j), (TWAP.stale_record t0); simpl; rewrite Ht0;
        (split; [done|]); (split; [by left|done]).
    + apply twap_stale_step_ids in Hstep
        as (t & t' & Ht & Hstale & _ & _ & Hrec & _).
      exists (TWAP.Replaced j). simpl. rewrite Hstale.
      destruct (decide (j = j0)) as [->|Hne].
      * rewrite list_lookup_insert_eq by (by eapply lookup_lt_Some).
        assert (t0 = t) as -> by congruence.
        exists (TWAP.stale_record t'). simpl. split; [done|].
        split; [|done]. destruct Hrec as [->|Hop]; auto.
      * rewrite list_lookup_insert_ne by done. rewrite Ht0.
        exists (TWAP.stale_record t0). split; [done|]. split; [by left|done].
Qed.

Lemma started_once_run (evs : list (TWAP.event F)) (e e' : TWAP.engine F) sid :
  TWAP.run e evs = Some e' ->
  TWAP.started_once e' sid -> TWAP.started_once e sid.
Proof.
  revert e. induction evs as [|ev evs IH]; simpl; intros e Hrun Ho.
  - by injection Hrun as <-.
  - destruct (TWAP.step e ev) as [e1|] eqn:Hstep; [|discriminate].
    eapply started_once_step; [done|]. by eapply IH.
Qed.

Variable R : TWAP.strategy F -> TWAP.strategy F -> Prop.
Hypothesis R_refl : forall s, R s s.
Hypothesis R_trans : forall s1 s2 s3, R s1 s2 -> R s2 s3 -> R s1 s3.
Hypothesis R_op : forall s s', twap_op s s' -> R s s'.

Lemma twap_run_tracks (evs : list (TWAP.event F)) (e e' : TWAP.engine F) pl s :
  TWAP.run e evs = Some e' ->
  TWAP.strategy_at e pl = Some s ->
  exists pl' s',
    TWAP.strategy_at e' pl' = Some s' /\ R s s' /\
    (forall sid, pl = TWAP.Registered sid -> TWAP.started_once e' sid ->
                 pl' = TWAP.Registered sid).
Proof.
  revert e pl s. induction evs as [|ev evs IH]; simpl; intros e pl s Hrun Hs.
  - injection Hrun as <-. exists pl, s. auto.
  - destruct (TWAP.step e ev) as [e1|] eqn:Hstep; [|discriminate].
    destruct (twap_step_tracks e e1 ev pl s Hstep Hs)
      as (pl1 & s1 & Hs1 & Hrel & Hpl1).
    destruct (IH e1 pl1 s1 Hrun Hs1) as (pl' & s' & Hs' & Hrel' & Hpl').
    exists pl', s'. split; [done|]. split.
    + eapply R_trans; [|exact Hrel']. destruct Hrel as [->|Hop]; auto.
    + intros sid -> Ho. apply Hpl'; [|done].
      apply Hpl1; [done|]. by eapply started_once_run.
Qed.
End TwapTracks.

(** ** The TWAP engine: the accounts of a record *)

Section TwapGeneric.
Context {F : Type} `{Arith F}.

Lemma py_sum_snoc (xs : list F) (x : F) :
  py_sum (xs ++ [x]) = fadd (py_sum xs) x.
Proof. unfold py_sum. by rewrite fold_left_app. Qed.

(** The loop head of a thread assigns the status, the end time and the
    error only. *)
Lemma at_loop_keeps (s : TWAP.strategy F) k now :
  let s' := (TWAP.at_loop s k now).1 in
  twap_parameters s' = twap_parameters s /\
  TWAP.remaining_quantity s' = TWAP.remaining_quantity s /\
  TWAP.total_executed s' = TWAP.total_executed s /\
  TWAP.executed_orders s' = TWAP.executed_orders s /\
  TWAP.average_price s' = TWAP.average_price s.
Proof.
  unfold TWAP.at_loop.
  destruct (k <? TWAP.num_slices s)%Z; destruct (String.eqb (TWAP.status s) "RUNNING");
    try done.
  destruct (0 <? k)%Z; [|done].
  by destruct (py_sleep (TWAP.slice_interval s)).
Qed.

(** What [_execute_slice] does to a record: nothing, a failure, or a
    fill. *)
Lemma execute_slice_on_cases (s : TWAP.strategy F) n c now :
  (fleb (TWAP.remaining_quantity s) fzero = true /\
   TWAP.execute_slice_on s n c now = s) \/
  (fleb (TWAP.remaining_quantity s) fzero = false /\
   exists msg, TWAP.execute_slice_on s n c now = TWAP.fail msg s) \/
  (fleb (TWAP.remaining_quantity s) fzero = false /\
   exists price orderId,
     futures_symbol_ticker c = Ticker price /\
     futures_create_order c = OrderPlaced orderId /\
     TWAP.execute_slice_on s n c now
     = TWAP.record_order
         {| TWAP.slice_num := n; TWAP.order_id := orderId;
            TWAP.quantity := py_min (TWAP.slice_quantity s)
                                    (TWAP.remaining_quantity s);
            TWAP.price := price; TWAP.timestamp := now |} s).
Proof.
  unfold TWAP.execute_slice_on.
  destruct (fleb (TWAP.remaining_quantity s) fzero); [by left|right].
  destruct (futures_symbol_ticker c) as [price|msg]; [|left; by eauto].
  destruct (futures_create_order c) as [orderId|msg]; [|left; by eauto].
  right. split; [done|]. by eexists _, _.
Qed.

(** The fills of a record only grow, by appending. *)
Lemma twap_op_prefix (s s' : TWAP.strategy F) :
  twap_op s s' -> TWAP.executed_orders s `prefix_of` TWAP.executed_orders s'.
Proof.
  destruct 1 as [s n c now|s now|s k now]; simpl; try done.
  - destruct (execute_slice_on_cases s n c now)
      as [[_ ->]|[[_ [msg ->]]|[_ (price & orderId & _ & _ & ->)]]]; try done.
    simpl. by apply prefix_app_r.
  - by destruct (at_loop_keeps s k now) as (_ & _ & _ & -> & _).
Qed.

Lemma twap_op_parameters (s s' : TWAP.strategy F) :
  twap_op s s' -> twap_parameters s' = twap_parameters s.
Proof.
  destruct 1 as [s n c now|s now|s k now]; simpl; try done.
  - by destruct (execute_slice_on_cases s n c now)
      as [[_ ->]|[[_ [msg ->]]|[_ (price & orderId & _ & _ & ->)]]].
  - by destruct (at_loop_keeps s k now) as (-> & _).
Qed.

Lemma twap_progress_created (s : TWAP.strategy F) :
  twap_created s -> twap_progress s (TWAP.AtLoop 0).
Proof.
  intros (Hn & _ & _ & _ & _ & Ho & _). simpl. rewrite Ho. simpl. lia.
Qed.

Lemma twap_progress_transition (s s' : TWAP.strategy F) p p' :
  twap_progress s p -> twap_transition s p s' p' -> twap_progress s' p'.
Proof.
  intros Hp Ht. destruct Ht; simpl in *; try lia.
  - destruct (execute_slice_on_cases s (k + 1) c now)
      as [[_ ->]|[[_ [msg ->]]|[_ (price & orderId & _ & _ & ->)]]];
      simpl; try lia.
    rewrite length_app. simpl. lia.
  - destruct p; simpl in *; lia.
Qed.

Lemma twap_course_created (s : TWAP.strategy F) :
  twap_created s -> twap_course s (TWAP.AtLoop 0).
Proof.
  intros (Hn & _ & _ & _ & Hst & Ho & _). unfold twap_course, twap_through.
  rewrite Hst, Ho. split; [lia|]. split; [done|]. intros _. by left.
Qed.

Lemma twap_course_transition (s s' : TWAP.strategy F) p p' :
  twap_course s p -> twap_transition s p s' p' -> twap_course s' p'.
Proof.
  intros Hc Ht.
  destruct Ht as [s k Hk Hst Hsl|s k ex Hk Hst H0 Hsl|s k Hk Hst|s k now Hk Hst
                 |s k Hk Hst|s k c now|s p now]; simpl in *.
  - destruct Hc as (? & ? & ?). split_and!; try done; lia.
  - split; [done|]. intros [=].
  - destruct Hc as (? & Hnc & ?). split; [done|]. intros Hc'. done.
  - destruct Hc as (? & Hnc & Hth). split; [done|]. intros _.
    assert (k = TWAP.num_slices s) as -> by lia. by apply Hth.
  - destruct Hc as (? & Hnc & ?). split; [done|]. intros Hc'. done.
  - destruct Hc as (Hk & Hnc & Hth).
    destruct (execute_slice_on_cases s (k + 1) c now)
      as [[Hg ->]|[[_ [msg ->]]|[Hg (price & orderId & _ & _ & ->)]]]; simpl.
    + split; [lia|]. split; [done|]. intros _. by right.
    + split; [lia|]. split; [done|]. intros [=].
    + split; [lia|]. split; [done|]. intros Hst.
      destruct (Hth Hst) as [Hlen|Hz]; [|congruence].
      left. simpl. rewrite length_app. simpl. lia.
  - destruct p as [k|k|]; cbv [twap_course] in *.
    + destruct Hc as ((? & ?) & ? & ?). split_and!; try done; intros [=].
    + destruct Hc as ((? & ?) & ? & ?). split_and!; try done; intros [=].
    + split; [done|]. intros [=].
Qed.

Lemma fills_follow_snoc (sq r : F) (qs : list F) (q : F) :
  fills_follow sq r qs -> q = py_min sq (fold_left fsub qs r) ->
  fills_follow sq r (qs ++ [q]).
Proof.
  revert r. induction qs as [|q0 qs IH]; simpl; intros r Hf Hq; [done|].
  destruct Hf as [Hq0 Hf]. split; [done|]. by apply IH.
Qed.

Lemma twap_ledger_created (s : TWAP.strategy F) :
  twap_created s -> twap_ledger s.
Proof.
  intros (_ & _ & _ & Hrem & _ & Ho & He & _). unfold twap_ledger.
  rewrite Ho, Hrem, He. done.
Qed.

Lemma twap_ledger_op (s s' : TWAP.strategy F) :
  twap_ledger s -> twap_op s s' -> twap_ledger s'.
Proof.
  intros (Hrem & Hex & Hf) Hop. destruct Hop as [s n c now|s now|s k now].
  - destruct (execute_slice_on_cases s n c now)
      as [[_ ->]|[[_ [msg ->]]|[_ (price & orderId & _ & _ & ->)]]]; try done.
    unfold twap_ledger. simpl. rewrite map_app. simpl.
    rewrite fold_left_app, py_sum_snoc. simpl. rewrite <- Hrem, <- Hex.
    split_and!; try done. apply fills_follow_snoc; [done|]. by rewrite <- Hrem.
  - done.
  - destruct (at_loop_keeps s k now) as (Hpar & Hr & He & Ho & _).
    injection Hpar as _ _ _ Htot _ _ Hsq _ _.
    unfold twap_ledger. by rewrite Hr, He, Ho, Htot, Hsq.
Qed.

Lemma twap_derived_created (s : TWAP.strategy F) :
  twap_created s -> twap_derived s.
Proof.
  intros (_ & _ & _ & _ & _ & Ho & He & Ha). split; rewrite Ho; simpl; done.
Qed.

Lemma twap_derived_op (s s' : TWAP.strategy F) :
  twap_derived s -> twap_op s s' -> twap_derived s'.
Proof.
  intros [Hsum Havg] Hop. destruct Hop as [s n c now|s now|s k now].
  - destruct (execute_slice_on_cases s n c now)
      as [[_ ->]|[[_ [msg ->]]|[_ (price & orderId & _ & _ & ->)]]]; try done.
    split; simpl.
    + rewrite map_app. simpl. by rewrite py_sum_snoc, Hsum.
    + by destruct (TWAP.executed_orders s).
  - done.
  - destruct (at_loop_keeps s k now) as (_ & _ & He & Ho & Ha).
    unfold twap_derived. by rewrite He, Ho, Ha.
Qed.

Lemma twap_slices_ordered_created (s : TWAP.strategy F) :
  twap_created s -> twap_slices_ordered s (TWAP.AtLoop 0).
Proof.
  intros (Hn & _ & _ & _ & _ & Ho & _). unfold twap_slices_ordered.
  rewrite Ho. simpl. split_and!; [constructor|constructor|lia|lia].
Qed.

Lemma twap_slices_ordered_transition (s : TWAP.strategy F) p s' p' :
  twap_slices_ordered s p -> twap_transition s p s' p' ->
  twap_slices_ordered s' p'.
Proof.
  intros (Hs & Hb & Hk) Ht.
  destruct Ht as [s k Hk' Hst Hsl|s k ex Hk' Hst H0 Hsl|s k Hk' Hst|s k now Hk' Hst
                 |s k Hk' Hst|s k c now|s p now]; unfold twap_slices_ordered;
    simpl in *.
  - split_and!; try done; lia.
  - split_and!; try done. eapply Forall_impl; [exact Hb|]. simpl. lia.
  - split_and!; try done. eapply Forall_impl; [exact Hb|]. simpl. lia.
  - split_and!; try done. eapply Forall_impl; [exact Hb|]. simpl. lia.
  - split_and!; try done. eapply Forall_impl; [exact Hb|]. simpl. lia.
  - destruct (execute_slice_on_cases s (k + 1) c now)
      as [[_ ->]|[[_ [msg ->]]|[_ (price & orderId & _ & _ & ->)]]]; simpl.
    + split_and!; try done; [|lia..].
      eapply Forall_impl; [exact Hb|]. simpl. lia.
    + split_and!; try done; [|lia..].
      eapply Forall_impl; [exact Hb|]. simpl. lia.
    + rewrite map_app. simpl. split_and!; [| |lia..].
      * apply StronglySorted_app. split_and!; [|done|repeat constructor].
        intros x1 x2 Hx1 Hx2. apply list_elem_of_singleton in Hx2 as ->.
        apply (proj1 (Forall_forall _ _) Hb) in Hx1. lia.
      * apply Forall_app. split.
        -- eapply Forall_impl; [exact Hb|]. simpl. lia.
        -- apply Forall_singleton. lia.
  - by destruct p.
Qed.
End TwapGeneric.

(** ** The TWAP engine in exact arithmetic *)

Lemma Qc_of_Z_pos (n : Z) : (0 < n)%Z -> (0 < Qc_of_Z n)%Qc.
Proof.
  intros Hn. pose proof (proj1 (Z2Qc_inj_lt 0 n) Hn) as Hlt.
  by rewrite Z2Qc_inj_0 in Hlt.
Qed.

Lemma Qc_of_Z_nonzero (n : Z) : (0 < n)%Z -> Qc_of_Z n <> 0%Qc.
Proof.
  intros Hn Heq. apply Qc_of_Z_pos in Hn. rewrite Heq in Hn.
  by apply Qclt_not_eq in Hn.
Qed.

Lemma Qc_slices_total (t : Qc) (n : Z) :
  (0 < n)%Z -> (Qc_of_Z n * (t / Qc_of_Z n))%Qc = t.
Proof. intros Hn. apply Qcmult_div_r. by apply Qc_of_Z_nonzero. Qed.

Lemma Qc_slice_pos (t : Qc) (n : Z) :
  (0 < n)%Z -> (0 < t)%Qc -> (0 < t / Qc_of_Z n)%Qc.
Proof.
  intros Hn Ht. apply Qcnot_le_lt. intros Hle.
  apply (Qcmult_le_mono_pos_l _ _ (Qc_of_Z n) (Qc_of_Z_pos n Hn)) in Hle.
  rewrite Qc_slices_total in Hle by done.
  rewrite Qcmult_0_r in Hle. by apply Qcle_not_lt in Hle.
Qed.

Lemma Qc_scaled_ge (m : Z) (q : Qc) :
  (1 <= m)%Z -> (0 < q)%Qc -> (q <= Qc_of_Z m * q)%Qc.
Proof.
  intros Hm Hq. rewrite <- (Qcmult_1_l q) at 1.
  apply Qcmult_le_mono_pos_r; [done|].
  pose proof (proj1 (Z2Qc_inj_le 1 m) Hm) as Hle.
  by rewrite Z2Qc_inj_1 in Hle.
Qed.

Lemma Qc_fleb_false (x y : Qc) : fleb x y = false <-> (y < x)%Qc.
Proof.
  simpl. rewrite bool_decide_eq_false. split.
  - apply Qcnot_le_lt.
  - intros Hlt Hle. by apply Qcle_not_lt in Hle.
Qed.

Lemma Qc_fltb_false (x y : Qc) : fltb x y = false <-> (y <= x)%Qc.
Proof.
  simpl. rewrite bool_decide_eq_false. split.
  - apply Qcnot_lt_le.
  - intros Hle Hlt. by apply Qcle_not_lt in Hle.
Qed.

Lemma Qc_py_div_int (x : Qc) (n : Z) (q : Qc) :
  (0 < n)%Z -> py_div_int x n = Ok q -> q = (x / Qc_of_Z n)%Qc.
Proof.
  intros Hn. unfold py_div_int, py_div. simpl.
  rewrite bool_decide_eq_false_2 by (by apply Qc_of_Z_nonzero).
  by intros [= <-].
Qed.

Lemma Qc_py_min_pos (a b : Qc) : (0 < a)%Qc -> (0 < b)%Qc -> (0 < py_min a b)%Qc.
Proof. intros Ha Hb. unfold py_min. by destruct (fltb b a). Qed.

Lemma Qc_sub_pos_le (x q : Qc) : (0 < q)%Qc -> (x - q <= x)%Qc.
Proof.
  intros Hq. apply Qclt_le_weak in Hq.
  apply (Qcplus_le_mono_l _ _ (x - q)%Qc) in Hq.
  replace (x - q + 0)%Qc with (x - q)%Qc in Hq by ring.
  by replace (x - q + q)%Qc with x in Hq by ring.
Qed.

Lemma Qc_sub_pos_ne (x q : Qc) : (0 < q)%Qc -> (x - q)%Qc <> x.
Proof.
  intros Hq E. assert (q = 0%Qc) as ->.
  { replace q with (x - (x - q))%Qc by ring. rewrite E. ring. }
  by apply Qclt_not_eq in Hq.
Qed.

Lemma twap_balanced_created (s : TWAP.strategy Qc) :
  twap_created s -> twap_balanced s.
Proof.
  intros (Hn & Hq & Hsq & Hrem & Hst & Ho & He & Ha).
  apply Qc_fleb_false in Hq. apply Qc_py_div_int in Hsq; [|done].
  unfold twap_balanced. rewrite Hrem, He, Ho, Hsq. split_and!; try done.
  - by apply Qc_slice_pos.
  - apply Qcplus_0_r.
Qed.

Lemma twap_balanced_op (s s' : TWAP.strategy Qc) :
  twap_balanced s -> twap_op s s' -> twap_balanced s'.
Proof.
  intros (Hpos & Hacc & Hnn & Hfill) Hop.
  destruct Hop as [s n c now|s now|s k now].
  - destruct (execute_slice_on_cases s n c now)
      as [[_ ->]|[[_ [msg ->]]|[Hg (price & orderId & _ & _ & ->)]]]; try done.
    apply Qc_fleb_false in Hg.
    pose proof (Qc_py_min_pos _ _ Hpos Hg) as Hq.
    assert (0 < TWAP.total_executed s
                + py_min (TWAP.slice_quantity s) (TWAP.remaining_quantity s))%Qc.
    { by apply Qcplus_nonneg_pos. }
    unfold twap_balanced. simpl. split_and!; try done.
    + rewrite <- Hacc. ring.
    + by apply Qclt_le_weak.
  - done.
  - destruct (at_loop_keeps s k now) as (Hpar & Hr & He & Ho & _).
    injection Hpar as _ _ _ Htot _ _ Hsq _ _.
    unfold twap_balanced. by rewrite Hr, He, Ho, Htot, Hsq.
Qed.

(** What remains never grows. *)
Lemma twap_balanced_remaining_le (s s' : TWAP.strategy Qc) :
  twap_balanced s -> twap_op s s' ->
  (TWAP.remaining_quantity s' <= TWAP.remaining_quantity s)%Qc.
Proof.
  intros (Hpos & _) Hop. destruct Hop as [s n c now|s now|s k now].
  - destruct (execute_slice_on_cases s n c now)
      as [[_ ->]|[[_ [msg ->]]|[Hg (price & orderId & _ & _ & ->)]]];
      try apply Qcle_refl.
    apply Qc_fleb_false in Hg. simpl. apply Qc_sub_pos_le.
    by apply Qc_py_min_pos.
  - apply Qcle_refl.
  - destruct (at_loop_keeps s k now) as (_ & -> & _). apply Qcle_refl.
Qed.

Lemma twap_balanced_reachable (e : TWAP.engine Qc) :
  TWAP.reachable e -> twap_records twap_balanced e.
Proof.
  apply twap_records_reachable.
  - apply twap_balanced_created.
  - apply twap_balanced_op.
Qed.

Lemma twap_exact_created (s : TWAP.strategy Qc) :
  twap_created s -> twap_exact s (TWAP.AtLoop 0).
Proof.
  intros (Hn & Hq & Hsq & Hrem & Hst & Ho & He & Ha).
  apply Qc_fleb_false in Hq. apply Qc_py_div_int in Hsq; [|done].
  unfold twap_exact. rewrite Hrem, He, Ho, Hst. simpl.
  split_and!; try done.
  - apply Qcplus_0_r.
  - intros _. split_and!; try done; try lia.
    by rewrite Z2Qc_inj_0, Qcmult_0_l.
Qed.

(** While RUNNING with [k] slices done, what remains is the other slices. *)
Lemma twap_exact_remaining (s : TWAP.strategy Qc) (k : Z) :
  (0 < TWAP.num_slices s)%Z ->
  TWAP.slice_quantity s = (TWAP.total_quantity s / Qc_of_Z (TWAP.num_slices s))%Qc ->
  (TWAP.remaining_quantity s + TWAP.total_executed s = TWAP.total_quantity s)%Qc ->
  TWAP.total_executed s = (Qc_of_Z k * TWAP.slice_quantity s)%Qc ->
  TWAP.remaining_quantity s
    = (Qc_of_Z (TWAP.num_slices s - k) * TWAP.slice_quantity s)%Qc.
Proof.
  intros Hn Hsq Hacc Hex.
  rewrite Z2Qc_inj_sub.
  rewrite <- (Qc_slices_total (TWAP.total_quantity s) _ Hn) in Hacc.
  rewrite <- Hsq in Hacc. rewrite Hex in Hacc.
  rewrite <- (Qcplus_0_r (TWAP.remaining_quantity s)).
  replace 0%Qc with (Qc_of_Z k * TWAP.slice_quantity s
                     - Qc_of_Z k * TWAP.slice_quantity s)%Qc by ring.
  unfold Qcminus at 1. rewrite Qcplus_assoc, Hacc. ring.
Qed.

Lemma twap_exact_transition (s s' : TWAP.strategy Qc) p p' :
  twap_exact s p -> twap_transition s p s' p' -> twap_exact s' p'.
Proof.
  intros (Hn & Ht & Hsq & Hacc & Hrun & Hdone) Htr.
  destruct Htr as [s k Hk Hst Hsl|s k ex Hk Hst H0 Hsl|s k Hk Hst|s k now Hk Hst
                  |s k Hk Hst|s k c now|s p now].
  - split_and!; try done.
    + intros _. destruct (Hrun Hst) as ((? & ?) & ? & ? & ?).
      split_and!; try done; lia.
    + intros Hc. congruence.
  - split_and!; try done; simpl; intros [=].
  - split_and!; try done. intros Hc. by destruct (Hdone Hc).
  - destruct (Hrun Hst) as ((? & ?) & Hlen & Hex & Hall).
    assert (k = TWAP.num_slices s) as -> by lia.
    split_and!; try done. simpl. intros _. split_and!; try done.
    rewrite Hex, Hsq. by apply Qc_slices_total.
  - split_and!; try done. intros Hc. by destruct (Hdone Hc).
  - assert (TWAP.status s <> "COMPLETED") as Hnc.
    { intros Hc. by destruct (Hdone Hc). }
    assert (TWAP.status s = "RUNNING" ->
            (TWAP.slice_quantity s <= TWAP.remaining_quantity s)%Qc) as Hfull.
    { intros Hst. destruct (Hrun Hst) as ((? & ?) & Hlen & Hex & _).
      rewrite (twap_exact_remaining s k Hn Hsq Hacc Hex).
      apply Qc_scaled_ge; [lia|]. rewrite Hsq. by apply Qc_slice_pos. }
    assert (0 < TWAP.slice_quantity s)%Qc as Hpos.
    { rewrite Hsq. by apply Qc_slice_pos. }
    destruct (execute_slice_on_cases s (k + 1) c now)
      as [[Hg ->]|[[_ [msg ->]]|[Hg (price & orderId & _ & _ & ->)]]].
    + split_and!; try done. intros Hst. exfalso.
      simpl in Hg. apply bool_decide_eq_true in Hg.
      apply Hfull in Hst. eapply Qcle_not_lt; [exact Hg|].
      by eapply Qclt_le_trans.
    + split_and!; try done; simpl; intros [=].
    + split_and!; try done; simpl.
      * rewrite <- Hacc. ring.
      * intros Hst. destruct (Hrun Hst) as ((? & ?) & Hlen & Hex & Hall).
        unfold py_min. rewrite (proj2 (Qc_fltb_false _ _) (Hfull Hst)).
        split_and!; try lia.
        -- rewrite length_app. simpl. lia.
        -- rewrite Hex, Z2Qc_inj_add, Z2Qc_inj_1. ring.
        -- apply Forall_app. split; [done|]. by apply Forall_singleton.
  - split_and!; try done; simpl; intros [=].
Qed.

Lemma twap_exact_reachable (e : TWAP.engine Qc) :
  TWAP.reachable e -> twap_alone twap_exact e.
Proof.
  apply twap_alone_reachable.
  - apply twap_exact_created.
  - intros s p s' p'. apply twap_exact_transition.
Qed.

(** ** The TWAP claims *)



(** C4, as the code has it. With binary64 quantities a completed TWAP of
    0.01 in 4 slices, started once, has recorded the fills 0.0025, 0.0025,
    0.0025 and 0.002499999999999999: nothing remains, and the fills add up to
    0.009999999999999998, in doubles as in exact addition. *)
Lemma twap_float_completed_sum_differs :
  exists (e : TWAP.engine float) s,
    TWAP.reachable e /\
    TWAP.stale e = [] /\
    TWAP.active_strategies e !! twap_id = Some s /\
    TWAP.status s = "COMPLETED" /\
    Z.of_nat (length (TWAP.executed_orders s)) = TWAP.num_slices s /\
    feqb (TWAP.remaining_quantity s) fzero = true /\
    feqb (py_sum (map TWAP.quantity (TWAP.executed_orders s)))
         (TWAP.total_quantity s) = false /\
    exists exact_sum total,
      foldr (fun q acc => v ← float_value q; a ← acc; Some (v + a)%Q) (Some 0%Q)
            (map TWAP.quantity (TWAP.executed_orders s)) = Some exact_sum /\
      float_value (TWAP.total_quantity s) = Some total /\
      Qeq_bool exact_sum total = false.
Proof.
  exists (twap_after (twap_events 0.01%float 50000%float 4 9)). eexists.
  split_and!.
  - exists (twap_events 0.01%float 50000%float 4 9). vm_compute. reflexivity.
  - vm_compute. reflexivity.
  - vm_compute. reflexivity.
  - reflexivity.
  - reflexivity.
  - vm_compute. reflexivity.
  - vm_compute. reflexivity.
  - eexists _, _. split_and!; vm_compute; reflexivity.
Qed.

(** C4, amended. For a strategy whose id was started once and that is
    COMPLETED, in any arithmetic: its thread has left the loop; every fill is
    the smaller of the slice quantity and of what remained before it, what
    remains is the total less the fills taken off one by one, and what was
    executed is the fills added up one by one; there is one fill per slice
    unless nothing remained before the last slices. In exact arithmetic there
    is one fill per slice, each of the slice quantity, nothing remains and the
    fills add up to the total quantity. *)
Theorem twap_completed_sum :
  (forall (F : Type) (A : Arith F) (e : TWAP.engine F) sid s,
     TWAP.reachable e ->
     TWAP.active_strategies e !! sid = Some s ->
     TWAP.started_once e sid ->
     TWAP.status s = "COMPLETED" ->
     TWAP.threads e !! sid = Some TWAP.Finished /\
     fills_follow (TWAP.slice_quantity s) (TWAP.total_quantity s)
                  (map TWAP.quantity (TWAP.executed_orders s)) /\
     TWAP.remaining_quantity s
       = fold_left fsub (map TWAP.quantity (TWAP.executed_orders s))
                   (TWAP.total_quantity s) /\
     TWAP.total_executed s
       = fold_left fadd (map TWAP.quantity (TWAP.executed_orders s)) fzero /\
     (Z.of_nat (length (TWAP.executed_orders s)) <= TWAP.num_slices s)%Z /\
     (Z.of_nat (length (TWAP.executed_orders s)) = TWAP.num_slices s \/
      fleb (TWAP.remaining_quantity s) fzero = true)) /\
  (forall (e : TWAP.engine Qc) sid s,
     TWAP.reachable e ->
     TWAP.active_strategies e !! sid = Some s ->
     TWAP.started_once e sid ->
     TWAP.status s = "COMPLETED" ->
     fold_left Qcplus (map TWAP.quantity (TWAP.executed_orders s)) 0%Qc
       = TWAP.total_quantity s /\
     Z.of_nat (length (TWAP.executed_orders s)) = TWAP.num_slices s /\
     TWAP.remaining_quantity s = 0%Qc /\
     Forall (fun o => TWAP.quantity o = TWAP.slice_quantity s)
            (TWAP.executed_orders s)).
Proof.
  split.
  - intros F A e sid s Hr Hs Ho Hst.
    destruct (twap_alone_reachable
                (fun s p => twap_progress s p /\ twap_course s p)
                (fun s Hc => conj (twap_progress_created s Hc)
                                  (twap_course_created s Hc))
                (fun s p s' p' HI Ht =>
                   conj (twap_progress_transition s s' p p' (proj1 HI) Ht)
                        (twap_course_transition s s' p p' (proj2 HI) Ht))
                e Hr sid s Hs) as (p & Hp & HI).
    destruct (HI Ho) as [Hprog Hcourse].
    pose proof (twap_records_reachable twap_ledger twap_ledger_created
                  twap_ledger_op e Hr sid s Hs) as (Hrem & Hex & Hf).
    destruct p as [k|k|]; simpl in Hcourse.
    + by destruct Hcourse as (_ & Hnc & _).
    + by destruct Hcourse as (_ & Hnc & _).
    + destruct Hcourse as (_ & Hth). simpl in Hprog.
      split_and!; try done. by apply Hth.
  - intros e sid s Hr Hs Ho Hst.
    destruct (twap_exact_reachable e Hr sid s Hs) as (p & _ & Hex).
    destruct (Hex Ho) as (_ & _ & _ & Hacc & _ & Hdone).
    destruct (Hdone Hst) as (_ & Hlen & Htot & Hall).
    pose proof (twap_records_reachable twap_ledger twap_ledger_created
                  twap_ledger_op e Hr sid s Hs) as (_ & Hsum & _).
    split_and!; try done.
    + unfold py_sum in Hsum. simpl in Hsum. by rewrite <- Hsum.
    + rewrite Htot in Hacc.
      rewrite <- (Qcplus_0_r (TWAP.remaining_quantity s)).
      replace 0%Qc with (TWAP.total_quantity s - TWAP.total_quantity s)%Qc by ring.
      unfold Qcminus. rewrite Qcplus_assoc, Hacc. ring.
Qed.


(** ** Stopping a strategy *)

(** C1, as the code has it. Stopping a strategy that is COMPLETED is not a
    no-op: its status becomes STOPPED and its end time is stamped again. *)
Lemma twap_stop_overwrites_completed :
  exists (e : TWAP.engine float) s self r s',
    TWAP.reachable e /\
    TWAP.active_strategies e !! twap_id = Some s /\
    TWAP.status s = "COMPLETED" /\
    TWAP.end_time s = Some 1700000060%Z /\
    TWAP.stop_twap_strategy (TWAP.active_strategies e) twap_id 1700000999
      = Ok (self, r) /\
    self !! twap_id = Some s' /\
    TWAP.status s' = "STOPPED" /\
    TWAP.end_time s' = Some 1700000999%Z /\
    TWAP.stopped_status r = "STOPPED".
Proof.
  assert (exists s,
            TWAP.active_strategies
              (twap_after (twap_events 0.01%float 50000%float 2 5)) !! twap_id
            = Some s /\
            TWAP.status s = "COMPLETED" /\
            TWAP.end_time s = Some 1700000060%Z) as (s & Hs & Hst & Hend).
  { eexists. split; [vm_compute; reflexivity|]. split; reflexivity. }
  exists (twap_after (twap_events 0.01%float 50000%float 2 5)), s.
  eexists _, _, _. split.
  { exists (twap_events 0.01%float 50000%float 2 5). vm_compute. reflexivity. }
  do 3 (split; [done|]).
  unfold TWAP.stop_twap_strategy. rewrite Hs.
  split; [reflexivity|]. rewrite lookup_insert_eq.
  split; [reflexivity|]. split_and!; reflexivity.
Qed.

(** ** The update of a record is not atomic *)

(** C9, as the code has it. The thread of a TWAP of 0.01 in 4 slices fills
    its first slice; [get_strategy_status] called after the fill was appended
    and before the quantities were updated reports one executed slice with
    nothing executed, which is the record neither before nor after the
    update. *)
Lemma twap_update_observed_half_done :
  exists (e : TWAP.engine float) s o,
    TWAP.reachable e /\
    TWAP.active_strategies e !! twap_id = Some s /\
    TWAP.threads e !! twap_id = Some (TWAP.Sleeping 0) /\
    TWAP.execute_slice_on s 1 (filling 50000%float 1) 1700000060
      = TWAP.record_order o s /\
    let seen := TWAP.snapshot_of twap_id (TWAP.update_prefix 1 o s) in
    TWAP.snap_executed_slices seen = 1%nat /\
    TWAP.snap_total_executed seen = 0%float /\
    TWAP.snap_remaining_quantity seen = 0.01%float /\
    seen <> TWAP.snapshot_of twap_id s /\
    seen <> TWAP.snapshot_of twap_id (TWAP.record_order o s).
Proof.
  exists (twap_after (twap_events 0.01%float 50000%float 4 1)). eexists.
  exists {| TWAP.slice_num := 1; TWAP.order_id := 1;
            TWAP.quantity := 0.0025%float; TWAP.price := 50000%float;
            TWAP.timestamp := 1700000060 |}.
  do 4 (split; [first [by exists (twap_events 0.01%float 50000%float 4 1);
                          vm_compute | vm_compute; reflexivity]|]).
  cbv zeta. split_and!.
  - reflexivity.
  - reflexivity.
  - reflexivity.
  - intros E. apply (f_equal TWAP.snap_executed_slices) in E. discriminate E.
  - intros E. apply (f_equal TWAP.snap_remaining_quantity) in E.
    vm_compute in E. discriminate E.
Qed.

(** C9, amended. There is no guarded update: a fill is recorded by four
    assignments in a row (append the fill, take it from what remains, add it
    to what was executed, recompute the average), and the record can be read
    between any two of them. After the first only the fills have changed,
    after the second the remaining quantity too, after the third the executed
    quantity too; in exact arithmetic the record read after the second breaks
    the accounting identity, which holds again after the fourth. *)
Theorem twap_update_statement_by_statement :
  (forall (F : Type) (A : Arith F) (s : TWAP.strategy F) slice_num c now
          price orderId,
     fleb (TWAP.remaining_quantity s) fzero = false ->
     futures_symbol_ticker c = Ticker price ->
     futures_create_order c = OrderPlaced orderId ->
     let o := {| TWAP.slice_num := slice_num; TWAP.order_id := orderId;
                 TWAP.quantity := py_min (TWAP.slice_quantity s)
                                         (TWAP.remaining_quantity s);
                 TWAP.price := price; TWAP.timestamp := now |} in
     TWAP.execute_slice_on s slice_num c now = TWAP.update_prefix 4 o s /\
     (TWAP.executed_orders (TWAP.update_prefix 1 o s)
        = TWAP.executed_orders s ++ [o] /\
      TWAP.remaining_quantity (TWAP.update_prefix 1 o s)
        = TWAP.remaining_quantity s /\
      TWAP.total_executed (TWAP.update_prefix 1 o s) = TWAP.total_executed s /\
      TWAP.average_price (TWAP.update_prefix 1 o s) = TWAP.average_price s) /\
     (TWAP.remaining_quantity (TWAP.update_prefix 2 o s)
        = fsub (TWAP.remaining_quantity s) (TWAP.quantity o) /\
      TWAP.total_executed (TWAP.update_prefix 2 o s) = TWAP.total_executed s /\
      TWAP.average_price (TWAP.update_prefix 2 o s) = TWAP.average_price s) /\
     (TWAP.total_executed (TWAP.update_prefix 3 o s)
        = fadd (TWAP.total_executed s) (TWAP.quantity o) /\
      TWAP.average_price (TWAP.update_prefix 3 o s) = TWAP.average_price s)) /\
  (forall (e : TWAP.engine Qc) sid s slice_num now price orderId,
     TWAP.reachable e ->
     TWAP.active_strategies e !! sid = Some s ->
     fleb (TWAP.remaining_quantity s) fzero = false ->
     let o := {| TWAP.slice_num := slice_num; TWAP.order_id := orderId;
                 TWAP.quantity := py_min (TWAP.slice_quantity s)
                                         (TWAP.remaining_quantity s);
                 TWAP.price := price; TWAP.timestamp := now |} in
     (TWAP.remaining_quantity (TWAP.update_prefix 2 o s)
      + TWAP.total_executed (TWAP.update_prefix 2 o s))%Qc
       <> TWAP.total_quantity s /\
     (TWAP.remaining_quantity (TWAP.update_prefix 4 o s)
      + TWAP.total_executed (TWAP.update_prefix 4 o s))%Qc
       = TWAP.total_quantity s).
Proof.
  split.
  - intros F A s slice_num c now price orderId Hguard Hticker Horder o.
    split_and!; try reflexivity.
    unfold TWAP.execute_slice_on. by rewrite Hguard, Hticker, Horder.
  - intros e sid s slice_num now price orderId Hr Hs Hguard o.
    destruct (twap_balanced_reachable e Hr sid s Hs) as (Hpos & Hacc & _).
    apply Qc_fleb_false in Hguard.
    pose proof (Qc_py_min_pos _ _ Hpos Hguard) as Hq.
    simpl. split.
    + rewrite <- Hacc.
      replace (TWAP.remaining_quantity s
               - py_min (TWAP.slice_quantity s) (TWAP.remaining_quantity s)
               + TWAP.total_executed s)%Qc
        with (TWAP.remaining_quantity s + TWAP.total_executed s
              - py_min (TWAP.slice_quantity s) (TWAP.remaining_quantity s))%Qc
        by ring.
      by apply Qc_sub_pos_ne.
    + rewrite <- Hacc. ring.
Qed.

(** ** The grid engine: what a step does *)

Section Relating.
Context {A : Type} (R : A -> A -> Prop).
Hypothesis R_refl : forall x, R x x.

Lemma Forall2_insert_r (l : list A) i x y :
  l !! i = Some x -> R x y -> Forall2 R l (<[i := y]> l).
Proof.
  intros Hi Hxy. apply Forall2_lookup. intros i'.
  destruct (decide (i' = i)) as [->|Hne].
  - rewrite list_lookup_insert_eq by (by eapply lookup_lt_Some).
    rewrite Hi. by constructor.
  - rewrite list_lookup_insert_ne by done.
    destruct (l !! i'); by constructor.
Qed.

Lemma Forall2_refl_same (l : list A) : Forall2 R l l.
Proof. induction l; by constructor. Qed.

Lemma lookup_insert_related (m : gmap string A) k x y :
  m !! k = Some x -> R x y ->
  forall k', option_Forall2 R (m !! k') (<[k := y]> m !! k').
Proof.
  intros Hk Hxy k'. destruct (decide (k = k')) as [<-|Hne].
  - rewrite lookup_insert_eq, Hk. by constructor.
  - rewrite lookup_insert_ne by done. destruct (m !! k'); by constructor.
Qed.

Lemma lookup_related_refl (m : gmap string A) k :
  option_Forall2 R (m !! k) (m !! k).
Proof. destruct (m !! k); by constructor. Qed.
End Relating.

Section GridSteps.
Context {F : Type} `{Arith F}.

Lemma create_grid_strategy_created (self self' : gmap string (Grid.grid F))
    symbol grid_type upper_price lower_price grid_count order_quantity
    position_side now r :
  Grid.create_grid_strategy self symbol grid_type upper_price lower_price
    grid_count order_quantity position_side now = Ok (self', r) ->
  exists g, self' = <[Grid.created_grid_id r := g]> self /\ grid_created g /\
            Grid.grid_count g = grid_count /\
            Grid.upper_price g = upper_price /\
            Grid.lower_price g = lower_price /\
            Grid.order_quantity g = order_quantity /\
            Grid.grid_type g = grid_type /\
            Grid.created_grid_id r = Grid.grid_id_of symbol grid_type now /\
            Grid.id g = Grid.created_grid_id r.
Proof.
  unfold Grid.create_grid_strategy, check, mbind, result_bind.
  destruct (String.eqb grid_type "BUY" || String.eqb grid_type "SELL"
            || String.eqb grid_type "BOTH"); [|discriminate].
  destruct (fleb upper_price lower_price) eqn:Hul; [discriminate|]. simpl.
  destruct (grid_count <=? 0)%Z eqn:Hn; [discriminate|]. simpl.
  destruct (fleb order_quantity fzero); [discriminate|]. simpl.
  destruct (py_div_int _ _) as [ps|] eqn:Hps; [|discriminate].
  intros [= <- <-]. eexists. split; [reflexivity|].
  unfold grid_created; simpl. apply Z.leb_gt in Hn. auto 15.
Qed.

Lemma level_op_weaken u (l l' : Grid.grid_level F) :
  level_op true l l' -> level_op u l l'.
Proof. destruct 1; constructor; auto. Qed.

Lemma grid_op_weaken u (g g' : Grid.grid F) :
  grid_op true g g' -> grid_op u g g'.
Proof.
  destruct 1; try constructor.
  eapply Forall2_impl; [done|]. intros l l' [->|Hop]; [by left|right].
  by apply level_op_weaken.
Qed.

Lemma grid_ops_weaken u (g g' : Grid.grid F) :
  grid_ops true g g' -> grid_ops u g g'.
Proof.
  induction 1 as [|g1 g2 g3 Hop _ IH]; [constructor|].
  eapply rtc_l; [|exact IH]. by apply grid_op_weaken.
Qed.

Lemma grid_ops_undivided u (g g' : Grid.grid F) :
  grid_ops true g g' -> grid_ops (u && true) g g'.
Proof. apply grid_ops_weaken. Qed.

Lemma levels_insert u (ls : list (Grid.grid_level F)) i l l' :
  ls !! i = Some l -> level_op u l l' ->
  Forall2 (fun l l' => l' = l \/ level_op u l l') ls (<[i := l']> ls).
Proof.
  intros Hi Hop. eapply Forall2_insert_r; [by left|done|by right].
Qed.

Lemma grid_op_level u (g : Grid.grid F) i l l' :
  Grid.grid_levels g !! i = Some l -> level_op u l l' ->
  grid_op u g (Grid.set_grid_levels (<[i := l']> (Grid.grid_levels g)) g).
Proof. intros Hi Hop. constructor. by eapply levels_insert. Qed.

Lemma check_level_ops (g : Grid.grid F) i l price reply now :
  Grid.grid_levels g !! i = Some l ->
  grid_ops true g (Grid.check_level g i l price reply now).1.
Proof.
  intros Hl. unfold Grid.check_level.
  destruct (String.eqb_spec (Grid.level_status l) "PENDING") as [Hp|Hp];
    [|constructor].
  destruct (Grid._should_trigger_order _ _ _); [|constructor]. simpl.
  unfold Grid.execute_grid_order_on. destruct reply as [orderId|msg]; simpl.
  - eapply rtc_l; [eapply grid_op_level; [done|by constructor]|].
    apply rtc_once. constructor.
  - apply rtc_once. eapply grid_op_level; [done|by constructor].
Qed.

Lemma cancel_levels_ops symbol cancel_ok (ls : list (Grid.grid_level F)) :
  Forall2 (fun l l' => l' = l \/ level_op true l l') ls
          (Grid.cancel_levels symbol cancel_ok ls).1.
Proof.
  induction ls as [|l ls IH]; simpl; [constructor|].
  destruct (Grid.cancel_level symbol cancel_ok l) as [l' c1] eqn:Hc.
  destruct (Grid.cancel_levels symbol cancel_ok ls) as [ls' c2]. simpl in *.
  constructor; [|done]. unfold Grid.cancel_level in Hc.
  destruct (String.eqb_spec (Grid.level_status l) "PENDING") as [Hp|Hp];
    simpl in Hc; [|injection Hc as <- _; by left].
  destruct (truthy (Grid.level_order_id l)); [|injection Hc as <- _; by left].
  destruct (Grid.level_order_id l) as [orderId|]; [|injection Hc as <- _; by left].
  destruct (cancel_ok orderId); injection Hc as <- _; [right|by left].
  by constructor.
Qed.

Lemma stop_grid_strategy_ops (self self' : gmap string (Grid.grid F))
    gid cancel_ok now r cs :
  Grid.stop_grid_strategy self gid cancel_ok now = Ok (self', r, cs) ->
  exists g g', self !! gid = Some g /\ self' = <[gid := g']> self /\
               grid_ops true g g'.
Proof.
  unfold Grid.stop_grid_strategy.
  destruct (self !! gid) as [g|] eqn:Hg; [|discriminate].
  pose proof (cancel_levels_ops
                (Grid.symbol (Grid.set_stopped_time now (Grid.set_status "STOPPED" g)))
                cancel_ok
                (Grid.grid_levels
                   (Grid.set_stopped_time now (Grid.set_status "STOPPED" g))))
    as Hops.
  destruct (Grid.cancel_levels _ _ _) as [ls calls]. intros [= <- _ _].
  exists g. eexists. split; [done|]. split; [done|].
  eapply rtc_l; [apply grid_op_status|].
  eapply rtc_l; [apply (grid_op_time _ _ now)|].
  apply rtc_once. by constructor.
Qed.

Lemma monitor_related_refl u (t : Grid.stale_monitor F) : monitor_related u t t.
Proof. split; [done|constructor]. Qed.

Lemma stale_alter_related u (ts : list (Grid.stale_monitor F)) j t g' :
  ts !! j = Some t -> grid_ops u (Grid.stale_record t) g' ->
  Forall2 (monitor_related u) ts (alter (Grid.set_stale_record g') j ts).
Proof.
  intros Hj Hops. apply Forall2_lookup. intros i.
  destruct (decide (i = j)) as [->|Hne].
  - rewrite list_lookup_alter_eq, Hj. simpl. constructor. by split.
  - rewrite list_lookup_alter_ne by done.
    destruct (ts !! i); constructor. apply monitor_related_refl.
Qed.

(** What a step does to the records: a create files a new one and hands
    the one it replaces to its monitor; any other step runs statements on
    the records where they are. *)
Lemma grid_step_effect (e e' : Grid.engine F) ev :
  Grid.step e ev = Some e' ->
  (exists gid g0,
     grid_created g0 /\
     Grid.active_grids e' = <[gid := g0]> (Grid.active_grids e) /\
     Grid.stale e' = Grid.stale e ++ Grid.replaced_monitor e gid) \/
  ((forall gid, option_Forall2 (grid_ops (Grid.undivided ev))
                  (Grid.active_grids e !! gid) (Grid.active_grids e' !! gid)) /\
   Forall2 (monitor_related (Grid.undivided ev)) (Grid.stale e) (Grid.stale e')).
Proof.
  assert (forall u (e : Grid.engine F),
            (forall gid, option_Forall2 (grid_ops u)
                           (Grid.active_grids e !! gid) (Grid.active_grids e !! gid)) /\
            Forall2 (monitor_related u) (Grid.stale e) (Grid.stale e)) as Hsame.
  { intros u e0. split.
    - intros gid. apply lookup_related_refl. intros g. constructor.
    - apply Forall2_refl_same, monitor_related_refl. }
  destruct ev as [sym gt up lo n q ps now|gid c now|gid ok now|j c now|gid|k ok now];
    simpl.
  - destruct (Grid.create_grid_strategy _ _ _ _ _ _ _ _ _) as [[self r]|] eqn:Hc;
      intros [= <-]; [|right; simpl; apply Hsame].
    destruct (create_grid_strategy_created _ _ _ _ _ _ _ _ _ _ _ Hc)
      as (g & -> & Hg & _).
    left. by exists (Grid.created_grid_id r), g.
  - unfold Grid.thread_step.
    destruct (Grid.threads e !! gid) as [[|price i|]|]; try done;
      destruct (Grid.active_grids e !! gid) as [g|] eqn:Hg; try done.
    + destruct (String.eqb (Grid.status g) "ACTIVE"); intros [= <-];
        right; simpl; apply Hsame.
    + destruct (Grid.grid_levels g !! i) as [l|] eqn:Hl.
      * pose proof (check_level_ops g i l price (futures_create_order c) now Hl)
          as Hops.
        destruct (Grid.check_level _ _ _ _ _ _) as [g' cs]. intros [= <-].
        right. simpl. split; [|apply Hsame].
        eapply lookup_insert_related; [intros g0; constructor|done|done].
      * intros [= <-]. right. simpl. apply Hsame.
  - destruct (Grid.stop_grid_strategy _ _ _ _) as [[[self r] cs]|] eqn:Hs;
      intros [= <-]; [|right; simpl; apply Hsame].
    destruct (stop_grid_strategy_ops _ _ _ _ _ _ _ Hs) as (g & g' & Hg & -> & Hops).
    right. simpl. split; [|apply Hsame].
    eapply lookup_insert_related; [intros g0; constructor|done|done].
  - unfold Grid.stale_step.
    destruct (Grid.stale e !! j) as [t|] eqn:Ht; [|done].
    assert (forall p g',
              grid_ops true (Grid.stale_record t) g' ->
              Forall2 (monitor_related true) (Grid.stale e)
                (<[j := {| Grid.stale_id := Grid.stale_id t;
                           Grid.stale_record := g';
                           Grid.stale_pc := p |}]> (Grid.stale e))) as Hins.
    { intros p g' Hops. eapply Forall2_insert_r;
        [apply monitor_related_refl|done|by split]. }
    destruct (Grid.stale_pc t) as [|price i|]; [| |done].
    + destruct (String.eqb (Grid.status (Grid.stale_record t)) "ACTIVE");
        intros [= <-]; right; simpl;
        (split; [apply Hsame|apply Hins; constructor]).
    + destruct (Grid.grid_levels (Grid.stale_record t) !! i) as [l|] eqn:Hl;
        [|intros [= <-]; right; simpl;
          (split; [apply Hsame|apply Hins; constructor])].
      destruct (String.eqb_spec (Grid.level_status l) "PENDING") as [Hp|Hp];
        simpl;
        [|intros [= <-]; right; simpl;
          (split; [apply Hsame|apply Hins; constructor])].
      destruct (Grid._should_trigger_order _ _ _);
        [|intros [= <-]; right; simpl;
          (split; [apply Hsame|apply Hins; constructor])].
      destruct (Grid.active_grids e !! Grid.stale_id t) as [current|] eqn:Hcur.
      * unfold Grid.execute_grid_order_for.
        destruct (futures_create_order c) as [orderId|msg]; intros [= <-];
          right; simpl.
        -- split.
           ++ eapply lookup_insert_related; [intros g0; constructor|done|].
              apply rtc_once. constructor.
           ++ apply Hins. apply rtc_once.
              eapply grid_op_level; [done|by constructor].
        -- split.
           ++ intros gid. rewrite insert_id by done. apply Hsame.
           ++ apply Hins. apply rtc_once.
              eapply grid_op_level; [done|by constructor].
      * intros [= <-]. right. simpl. split; [apply Hsame|].
        apply Hins. apply rtc_once. eapply grid_op_level; [done|by constructor].
  - destruct (Grid.active_grids e !! gid); intros [= <-]; right; simpl; apply Hsame.
  - unfold Grid.stop_step.
    destruct (Grid.stoppers e !! k) as [st|] eqn:Hst; [|done].
    destruct (Grid.grid_of e (Grid.stop_id st) (Grid.stop_grid st)) as [g|] eqn:Hg;
      [|done].
    assert (forall g' next cs,
              grid_ops false g g' ->
              (forall gid, option_Forall2 (grid_ops false)
                 (Grid.active_grids e !! gid)
                 (Grid.active_grids
                    (Grid.put_grid e (Grid.stop_id st) (Grid.stop_grid st) g'
                                   k next cs) !! gid)) /\
              Forall2 (monitor_related false) (Grid.stale e)
                (Grid.stale (Grid.put_grid e (Grid.stop_id st) (Grid.stop_grid st)
                                           g' k next cs))) as Hput.
    { intros g' next cs Hops. unfold Grid.put_grid, Grid.grid_of in *.
      destruct (Grid.stop_grid st) as [|j]; simpl.
      - split; [|apply Hsame].
        eapply lookup_insert_related; [intros g0; constructor|done|done].
      - destruct (Grid.stale e !! j) as [t|] eqn:Ht; [|done].
        simpl in Hg. injection Hg as <-.
        split; [apply Hsame|]. by eapply stale_alter_related. }
    destruct (Grid.stop_at st) as [| |i|i|i|i|]; [| | | | | |done].
    + intros [= <-]. right. apply Hput. apply rtc_once. constructor.
    + intros [= <-]. right. apply Hput. apply rtc_once. constructor.
    + destruct (Grid.grid_levels g !! i); intros [= <-]; right; apply Hput;
        constructor.
    + destruct (Grid.grid_levels g !! i); intros [= <-]; right; apply Hput;
        constructor.
    + destruct (Grid.grid_levels g !! i) as [l|]; [|intros [= <-]; right; apply Hput;
        constructor].
      destruct (Grid.level_order_id l); intros [= <-]; right; apply Hput;
        constructor.
    + destruct (Grid.grid_levels g !! i) as [l|] eqn:Hl; intros [= <-]; right;
        apply Hput; [|constructor].
      apply rtc_once. eapply grid_op_level; [done|]. by constructor.
Qed.

Lemma created_once_step (e e' : Grid.engine F) ev gid :
  Grid.step e ev = Some e' ->
  Grid.created_once e' gid -> Grid.created_once e gid.
Proof.
  intros Hstep. unfold Grid.created_once.
  destruct (grid_step_effect e e' ev Hstep)
    as [(gid0 & g0 & _ & _ & ->)|[_ Hst]].
  - rewrite Forall_app. tauto.
  - intros Hall. apply Forall_lookup. intros j t Ht.
    destruct (Forall2_lookup_l _ _ _ _ _ Hst Ht) as (t' & Ht' & Hid & _).
    rewrite <- Hid. by eapply (proj1 (Forall_lookup _ _) Hall).
Qed.

Lemma created_once_run (evs : list (Grid.event F)) (e e' : Grid.engine F) gid :
  Grid.run e evs = Some e' ->
  Grid.created_once e' gid -> Grid.created_once e gid.
Proof.
  revert e. induction evs as [|ev evs IH]; simpl; intros e Hrun Ho.
  - by injection Hrun as <-.
  - destruct (Grid.step e ev) as [e1|] eqn:Hstep; [|discriminate].
    eapply created_once_step; [done|]. by eapply IH.
Qed.

(** Following a record along a step. *)
Lemma grid_step_tracks (e e' : Grid.engine F) ev pl g :
  Grid.step e ev = Some e' ->
  Grid.grid_at e pl = Some g ->
  exists pl' g',
    Grid.grid_at e' pl' = Some g' /\
    grid_ops (Grid.undivided ev) g g' /\
    (forall gid, pl = Grid.Registered gid -> Grid.created_once e' gid ->
                 pl' = Grid.Registered gid).
Proof.
  intros Hstep Hg.
  destruct (grid_step_effect e e' ev Hstep)
    as [(gid0 & g0 & _ & Hact & Hst)|[Hact Hst]].
  - destruct pl as [gid|j]; simpl in Hg.
    + destruct (decide (gid0 = gid)) as [->|Hne].
      * exists (Grid.Replaced (length (Grid.stale e))), g. simpl.
        rewrite Hst. unfold Grid.replaced_monitor. rewrite Hg.
        rewrite lookup_app_r, Nat.sub_diag by lia. simpl.
        split; [done|]. split; [constructor|].
        intros gid' [= <-] Ho. exfalso. unfold Grid.created_once in Ho.
        rewrite Hst in Ho. unfold Grid.replaced_monitor in Ho.
        rewrite Hg, Forall_app, Forall_singleton in Ho. by destruct Ho as [_ Ho].
      * exists (Grid.Registered gid), g. simpl.
        rewrite Hact, lookup_insert_ne by done. split; [done|].
        split; [constructor|done].
    + exists (Grid.Replaced j), g. simpl. rewrite Hst.
      destruct (Grid.stale e !! j) as [t|] eqn:Ht; [|done].
      rewrite lookup_app_l by (by eapply lookup_lt_Some). rewrite Ht.
      split; [done|]. split; [constructor|done].
  - destruct pl as [gid|j]; simpl in Hg.
    + specialize (Hact gid). rewrite Hg in Hact.
      inversion Hact as [g1 g' Hops Heq1 Heq2|]; subst.
      exists (Grid.Registered gid), g'. simpl. rewrite <- Heq2. auto.
    + destruct (Grid.stale e !! j) as [t|] eqn:Ht; [|done].
      simpl in Hg. injection Hg as <-.
      destruct (Forall2_lookup_l _ _ _ _ _ Hst Ht) as (t' & Ht' & Hid & Hops).
      exists (Grid.Replaced j), (Grid.stale_record t'). simpl. rewrite Ht'.
      auto.
Qed.

(** Where the records come from. *)
Lemma grid_step_origin (e e' : Grid.engine F) ev pl' g' :
  Grid.step e ev = Some e' ->
  Grid.grid_at e' pl' = Some g' ->
  grid_created g' \/
  exists pl g, Grid.grid_at e pl = Some g /\ grid_ops (Grid.undivided ev) g g'.
Proof.
  intros Hstep Hg'.
  destruct (grid_step_effect e e' ev Hstep)
    as [(gid0 & g0 & Hc & Hact & Hst)|[Hact Hst]].
  - destruct pl' as [gid|j]; simpl in Hg'.
    + rewrite Hact in Hg'. destruct (decide (gid0 = gid)) as [->|Hne].
      * rewrite lookup_insert_eq in Hg'. injection Hg' as <-. by left.
      * rewrite lookup_insert_ne in Hg' by done. right.
        exists (Grid.Registered gid), g'. split; [done|constructor].
    + rewrite Hst in Hg'. right.
      destruct (decide (j < length (Grid.stale e))%nat) as [Hlt|Hge].
      * rewrite lookup_app_l in Hg' by done.
        exists (Grid.Replaced j), g'. split; [done|constructor].
      * rewrite lookup_app_r in Hg' by lia. unfold Grid.replaced_monitor in Hg'.
        destruct (Grid.active_grids e !! gid0) as [g|] eqn:Hg.
        -- destruct (j - length (Grid.stale e))%nat; simpl in Hg'; [|done].
           injection Hg' as <-.
           exists (Grid.Registered gid0), g. split; [done|constructor].
        -- by rewrite lookup_nil in Hg'.
  - right. destruct pl' as [gid|j]; simpl in Hg'.
    + specialize (Hact gid). rewrite Hg' in Hact.
      inversion Hact as [g g1 Hops Heq1 Heq2|]; subst.
      exists (Grid.Registered gid), g. simpl. auto.
    + destruct (Grid.stale e' !! j) as [t'|] eqn:Ht'; [|done].
      simpl in Hg'. injection Hg' as <-.
      destruct (Forall2_lookup_r _ _ _ _ _ Hst Ht') as (t & Ht & Hid & Hops).
      exists (Grid.Replaced j), (Grid.stale_record t). simpl. rewrite Ht. auto.
Qed.
End GridSteps.

(** Invariants of the records of a grid engine, wherever they are kept. *)
Section GridEverywhere.
Context {F : Type} `{Arith F}.
Variable J : Grid.grid F -> Prop.
Hypothesis J_created : forall g, grid_created g -> J g.
Hypothesis J_op : forall g g', J g -> grid_op false g g' -> J g'.

Lemma grid_ops_invariant u (g g' : Grid.grid F) :
  J g -> grid_ops u g g' -> J g'.
Proof.
  intros HJ Hops. induction Hops as [|g1 g2 g3 Hop _ IH]; [done|].
  apply IH. eapply J_op; [done|]. destruct u; [by apply grid_op_weaken|done].
Qed.

Lemma grid_everywhere_step (e e' : Grid.engine F) ev :
  grid_everywhere J e -> Grid.step e ev = Some e' -> grid_everywhere J e'.
Proof.
  intros Hall Hstep pl' g' Hg'.
  destruct (grid_step_origin e e' ev pl' g' Hstep Hg')
    as [Hc|(pl & g & Hg & Hops)]; [by apply J_created|].
  eapply grid_ops_invariant; [|done]. by eapply Hall.
Qed.

Lemma grid_everywhere_run (evs : list (Grid.event F)) (e e' : Grid.engine F) :
  grid_everywhere J e -> Grid.run e evs = Some e' -> grid_everywhere J e'.
Proof.
  revert e. induction evs as [|ev evs IH]; simpl; intros e Hall Hrun.
  - by injection Hrun as <-.
  - destruct (Grid.step e ev) as [e1|] eqn:Hstep; [|discriminate].
    eapply IH; [|done]. by eapply grid_everywhere_step.
Qed.

Lemma grid_everywhere_reachable (e : Grid.engine F) :
  Grid.reachable e -> grid_everywhere J e.
Proof.
  intros [evs Hrun]. eapply grid_everywhere_run; [|done].
  intros [gid|j] g Hg; simpl in Hg; [by rewrite lookup_empty in Hg|done].
Qed.
End GridEverywhere.

(** Following a record along a run. *)
Section GridTracks.
Context {F : Type} `{Arith F}.
Variable u : bool.
Variable R : Grid.grid F -> Grid.grid F -> Prop.
Hypothesis R_refl : forall g, R g g.
Hypothesis R_trans : forall g1 g2 g3, R g1 g2 -> R g2 g3 -> R g1 g3.
Hypothesis R_op : forall g g', grid_op u g g' -> R g g'.

Lemma grid_ops_related (g g' : Grid.grid F) : grid_ops u g g' -> R g g'.
Proof.
  induction 1 as [|g1 g2 g3 Hop _ IH]; [done|].
  eapply R_trans; [|exact IH]. by apply R_op.
Qed.

Lemma grid_run_tracks (evs : list (Grid.event F)) (e e' : Grid.engine F) pl g :
  (u = true -> Forall (fun ev => Grid.undivided ev = true) evs) ->
  Grid.run e evs = Some e' ->
  Grid.grid_at e pl = Some g ->
  exists pl' g',
    Grid.grid_at e' pl' = Some g' /\ R g g' /\
    (forall gid, pl = Grid.Registered gid -> Grid.created_once e' gid ->
                 pl' = Grid.Registered gid).
Proof.
  revert e pl g. induction evs as [|ev evs IH]; simpl; intros e pl g Hu Hrun Hg.
  - injection Hrun as <-. exists pl, g. auto.
  - destruct (Grid.step e ev) as [e1|] eqn:Hstep; [|discriminate].
    destruct (grid_step_tracks e e1 ev pl g Hstep Hg)
      as (pl1 & g1 & Hg1 & Hops & Hpl1).
    destruct (IH e1 pl1 g1) as (pl' & g' & Hg' & Hrel' & Hpl'); [|done|done|].
    { intros Hut. specialize (Hu Hut). by inversion Hu. }
    exists pl', g'. split; [done|]. split.
    + eapply R_trans; [|exact Hrel']. apply grid_ops_related.
      destruct u eqn:Eu.
      * specialize (Hu eq_refl). inversion Hu as [|? ? Hev _]; subst.
        by rewrite Hev in Hops.
      * destruct (Grid.undivided ev); [by apply grid_ops_weaken|done].
    + intros gid -> Ho. apply Hpl'; [|done].
      apply Hpl1; [done|]. by eapply created_once_run.
Qed.
End GridTracks.

(** ** The grid engine: the levels of a record *)

Section GridLevels.
Context {F : Type} `{Arith F}.

Lemma level_evolves_refl (l : Grid.grid_level F) : level_evolves l l.
Proof. unfold level_evolves. auto 10. Qed.

Lemma level_evolves_trans (l1 l2 l3 : Grid.grid_level F) :
  level_evolves l1 l2 -> level_evolves l2 l3 -> level_evolves l1 l3.
Proof.
  intros (? & ? & ? & ? & ?) (? & ? & ? & ? & ?).
  unfold level_evolves. split_and!; try congruence; auto.
Qed.

Lemma level_settles_refl (l : Grid.grid_level F) : level_settles l l.
Proof. split; [apply level_evolves_refl|done]. Qed.

Lemma level_settles_trans (l1 l2 l3 : Grid.grid_level F) :
  level_settles l1 l2 -> level_settles l2 l3 -> level_settles l1 l3.
Proof.
  intros [H12 F12] [H23 F23]. split; [by eapply level_evolves_trans|].
  intros Hp. specialize (F12 Hp). subst l2. by apply F23.
Qed.

Lemma level_op_evolves u (l l' : Grid.grid_level F) :
  level_op u l l' -> level_evolves l l'.
Proof.
  destruct 1; unfold level_evolves; simpl; split_and!; try done;
    intros _; set_solver.
Qed.

Lemma level_op_settles (l l' : Grid.grid_level F) :
  level_op true l l' -> level_settles l l'.
Proof.
  intros Hop. split; [by eapply level_op_evolves|].
  destruct Hop as [l ? ? Hp|l ? Hp|l Hp]; try done. intros Hn. by specialize (Hp eq_refl).
Qed.

Lemma grid_op_parameters u (g g' : Grid.grid F) :
  grid_op u g g' -> grid_parameters g' = grid_parameters g.
Proof. by destruct 1. Qed.

Lemma grid_op_levels_evolve u (g g' : Grid.grid F) :
  grid_op u g g' ->
  Forall2 level_evolves (Grid.grid_levels g) (Grid.grid_levels g').
Proof.
  destruct 1 as [g|g now|g ls Hls|g]; simpl;
    try (apply Forall2_refl_same, level_evolves_refl).
  eapply Forall2_impl; [exact Hls|]. intros l l' [->|Hop].
  - apply level_evolves_refl.
  - by eapply level_op_evolves.
Qed.

Lemma grid_op_levels_settle (g g' : Grid.grid F) :
  grid_op true g g' ->
  Forall2 level_settles (Grid.grid_levels g) (Grid.grid_levels g').
Proof.
  destruct 1 as [g|g now|g ls Hls|g]; simpl;
    try (apply Forall2_refl_same, level_settles_refl).
  eapply Forall2_impl; [exact Hls|]. intros l l' [->|Hop].
  - apply level_settles_refl.
  - by apply level_op_settles.
Qed.

Lemma Forall2_trans_same {A : Type} (R : A -> A -> Prop) (l1 l2 l3 : list A) :
  (forall x y z, R x y -> R y z -> R x z) ->
  Forall2 R l1 l2 -> Forall2 R l2 l3 -> Forall2 R l1 l3.
Proof.
  intros Htr H12. revert l3. induction H12 as [|x y l1 l2 Hxy _ IH];
    intros l3 H23; inversion H23; subst; constructor; eauto.
Qed.

Lemma grid_levels_evolve_run (evs : list (Grid.event F)) (e e' : Grid.engine F)
    pl g :
  Grid.run e evs = Some e' ->
  Grid.grid_at e pl = Some g ->
  exists pl' g',
    Grid.grid_at e' pl' = Some g' /\
    Forall2 level_evolves (Grid.grid_levels g) (Grid.grid_levels g') /\
    (forall gid, pl = Grid.Registered gid -> Grid.created_once e' gid ->
                 pl' = Grid.Registered gid).
Proof.
  intros Hrun Hg.
  eapply (grid_run_tracks false
            (fun g g' => Forall2 level_evolves (Grid.grid_levels g)
                                               (Grid.grid_levels g')));
    [| | |intros [=]|exact Hrun|exact Hg].
  - intros g0. apply Forall2_refl_same, level_evolves_refl.
  - intros g1 g2 g3 H12 H23. eapply Forall2_trans_same; [|exact H12|exact H23].
    apply level_evolves_trans.
  - intros g0 g1. apply grid_op_levels_evolve.
Qed.

Lemma grid_levels_settle_run (evs : list (Grid.event F)) (e e' : Grid.engine F)
    pl g :
  Forall (fun ev => Grid.undivided ev = true) evs ->
  Grid.run e evs = Some e' ->
  Grid.grid_at e pl = Some g ->
  exists pl' g',
    Grid.grid_at e' pl' = Some g' /\
    Forall2 level_settles (Grid.grid_levels g) (Grid.grid_levels g') /\
    (forall gid, pl = Grid.Registered gid -> Grid.created_once e' gid ->
                 pl' = Grid.Registered gid).
Proof.
  intros Hu Hrun Hg.
  eapply (grid_run_tracks true
            (fun g g' => Forall2 level_settles (Grid.grid_levels g)
                                               (Grid.grid_levels g')));
    [| | |intros _; exact Hu|exact Hrun|exact Hg].
  - intros g0. apply Forall2_refl_same, level_settles_refl.
  - intros g1 g2 g3 H12 H23. eapply Forall2_trans_same; [|exact H12|exact H23].
    apply level_settles_trans.
  - intros g0 g1. apply grid_op_levels_settle.
Qed.

(** A level that is PENDING has no order id, in every record. *)
Lemma unordered_created (g : Grid.grid F) :
  grid_created g -> Forall level_unordered (Grid.grid_levels g).
Proof.
  intros (_ & _ & _ & -> & _). apply Forall_forall. intros l Hl.
  apply list_elem_of_fmap in Hl as (i & -> & _). by intros _.
Qed.

Lemma unordered_op (g g' : Grid.grid F) :
  Forall level_unordered (Grid.grid_levels g) -> grid_op false g g' ->
  Forall level_unordered (Grid.grid_levels g').
Proof.
  intros Hall Hop. destruct Hop as [g|g now|g ls Hls|g]; simpl; try done.
  apply Forall_lookup. intros i l' Hl'.
  destruct (Forall2_lookup_r _ _ _ _ _ Hls Hl') as (l & Hl & Hcase).
  pose proof (proj1 (Forall_lookup _ _) Hall i l Hl) as Hu.
  destruct Hcase as [->|Hop]; [done|].
  destruct Hop; intros Hp; simpl in Hp; discriminate Hp.
Qed.

Lemma unordered_reachable (e : Grid.engine F) :
  Grid.reachable e ->
  grid_everywhere (fun g => Forall level_unordered (Grid.grid_levels g)) e.
Proof.
  apply grid_everywhere_reachable.
  - apply unordered_created.
  - apply unordered_op.
Qed.

Lemma cancel_levels_unordered symbol cancel_ok (ls : list (Grid.grid_level F)) :
  Forall level_unordered ls -> Grid.cancel_levels symbol cancel_ok ls = (ls, []).
Proof.
  induction 1 as [|l ls Hl Hls IH]; simpl; [done|].
  rewrite IH. unfold Grid.cancel_level.
  destruct (String.eqb_spec (Grid.level_status l) "PENDING") as [Hp|Hp];
    [|done].
  by rewrite (Hl Hp).
Qed.

Lemma stop_grid_strategy_unordered
    (self : gmap string (Grid.grid F)) gid g cancel_ok now :
  self !! gid = Some g ->
  Forall level_unordered (Grid.grid_levels g) ->
  Grid.stop_grid_strategy self gid cancel_ok now
  = Ok (<[gid := Grid.set_stopped_time now (Grid.set_status "STOPPED" g)]> self,
        {| Grid.stopped_grid_id := gid;
           Grid.stopped_status := "STOPPED";
           Grid.stopped_total_orders := Grid.total_orders g;
           Grid.stopped_executed_orders := Grid.executed_orders g;
           Grid.stopped_stopped_time := now |},
        []).
Proof.
  intros Hg Ho. unfold Grid.stop_grid_strategy. rewrite Hg. simpl.
  rewrite (cancel_levels_unordered _ _ _ Ho). by destruct g.
Qed.

(** The calls of the steps that run undivided: none is a cancellation. *)
Lemma grid_step_calls (e e' : Grid.engine F) ev :
  grid_everywhere (fun g => Forall level_unordered (Grid.grid_levels g)) e ->
  Grid.undivided ev = true ->
  Grid.step e ev = Some e' ->
  filter (fun c => Grid.is_cancel c = true) (Grid.calls e')
  = filter (fun c => Grid.is_cancel c = true) (Grid.calls e).
Proof.
  intros Hall Hu.
  destruct ev as [sym gt up lo n q ps now|gid c now|gid ok now|j c now|gid|k ok now];
    try discriminate Hu; simpl.
  - destruct (Grid.create_grid_strategy _ _ _ _ _ _ _ _ _) as [[self r]|];
      by intros [= <-].
  - unfold Grid.thread_step.
    destruct (Grid.threads e !! gid) as [[|price i|]|]; try done;
      destruct (Grid.active_grids e !! gid) as [g|] eqn:Hg; try done.
    + destruct (String.eqb (Grid.status g) "ACTIVE"); intros [= <-]; simpl;
        [|done].
      rewrite filter_app. simpl. rewrite filter_cons_False, filter_nil by done.
      by rewrite app_nil_r.
    + destruct (Grid.grid_levels g !! i) as [l|]; [|by intros [= <-]].
      unfold Grid.check_level, Grid.execute_grid_order_on.
      destruct (String.eqb (Grid.level_status l) "PENDING"
                && Grid._should_trigger_order price (Grid.level_price l)
                     (Grid.grid_type g));
        [destruct (futures_create_order c)|]; intros [= <-]; simpl;
        rewrite filter_app; simpl;
        rewrite ?filter_cons_False, ?filter_nil by done; by rewrite app_nil_r.
  - unfold Grid.stop_grid_strategy.
    destruct (Grid.active_grids e !! gid) as [g|] eqn:Hg; [|by intros [= <-]].
    simpl. rewrite cancel_levels_unordered
      by (apply (Hall (Grid.Registered gid) g Hg)).
    intros [= <-]. simpl. by rewrite app_nil_r.
  - unfold Grid.stale_step.
    destruct (Grid.stale e !! j) as [t|]; [|done].
    destruct (Grid.stale_pc t) as [|price i|]; [| |done].
    + destruct (String.eqb (Grid.status (Grid.stale_record t)) "ACTIVE");
        intros [= <-]; simpl; [|done].
      rewrite filter_app. simpl. rewrite filter_cons_False, filter_nil by done.
      by rewrite app_nil_r.
    + destruct (Grid.grid_levels (Grid.stale_record t) !! i) as [l|];
        [|by intros [= <-]].
      destruct (String.eqb (Grid.level_status l) "PENDING"
                && Grid._should_trigger_order price (Grid.level_price l)
                     (Grid.grid_type (Grid.stale_record t)));
        [|by intros [= <-]].
      destruct (Grid.active_grids e !! Grid.stale_id t) as [current|];
        [|by intros [= <-]].
      unfold Grid.execute_grid_order_for.
      destruct (futures_create_order c); intros [= <-]; simpl;
        rewrite filter_app; simpl;
        rewrite ?filter_cons_False, ?filter_nil by done; by rewrite app_nil_r.
Qed.

Lemma grid_run_calls (evs : list (Grid.event F)) (e e' : Grid.engine F) :
  grid_everywhere (fun g => Forall level_unordered (Grid.grid_levels g)) e ->
  Forall (fun ev => Grid.undivided ev = true) evs ->
  Grid.run e evs = Some e' ->
  filter (fun c => Grid.is_cancel c = true) (Grid.calls e')
  = filter (fun c => Grid.is_cancel c = true) (Grid.calls e).
Proof.
  revert e. induction evs as [|ev evs IH]; simpl; intros e Hall Hu Hrun.
  - by injection Hrun as <-.
  - destruct (Grid.step e ev) as [e1|] eqn:Hstep; [|discriminate].
    inversion Hu as [|? ? Hev Hevs]; subst.
    rewrite (IH e1); [by eapply grid_step_calls| |done|done].
    eapply (grid_everywhere_step _ unordered_created unordered_op); done.
Qed.
End GridLevels.

(** ** Grid prices in exact arithmetic *)

Lemma div_half_even_near (a b : Z) :
  (0 < b)%Z ->
  (- b <= 2 * (a - b * div_half_even a b) <= b)%Z.
Proof.
  intros Hb. unfold div_half_even.
  pose proof (Z.div_mod a b ltac:(lia)) as Hdm.
  pose proof (Z.mod_pos_bound a b Hb) as Hr.
  destruct (Z.compare_spec (2 * (a mod b)) b) as [He|Hl|Hg];
    [destruct (Z.even (a / b))| |]; nia.
Qed.

Lemma div_half_even_mono (a1 b1 a2 b2 : Z) :
  (0 < b1)%Z -> (0 < b2)%Z -> (a1 * b2 < a2 * b1)%Z ->
  (div_half_even a1 b1 <= div_half_even a2 b2)%Z.
Proof.
  intros Hb1 Hb2 Hlt.
  pose proof (div_half_even_near a1 b1 Hb1) as H1.
  pose proof (div_half_even_near a2 b2 Hb2) as H2.
  set (n1 := div_half_even a1 b1) in *. set (n2 := div_half_even a2 b2) in *.
  destruct (Z_le_gt_dec n1 n2) as [|Hgt]; [done|exfalso].
  assert (2 * a1 * b2 >= (2 * n2 + 1) * b1 * b2)%Z by nia.
  assert (2 * a2 * b1 <= (2 * n2 + 1) * b1 * b2)%Z by nia.
  nia.
Qed.

Lemma Qc_round2_mono (x y : Qc) : (x <= y)%Qc -> (Qc_round2 x <= Qc_round2 y)%Qc.
Proof.
  intros Hle. destruct (Qcle_lt_or_eq _ _ Hle) as [Hlt| ->]; [|apply Qcle_refl].
  unfold Qc_round2, Qcle. simpl. apply Qred_le. unfold Qle. simpl.
  apply Z.mul_le_mono_nonneg_r; [lia|].
  apply div_half_even_mono; [lia..|].
  unfold Qclt, Qlt in Hlt. lia.
Qed.

Lemma Qc_grid_step_pos (g : Grid.grid Qc) :
  grid_created g -> (0 < Grid.price_step g)%Qc.
Proof.
  intros (Hn & Hul & Hps & _). apply Qc_fleb_false in Hul.
  unfold py_div_int, py_div in Hps. simpl in Hps.
  destruct (bool_decide (Qc_of_Z (Grid.grid_count g - 1) = 0%Qc)) eqn:Hz;
    [discriminate|].
  injection Hps as <-. apply bool_decide_eq_false in Hz.
  apply Qc_slice_pos.
  - destruct (decide (Grid.grid_count g - 1 = 0)%Z) as [E|E]; [|lia].
    rewrite E in Hz. by rewrite Z2Qc_inj_0 in Hz.
  - apply (Qcplus_lt_mono_r _ _ (Grid.lower_price g)).
    replace (Grid.upper_price g - Grid.lower_price g + Grid.lower_price g)%Qc
      with (Grid.upper_price g) by ring.
    by rewrite Qcplus_0_l.
Qed.

Lemma Qc_new_level_mono (lower_price price_step order_quantity : Qc) (i j : Z) :
  (0 < price_step)%Qc -> (i <= j)%Z ->
  (Grid.level_price (Grid.new_level lower_price price_step order_quantity i)
   <= Grid.level_price (Grid.new_level lower_price price_step order_quantity j))%Qc.
Proof.
  intros Hps Hij. simpl. apply Qc_round2_mono.
  apply Qcplus_le_mono_l. apply Qcmult_le_mono_pos_r; [done|].
  exact (proj1 (Z2Qc_inj_le i j) Hij).
Qed.

Lemma Qc_grid_prices_sorted (g : Grid.grid Qc) (i j : nat) li lj :
  grid_created g -> (i <= j)%nat ->
  Grid.grid_levels g !! i = Some li -> Grid.grid_levels g !! j = Some lj ->
  (Grid.level_price li <= Grid.level_price lj)%Qc.
Proof.
  intros Hg Hij Hi Hj. pose proof (Qc_grid_step_pos g Hg) as Hps.
  destruct Hg as (_ & _ & _ & Hlv & _). rewrite Hlv in Hi, Hj.
  change (map ?f ?l) with (f <$> l) in Hi, Hj.
  rewrite list_lookup_fmap in Hi, Hj.
  destruct (seqZ 0 (Grid.grid_count g) !! i) as [zi|] eqn:Hzi; [|discriminate].
  destruct (seqZ 0 (Grid.grid_count g) !! j) as [zj|] eqn:Hzj; [|discriminate].
  apply lookup_seqZ in Hzi as [-> _]. apply lookup_seqZ in Hzj as [-> _].
  injection Hi as <-. injection Hj as <-.
  apply Qc_new_level_mono; [done|lia].
Qed.

(** ** The grid claims *)

(** C2. A grid of one level passes the validation and then fails: the
    price step divides by [grid_count - 1], which is zero. *)
Theorem create_grid_single_level_raises :
  (forall self symbol position_side now,
     Grid.create_grid_strategy (F:=float) self symbol "BUY"
       55000%float 45000%float 1 0.001%float position_side now
     = Raise ZeroDivisionError) /\
  (forall self symbol position_side now,
     Grid.create_grid_strategy (F:=Qc) self symbol "BUY"
       (Qc_of_Z 55000) (Qc_of_Z 45000) 1 (Q2Qc (1 # 1000)) position_side now
     = Raise ZeroDivisionError).
Proof. split; intros; vm_compute; reflexivity. Qed.

(** C7. The trigger of a level: for BUY the current price is at or below
    the level's price, for SELL at or above it, and for BOTH the distance
    between the two is below the level's price times 0.001. *)
Theorem should_trigger_order_cases (F : Type) (A : Arith F)
    (current_price level_price : F) :
  Grid._should_trigger_order current_price level_price "BUY"
    = fleb current_price level_price /\
  Grid._should_trigger_order current_price level_price "SELL"
    = fleb level_price current_price /\
  Grid._should_trigger_order current_price level_price "BOTH"
    = fltb (fabs (fsub current_price level_price)) (fmul level_price milli).
Proof. split_and!; reflexivity. Qed.



(** C10, as the code has it. The same stop run while the monitor places
    an order sends a cancellation to the exchange: the stop read the status
    of the first level while it was PENDING and its order id once the monitor
    had assigned it. *)
Lemma grid_stop_cancels_placed_order :
  exists (e : Grid.engine float),
    Grid.reachable e /\
    Grid.stale e = [] /\
    filter (fun c => Grid.is_cancel c = true) (Grid.calls e)
    = [Grid.futures_cancel_order_call "BTCUSDT" 7].
Proof.
  exists (grid_after (grid_race_start ++ grid_race_end)). split_and!.
  - exists (grid_race_start ++ grid_race_end). vm_compute. reflexivity.
  - vm_compute. reflexivity.
  - vm_compute. reflexivity.
Qed.

(** C10, amended. In every reachable state a PENDING level has no order
    id, in every record; hence a stop that runs undivided on a reachable
    state cancels nothing, and as long as every call runs undivided no
    cancellation is ever sent to the exchange. *)
Theorem grid_pending_has_no_order (F : Type) (A : Arith F) :
  (forall (e : Grid.engine F) pl g l,
     Grid.reachable e ->
     Grid.grid_at e pl = Some g -> l ∈ Grid.grid_levels g ->
     Grid.level_status l = "PENDING" -> Grid.level_order_id l = None) /\
  (forall (e : Grid.engine F) gid cancel_ok now self r cs,
     Grid.reachable e ->
     Grid.stop_grid_strategy (Grid.active_grids e) gid cancel_ok now
       = Ok (self, r, cs) -> cs = []) /\
  (forall (e : Grid.engine F) evs,
     Grid.run Grid.empty_engine evs = Some e ->
     Forall (fun ev => Grid.undivided ev = true) evs ->
     filter (fun c => Grid.is_cancel c = true) (Grid.calls e) = []).
Proof.
  split_and!.
  - intros e pl g l Hr Hg Hl Hp.
    pose proof (unordered_reachable e Hr pl g Hg) as Hall.
    by apply (proj1 (Forall_forall _ _) Hall l Hl).
  - intros e gid cancel_ok now self r cs Hr. unfold Grid.stop_grid_strategy.
    destruct (Grid.active_grids e !! gid) as [g|] eqn:Hg; [|discriminate].
    simpl. rewrite (cancel_levels_unordered _ _ _
                      (unordered_reachable e Hr (Grid.Registered gid) g Hg)).
    by intros [= _ _ <-].
  - intros e evs Hrun Hu.
    rewrite (grid_run_calls evs Grid.empty_engine e); [done| |done|done].
    intros [gid|j] g Hg; simpl in Hg; [by rewrite lookup_empty in Hg|done].
Qed.



(** ** Stopping *)

(** C1, amended. Stopping a registered strategy always succeeds, whatever
    its status: the status becomes STOPPED and the end time is stamped. A
    second stop returns the same summary for a TWAP, and for a grid the same
    summary but for the time; the record differs from the one after the
    first stop in the time only (for a grid: in every reachable state). *)
Theorem stop_twice (F : Type) (A : Arith F) :
  (forall (self : gmap string (TWAP.strategy F)) sid s now1 now2,
     self !! sid = Some s ->
     exists self1 self2 r,
       TWAP.stop_twap_strategy self sid now1 = Ok (self1, r) /\
       TWAP.stop_twap_strategy self1 sid now2 = Ok (self2, r) /\
       r = {| TWAP.stopped_strategy_id := sid;
              TWAP.stopped_status := "STOPPED";
              TWAP.stopped_total_executed := TWAP.total_executed s;
              TWAP.stopped_remaining_quantity := TWAP.remaining_quantity s;
              TWAP.stopped_average_price := TWAP.average_price s |} /\
       self1 = <[sid := TWAP.set_end_time now1 (TWAP.set_status "STOPPED" s)]> self /\
       self2 = <[sid := TWAP.set_end_time now2 (TWAP.set_status "STOPPED" s)]> self) /\
  (forall (self : gmap string (Grid.grid F)) gid g ok1 ok2 now1 now2,
     self !! gid = Some g ->
     exists self1 self2 r1 r2 cs1 cs2 g1 g2,
       Grid.stop_grid_strategy self gid ok1 now1 = Ok (self1, r1, cs1) /\
       Grid.stop_grid_strategy self1 gid ok2 now2 = Ok (self2, r2, cs2) /\
       r1 = {| Grid.stopped_grid_id := gid;
               Grid.stopped_status := "STOPPED";
               Grid.stopped_total_orders := Grid.total_orders g;
               Grid.stopped_executed_orders := Grid.executed_orders g;
               Grid.stopped_stopped_time := now1 |} /\
       r2 = {| Grid.stopped_grid_id := gid;
               Grid.stopped_status := "STOPPED";
               Grid.stopped_total_orders := Grid.total_orders g;
               Grid.stopped_executed_orders := Grid.executed_orders g;
               Grid.stopped_stopped_time := now2 |} /\
       self1 !! gid = Some g1 /\ self2 !! gid = Some g2 /\
       Grid.status g1 = "STOPPED" /\ Grid.status g2 = "STOPPED" /\
       Grid.stopped_time g1 = Some now1 /\ Grid.stopped_time g2 = Some now2) /\
  (forall (e : Grid.engine F) gid g ok1 ok2 now1 now2,
     Grid.reachable e ->
     Grid.active_grids e !! gid = Some g ->
     exists self1 self2 r1 r2,
       Grid.stop_grid_strategy (Grid.active_grids e) gid ok1 now1
         = Ok (self1, r1, []) /\
       Grid.stop_grid_strategy self1 gid ok2 now2 = Ok (self2, r2, []) /\
       self1 = <[gid := Grid.set_stopped_time now1 (Grid.set_status "STOPPED" g)]>
                 (Grid.active_grids e) /\
       self2 = <[gid := Grid.set_stopped_time now2 (Grid.set_status "STOPPED" g)]>
                 (Grid.active_grids e)).
Proof.
  split_and!.
  - intros self sid s now1 now2 Hs. unfold TWAP.stop_twap_strategy.
    rewrite Hs. eexists _, _, _. split; [reflexivity|].
    rewrite lookup_insert_eq. simpl. split_and!; try reflexivity.
    by rewrite insert_insert_eq.
  - intros self gid g ok1 ok2 now1 now2 Hg. unfold Grid.stop_grid_strategy.
    rewrite Hg. simpl.
    destruct (Grid.cancel_levels (Grid.symbol g) ok1 (Grid.grid_levels g))
      as [ls1 cs1].
    destruct (Grid.cancel_levels (Grid.symbol g) ok2 ls1) as [ls2 cs2] eqn:E2.
    eexists _, _, _, _, _, _, _, _. split; [reflexivity|].
    rewrite lookup_insert_eq. simpl. rewrite E2.
    split; [reflexivity|]. rewrite !lookup_insert_eq.
    split_and!; reflexivity.
  - intros e gid g ok1 ok2 now1 now2 Hr Hg.
    pose proof (unordered_reachable e Hr (Grid.Registered gid) g Hg) as Hlv.
    eexists _, _, _, _.
    split; [by apply stop_grid_strategy_unordered|].
    split; [|split; [reflexivity|]].
    + rewrite (stop_grid_strategy_unordered _ gid
                 (Grid.set_stopped_time now1 (Grid.set_status "STOPPED" g)));
        [reflexivity|by rewrite lookup_insert_eq|done].
    + rewrite insert_insert_eq. by destruct g.
Qed.

(** * Further properties of the engines *)

(** ** A stop between the test and the slice *)

(** X6. A stop that arrives while the thread is between its status test
    and the slice does not hold the slice back: the order is still placed.
    When the exchange fills it, the fill is recorded on the STOPPED strategy;
    when the exchange rejects it, the status STOPPED is overwritten by
    ERROR. *)
Theorem twap_stop_while_sleeping (F : Type) (A : Arith F)
    (e : TWAP.engine F) sid s k c stop_time now price :
  TWAP.active_strategies e !! sid = Some s ->
  TWAP.threads e !! sid = Some (TWAP.Sleeping k) ->
  fleb (TWAP.remaining_quantity s) fzero = false ->
  futures_symbol_ticker c = Ticker price ->
  exists e' s',
    TWAP.run e [TWAP.Stop sid stop_time; TWAP.Step sid c now] = Some e' /\
    TWAP.active_strategies e' !! sid = Some s' /\
    TWAP.threads e' !! sid = Some (TWAP.AtLoop (k + 1)) /\
    TWAP.end_time s' = Some stop_time /\
    match futures_create_order c with
    | OrderPlaced orderId =>
        TWAP.status s' = "STOPPED" /\
        TWAP.executed_orders s' =
          TWAP.executed_orders s ++
          [{| TWAP.slice_num := k + 1; TWAP.order_id := orderId;
              TWAP.quantity := py_min (TWAP.slice_quantity s)
                                      (TWAP.remaining_quantity s);
              TWAP.price := price; TWAP.timestamp := now |}]
    | OrderError msg =>
        TWAP.status s' = "ERROR" /\ TWAP.error s' = Some msg /\
        TWAP.executed_orders s' = TWAP.executed_orders s
    end.
Proof.
  intros Hs Hp Hrem Hticker. simpl.
  unfold TWAP.stop_twap_strategy. rewrite Hs. simpl.
  unfold TWAP.thread_step. simpl. rewrite Hp, lookup_insert_eq.
  eexists _, _. split; [reflexivity|]. simpl.
  unfold TWAP._execute_slice. rewrite lookup_insert_eq, !lookup_insert_eq.
  split; [reflexivity|]. split; [done|].
  unfold TWAP.execute_slice_on. simpl. rewrite Hrem, Hticker.
  by destruct (futures_create_order c).
Qed.

(** ** A pass of the monitor *)

Section GridPass.
Context {F : Type} `{Arith F}.

Lemma check_level_placed (g : Grid.grid F) i l current_price (x : Z * Z) :
  Grid.grid_levels g !! i = Some l ->
  Grid.grid_levels
    (Grid.check_level g i l current_price (OrderPlaced x.1) x.2).1
  = <[i := level_after (Grid.grid_type g) current_price x l]> (Grid.grid_levels g) /\
  Grid.grid_type (Grid.check_level g i l current_price (OrderPlaced x.1) x.2).1
  = Grid.grid_type g /\
  Grid.status (Grid.check_level g i l current_price (OrderPlaced x.1) x.2).1
  = Grid.status g.
Proof.
  intros Hl. unfold Grid.check_level, level_after.
  destruct (String.eqb (Grid.level_status l) "PENDING"
            && Grid._should_trigger_order current_price (Grid.level_price l)
                 (Grid.grid_type g)); simpl; [done|].
  by rewrite list_insert_id.
Qed.

(** The rest of a pass of the monitor over the levels, from level [j]. *)
Lemma grid_pass_from (gid : string) (price : F) (xs : list (Z * Z)) :
  forall (e : Grid.engine F) g (j : nat),
    Grid.active_grids e !! gid = Some g ->
    Grid.threads e !! gid = Some (Grid.AtLevel price j) ->
    (j + length xs = length (Grid.grid_levels g))%nat ->
    exists e' g',
      Grid.run e (grid_steps gid price xs) = Some e' /\
      Grid.active_grids e' !! gid = Some g' /\
      Grid.threads e' !! gid
        = Some (Grid.AtLevel price (length (Grid.grid_levels g))) /\
      length (Grid.grid_levels g') = length (Grid.grid_levels g) /\
      Grid.status g' = Grid.status g /\
      (forall i l, (i < j)%nat -> Grid.grid_levels g !! i = Some l ->
                   Grid.grid_levels g' !! i = Some l) /\
      (forall i l x,
         Grid.grid_levels g !! (j + i)%nat = Some l -> xs !! i = Some x ->
         Grid.grid_levels g' !! (j + i)%nat
         = Some (level_after (Grid.grid_type g) price x l)).
Proof.
  induction xs as [|x xs IH]; intros e g j Hg Hp Hlen; simpl in Hlen.
  - exists e, g. split_and!; try done. rewrite Hp. do 2 f_equal. lia.
  - destruct (lookup_lt_is_Some_2 (Grid.grid_levels g) j ltac:(lia)) as [l Hl].
    destruct (check_level_placed g j l price x Hl) as (Hlv1 & Hgt1 & Hst1).
    destruct (Grid.check_level g j l price (OrderPlaced x.1) x.2) as [g1 cs] eqn:Hc.
    simpl in Hlv1, Hgt1, Hst1.
    pose (e1 := {| Grid.active_grids := <[gid := g1]> (Grid.active_grids e);
                   Grid.threads :=
                     <[gid := Grid.AtLevel price (S j)]> (Grid.threads e);
                   Grid.calls := Grid.calls e ++ cs;
                   Grid.stale := Grid.stale e; Grid.stoppers := Grid.stoppers e |}).
    assert (Grid.step e (Grid.Step gid (filling price x.1) x.2) = Some e1) as H1.
    { simpl. unfold Grid.thread_step. rewrite Hp, Hg, Hl. simpl. by rewrite Hc. }
    destruct (IH e1 g1 (S j)) as (e' & g' & Hrun & Hg' & Hp' & Hlen' & Hst' & Hlow & Hhigh).
    { apply lookup_insert_eq. }
    { apply lookup_insert_eq. }
    { rewrite Hlv1, length_insert. lia. }
    rewrite Hlv1, length_insert in Hp', Hlen'. rewrite Hgt1 in Hhigh.
    exists e', g'. split_and!; try done.
    + unfold grid_steps in *. cbn [map Grid.run]. by rewrite H1.
    + congruence.
    + intros i l0 Hi Hl0. apply Hlow; [lia|].
      rewrite Hlv1, list_lookup_insert_ne by lia. done.
    + intros i l0 x0 Hl0 Hx0. destruct i as [|i]; simpl in Hx0.
      * injection Hx0 as <-. rewrite Nat.add_0_r in *.
        assert (l0 = l) as -> by congruence.
        apply Hlow; [lia|]. rewrite Hlv1. apply list_lookup_insert_eq.
        by eapply lookup_lt_Some.
      * replace (j + S i)%nat with (S j + i)%nat in * by lia.
        apply Hhigh; [|done]. rewrite Hlv1, list_lookup_insert_ne by lia. done.
Qed.
End GridPass.

(** X19. Stopping a grid does not interrupt the pass its monitor is in:
    when the monitor stands before a PENDING level that the polled price
    triggers, the order for that level is still sent after the stop, and the
    level of the STOPPED grid becomes EXECUTED, or ERROR when the exchange
    rejects the order. *)
Theorem grid_stop_during_pass (F : Type) (A : Arith F)
    (e : Grid.engine F) gid g price i l c cancel_ok stop_time now :
  Grid.reachable e ->
  Grid.active_grids e !! gid = Some g ->
  Grid.threads e !! gid = Some (Grid.AtLevel price i) ->
  Grid.grid_levels g !! i = Some l ->
  Grid.level_status l = "PENDING" ->
  Grid._should_trigger_order price (Grid.level_price l) (Grid.grid_type g) = true ->
  exists e' g' l',
    Grid.run e [Grid.Stop gid cancel_ok stop_time; Grid.Step gid c now] = Some e' /\
    Grid.active_grids e' !! gid = Some g' /\
    Grid.status g' = "STOPPED" /\
    Grid.calls e' =
      Grid.calls e ++
      [Grid.futures_create_order_call (Grid.symbol g)
         (Grid.order_side (Grid.grid_type g)) (Grid.level_quantity l)
         (Grid.level_price l) (Grid.position_side g)] /\
    Grid.grid_levels g' !! i = Some l' /\
    l' = match futures_create_order c with
         | OrderPlaced orderId => Grid.executed orderId now l
         | OrderError msg => Grid.failed msg l
         end.
Proof.
  intros Hr Hg Hp Hl Hpend Htrig.
  pose proof (unordered_reachable e Hr (Grid.Registered gid) g Hg) as Hord.
  pose proof (lookup_lt_Some _ _ _ Hl) as Hlt.
  pose (g1 := Grid.set_stopped_time stop_time (Grid.set_status "STOPPED" g)).
  pose (e1 := {| Grid.active_grids := <[gid := g1]> (Grid.active_grids e);
                 Grid.threads := Grid.threads e;
                 Grid.calls := Grid.calls e ++ [];
                 Grid.stale := Grid.stale e; Grid.stoppers := Grid.stoppers e |}).
  assert (Grid.step e (Grid.Stop gid cancel_ok stop_time) = Some e1) as H1.
  { simpl. unfold Grid.stop_grid_strategy. rewrite Hg. simpl.
    by rewrite (cancel_levels_unordered _ _ _ Hord). }
  pose (l' := match futures_create_order c with
              | OrderPlaced orderId => Grid.executed orderId now l
              | OrderError msg => Grid.failed msg l
              end).
  pose (request := Grid.futures_create_order_call (Grid.symbol g)
                     (Grid.order_side (Grid.grid_type g)) (Grid.level_quantity l)
                     (Grid.level_price l) (Grid.position_side g)).
  assert (exists g',
            Grid.check_level g1 i l price (futures_create_order c) now
              = (g', [request]) /\
            Grid.status g' = "STOPPED" /\
            Grid.grid_levels g' = <[i := l']> (Grid.grid_levels g))
    as (g' & Hc & Hst' & Hlv').
  { unfold Grid.check_level.
    change (Grid.grid_type g1) with (Grid.grid_type g). rewrite Hpend, Htrig.
    simpl. unfold Grid.execute_grid_order_on, l'.
    destruct (futures_create_order c); by eexists. }
  assert (Grid.step e1 (Grid.Step gid c now)
          = Some {| Grid.active_grids := <[gid := g']> (Grid.active_grids e1);
                    Grid.threads :=
                      <[gid := Grid.AtLevel price (S i)]> (Grid.threads e1);
                    Grid.calls := Grid.calls e1 ++ [request];
                    Grid.stale := Grid.stale e1;
                    Grid.stoppers := Grid.stoppers e1 |}) as H2.
  { simpl. unfold Grid.thread_step. simpl. rewrite Hp, lookup_insert_eq.
    change (Grid.grid_levels g1) with (Grid.grid_levels g). rewrite Hl.
    by rewrite Hc. }
  eexists _, g', l'. split_and!.
  - cbn [Grid.run]. rewrite H1, H2. reflexivity.
  - simpl. apply lookup_insert_eq.
  - done.
  - simpl. by rewrite app_nil_r.
  - rewrite Hlv'. by apply list_lookup_insert_eq.
  - done.
Qed.

(** X20. One pass of the monitor of an ACTIVE grid against an exchange
    that quotes a price and places every order: after the poll and one step
    per level, every level that was PENDING and that the price triggers is
    EXECUTED with the order id and time of its step, and every other level
    is as it was. *)
Theorem grid_pass_executes_triggered (F : Type) (A : Arith F)
    (e : Grid.engine F) gid g (price : F) (x0 : Z * Z) (xs : list (Z * Z)) :
  Grid.active_grids e !! gid = Some g ->
  Grid.threads e !! gid = Some Grid.AtWhile ->
  Grid.status g = "ACTIVE" ->
  length xs = length (Grid.grid_levels g) ->
  exists e' g',
    Grid.run e (grid_steps gid price (x0 :: xs)) = Some e' /\
    Grid.active_grids e' !! gid = Some g' /\
    Grid.threads e' !! gid
      = Some (Grid.AtLevel price (length (Grid.grid_levels g))) /\
    Grid.status g' = "ACTIVE" /\
    length (Grid.grid_levels g') = length (Grid.grid_levels g) /\
    forall (i : nat) l x,
      Grid.grid_levels g !! i = Some l -> xs !! i = Some x ->
      Grid.grid_levels g' !! i
      = Some (if String.eqb (Grid.level_status l) "PENDING"
                 && Grid._should_trigger_order price (Grid.level_price l)
                      (Grid.grid_type g)
              then Grid.executed x.1 x.2 l
              else l).
Proof.
  intros Hg Hp Hst Hlen.
  pose (e1 := {| Grid.active_grids := Grid.active_grids e;
                 Grid.threads := <[gid := Grid.AtLevel price 0]> (Grid.threads e);
                 Grid.calls :=
                   Grid.calls e ++ [Grid.futures_symbol_ticker_call (Grid.symbol g)];
                 Grid.stale := Grid.stale e; Grid.stoppers := Grid.stoppers e |}).
  assert (Grid.step e (Grid.Step gid (filling price x0.1) x0.2) = Some e1) as H1.
  { simpl. unfold Grid.thread_step. by rewrite Hp, Hg, Hst. }
  destruct (grid_pass_from gid price xs e1 g 0%nat Hg
              ltac:(apply lookup_insert_eq) ltac:(simpl; lia))
    as (e' & g' & Hrun & Hg' & Hp' & Hlen' & Hst' & _ & Hhigh).
  exists e', g'. split_and!; try done.
  - unfold grid_steps in *. cbn [map Grid.run]. by rewrite H1.
  - congruence.
Qed.

(** ** The reports *)

Section GetAll.
Context {F : Type} `{Arith F}.

Lemma mapM_result_Ok {A B : Type} (f : A -> result B) (ks : list A) :
  (forall k, k ∈ ks -> exists r, f k = Ok r) ->
  exists rs, mapM f ks = Ok rs /\ Forall2 (fun k r => f k = Ok r) ks rs.
Proof.
  induction ks as [|k ks IH]; intros Hks; simpl.
  - exists []. split; [done|constructor].
  - destruct (Hks k ltac:(left)) as [r Hr].
    destruct IH as (rs & Hrs & Hall).
    { intros k' Hk'. apply Hks. by right. }
    exists (r :: rs). rewrite Hr. simpl. rewrite Hrs. simpl.
    split; [done|by constructor].
Qed.
End GetAll.


(** * The theorems at concrete runs *)

Lemma stop_twice_witness :
  exists s self1 self2 r,
    TWAP.active_strategies
      (twap_after (twap_events 0.01%float 50000%float 2 5)) !! twap_id = Some s /\
    TWAP.stop_twap_strategy
      (TWAP.active_strategies
         (twap_after (twap_events 0.01%float 50000%float 2 5)))
      twap_id 1700000100%Z = Ok (self1, r) /\
    TWAP.stop_twap_strategy self1 twap_id 1700000200%Z = Ok (self2, r).
Proof.
  assert (exists s,
            TWAP.active_strategies
              (twap_after (twap_events 0.01%float 50000%float 2 5)) !! twap_id
            = Some s) as (s & Hs).
  { eexists. vm_compute. reflexivity. }
  destruct (proj1 (stop_twice float float_arith)
              (TWAP.active_strategies
                 (twap_after (twap_events 0.01%float 50000%float 2 5)))
              twap_id s 1700000100%Z 1700000200%Z Hs)
    as (self1 & self2 & r & H1 & H2 & _).
  exists s, self1, self2, r. split; [exact Hs|]. split; [exact H1|exact H2].
Defined.


Lemma twap_completed_sum_witness :
  exists s,
    TWAP.reachable (twap_after (twap_events (Q2Qc (1 # 100)) (Qc_of_Z 50000) 4 9)) /\
    TWAP.active_strategies
      (twap_after (twap_events (Q2Qc (1 # 100)) (Qc_of_Z 50000) 4 9)) !! twap_id
      = Some s /\
    TWAP.started_once
      (twap_after (twap_events (Q2Qc (1 # 100)) (Qc_of_Z 50000) 4 9)) twap_id /\
    TWAP.status s = "COMPLETED" /\
    fold_left Qcplus (map TWAP.quantity (TWAP.executed_orders s)) 0%Qc
      = TWAP.total_quantity s /\
    Z.of_nat (length (TWAP.executed_orders s)) = TWAP.num_slices s /\
    TWAP.remaining_quantity s = 0%Qc.
Proof.
  assert (TWAP.reachable
            (twap_after (twap_events (Q2Qc (1 # 100)) (Qc_of_Z 50000) 4 9))) as Hr.
  { exists (twap_events (Q2Qc (1 # 100)) (Qc_of_Z 50000) 4 9).
    vm_compute. reflexivity. }
  assert (TWAP.started_once
            (twap_after (twap_events (Q2Qc (1 # 100)) (Qc_of_Z 50000) 4 9))
            twap_id) as Ho.
  { unfold TWAP.started_once.
    assert (TWAP.stale
              (twap_after (twap_events (Q2Qc (1 # 100)) (Qc_of_Z 50000) 4 9))
            = []) as -> by (vm_compute; reflexivity).
    constructor. }
  assert (exists s,
            TWAP.active_strategies
              (twap_after (twap_events (Q2Qc (1 # 100)) (Qc_of_Z 50000) 4 9))
              !! twap_id = Some s /\
            TWAP.status s = "COMPLETED") as (s & Hs & Hst).
  { eexists. split; [vm_compute; reflexivity|reflexivity]. }
  destruct (proj2 twap_completed_sum _ twap_id s Hr Hs Ho Hst)
    as (Hsum & Hlen & Hrem & _).
  exists s. split; [exact Hr|]. split; [exact Hs|]. split; [exact Ho|].
  split; [exact Hst|]. split; [exact Hsum|]. split; [exact Hlen|exact Hrem].
Defined.




Lemma twap_update_statement_by_statement_witness :
  exists s,
    TWAP.reachable (twap_after (twap_events (Q2Qc (1 # 100)) (Qc_of_Z 50000) 4 1)) /\
    TWAP.active_strategies
      (twap_after (twap_events (Q2Qc (1 # 100)) (Qc_of_Z 50000) 4 1)) !! twap_id
      = Some s /\
    fleb (TWAP.remaining_quantity s) fzero = false /\
    let o := {| TWAP.slice_num := 1; TWAP.order_id := 1;
                TWAP.quantity := py_min (TWAP.slice_quantity s)
                                        (TWAP.remaining_quantity s);
                TWAP.price := Qc_of_Z 50000; TWAP.timestamp := 1700000060 |} in
    (TWAP.remaining_quantity (TWAP.update_prefix 2 o s)
     + TWAP.total_executed (TWAP.update_prefix 2 o s))%Qc
      <> TWAP.total_quantity s /\
    (TWAP.remaining_quantity (TWAP.update_prefix 4 o s)
     + TWAP.total_executed (TWAP.update_prefix 4 o s))%Qc
      = TWAP.total_quantity s.
Proof.
  assert (TWAP.reachable
            (twap_after (twap_events (Q2Qc (1 # 100)) (Qc_of_Z 50000) 4 1))) as Hr.
  { exists (twap_events (Q2Qc (1 # 100)) (Qc_of_Z 50000) 4 1).
    vm_compute. reflexivity. }
  assert (exists s,
            TWAP.active_strategies
              (twap_after (twap_events (Q2Qc (1 # 100)) (Qc_of_Z 50000) 4 1))
              !! twap_id = Some s /\
            fleb (TWAP.remaining_quantity s) fzero = false) as (s & Hs & Hguard).
  { eexists. split; [vm_compute; reflexivity|vm_compute; reflexivity]. }
  exists s. split; [exact Hr|]. split; [exact Hs|]. split; [exact Hguard|].
  exact (proj2 twap_update_statement_by_statement
           (twap_after (twap_events (Q2Qc (1 # 100)) (Qc_of_Z 50000) 4 1))
           twap_id s 1%Z 1700000060%Z (Qc_of_Z 50000) 1%Z Hr Hs Hguard).
Defined.

Lemma grid_pending_has_no_order_witness :
  Grid.run Grid.empty_engine
    (grid_events 55000%float 45000%float 5 0.001%float
       [Grid.Step grid_id (filling 44000%float 7) 1700000005;
        Grid.Step grid_id (filling 44000%float 7) 1700000005;
        Grid.Stop grid_id (fun _ => true) 1700000010])
  = Some (grid_after
            (grid_events 55000%float 45000%float 5 0.001%float
               [Grid.Step grid_id (filling 44000%float 7) 1700000005;
                Grid.Step grid_id (filling 44000%float 7) 1700000005;
                Grid.Stop grid_id (fun _ => true) 1700000010])) /\
  filter (fun c => Grid.is_cancel c = true)
    (Grid.calls
       (grid_after
          (grid_events 55000%float 45000%float 5 0.001%float
             [Grid.Step grid_id (filling 44000%float 7) 1700000005;
              Grid.Step grid_id (filling 44000%float 7) 1700000005;
              Grid.Stop grid_id (fun _ => true) 1700000010]))) = [].
Proof.
  assert (Grid.run Grid.empty_engine
            (grid_events 55000%float 45000%float 5 0.001%float
               [Grid.Step grid_id (filling 44000%float 7) 1700000005;
                Grid.Step grid_id (filling 44000%float 7) 1700000005;
                Grid.Stop grid_id (fun _ => true) 1700000010])
          = Some (grid_after
                    (grid_events 55000%float 45000%float 5 0.001%float
                       [Grid.Step grid_id (filling 44000%float 7) 1700000005;
                        Grid.Step grid_id (filling 44000%float 7) 1700000005;
                        Grid.Stop grid_id (fun _ => true) 1700000010]))) as Hrun.
  { vm_compute. reflexivity. }
  split; [exact Hrun|].
  apply (proj2 (proj2 (grid_pending_has_no_order float float_arith)) _ _ Hrun).
  repeat constructor.
Defined.

(** * The further properties at concrete runs *)

Lemma twap_stop_while_sleeping_witness :
  exists s e' s',
    TWAP.active_strategies twap_asleep !! twap_id = Some s /\
    TWAP.run twap_asleep
      [TWAP.Stop twap_id 1700000100;
       TWAP.Step twap_id (rejecting 50000%float "Order rejected") 1700000060]
    = Some e' /\
    TWAP.active_strategies e' !! twap_id = Some s' /\
    TWAP.end_time s' = Some 1700000100%Z /\
    TWAP.status s' = "ERROR" /\
    TWAP.error s' = Some "Order rejected".
Proof.
  assert (exists s,
            TWAP.active_strategies twap_asleep !! twap_id = Some s /\
            fleb (TWAP.remaining_quantity s) fzero = false) as (s & Hs & Hrem).
  { eexists. split; [vm_compute; reflexivity|reflexivity]. }
  assert (TWAP.threads twap_asleep !! twap_id = Some (TWAP.Sleeping 0)) as Hp.
  { vm_compute. reflexivity. }
  destruct (twap_stop_while_sleeping float float_arith twap_asleep twap_id s 0
              (rejecting 50000%float "Order rejected") 1700000100 1700000060
              50000%float Hs Hp Hrem eq_refl)
    as (e' & s' & Hrun & Hs' & _ & Hend & Hst & Herr & _).
  exists s, e', s'. split; [exact Hs|]. split; [exact Hrun|].
  split; [exact Hs'|]. split; [exact Hend|]. split; [exact Hst|exact Herr].
Defined.

Lemma grid_stop_during_pass_witness :
  exists g l e' g' l',
    Grid.active_grids grid_polled_run !! grid_id = Some g /\
    Grid.grid_levels g !! 0%nat = Some l /\
    Grid.run grid_polled_run
      [Grid.Stop grid_id (fun _ => true) 1700000010;
       Grid.Step grid_id (filling 44000%float 7) 1700000015] = Some e' /\
    Grid.active_grids e' !! grid_id = Some g' /\
    Grid.status g' = "STOPPED" /\
    Grid.grid_levels g' !! 0%nat = Some l' /\
    l' = Grid.executed 7 1700000015 l.
Proof.
  assert (Grid.reachable grid_polled_run) as Hr.
  { exists (grid_events 55000%float 45000%float 5 0.001%float
              [Grid.Step grid_id (filling 44000%float 7) 1700000005]).
    vm_compute. reflexivity. }
  assert (exists g l,
            Grid.active_grids grid_polled_run !! grid_id = Some g /\
            Grid.grid_levels g !! 0%nat = Some l /\
            Grid.level_status l = "PENDING" /\
            Grid._should_trigger_order 44000%float (Grid.level_price l)
              (Grid.grid_type g) = true) as (g & l & Hg & Hl & Hpend & Htrig).
  { eexists _, _. split; [vm_compute; reflexivity|].
    split; [reflexivity|]. split; reflexivity. }
  assert (Grid.threads grid_polled_run !! grid_id
          = Some (Grid.AtLevel 44000%float 0)) as Hp.
  { vm_compute. reflexivity. }
  destruct (grid_stop_during_pass float float_arith grid_polled_run grid_id g
              44000%float 0%nat l (filling 44000%float 7) (fun _ => true)
              1700000010 1700000015 Hr Hg Hp Hl Hpend Htrig)
    as (e' & g' & l' & Hrun & Hg' & Hst' & _ & Hl' & Heq).
  exists g, l, e', g', l'. split; [exact Hg|]. split; [exact Hl|].
  split; [exact Hrun|]. split; [exact Hg'|]. split; [exact Hst'|].
  split; [exact Hl'|exact Heq].
Defined.

Lemma grid_pass_executes_triggered_witness :
  exists g l e' g',
    Grid.active_grids grid_created_run !! grid_id = Some g /\
    Grid.grid_levels g !! 1%nat = Some l /\
    Grid.run grid_created_run
      (grid_steps grid_id 46000%float
         [(0%Z, 1700000005%Z); (1%Z, 1700000005%Z); (2%Z, 1700000005%Z);
          (3%Z, 1700000005%Z); (4%Z, 1700000005%Z); (5%Z, 1700000005%Z)])
    = Some e' /\
    Grid.active_grids e' !! grid_id = Some g' /\
    Grid.grid_levels g' !! 1%nat
    = Some (if String.eqb (Grid.level_status l) "PENDING"
               && Grid._should_trigger_order 46000%float (Grid.level_price l)
                    (Grid.grid_type g)
            then Grid.executed 2 1700000005 l
            else l).
Proof.
  assert (exists g l,
            Grid.active_grids grid_created_run !! grid_id = Some g /\
            Grid.grid_levels g !! 1%nat = Some l /\
            Grid.status g = "ACTIVE" /\
            length (Grid.grid_levels g) = 5%nat) as (g & l & Hg & Hl & Hst & Hlen).
  { eexists _, _. split; [vm_compute; reflexivity|].
    split; [reflexivity|]. split; reflexivity. }
  assert (Grid.threads grid_created_run !! grid_id = Some Grid.AtWhile) as Hp.
  { vm_compute. reflexivity. }
  destruct (grid_pass_executes_triggered float float_arith grid_created_run
              grid_id g 46000%float (0%Z, 1700000005%Z)
              [(1%Z, 1700000005%Z); (2%Z, 1700000005%Z); (3%Z, 1700000005%Z);
               (4%Z, 1700000005%Z); (5%Z, 1700000005%Z)]
              Hg Hp Hst)
    as (e' & g' & Hrun & Hg' & _ & _ & _ & Hlevels).
  { rewrite Hlen. reflexivity. }
  exists g, l, e', g'. split; [exact Hg|]. split; [exact Hl|].
  split; [exact Hrun|]. split; [exact Hg'|].
  exact (Hlevels 1%nat l (2%Z, 1700000005%Z) Hl eq_refl).
Defined.

